(** * DeployX: a shallow embedding of the platform layer

    The development follows the Python sources: the four platform classes
    ([platforms/github], [platforms/netlify], [platforms/vercel],
    [platforms/railway], each with its [platform.py]), the GitHub
    deployment and auto-creation helpers, the Netlify API helper, and the
    token commands of [commands/auth.py].  Python objects become records,
    methods become functions taking the object (and, where they read the
    outside world, a snapshot of it), exceptions become the [Raise] branch
    of [outcome], and what a method does to the object or to the disk is
    returned next to its result.

    A second part, [Further code], follows what these files call and
    what calls them: the git helper and the repository creation of
    [platforms/github], the secrets of [env_management.py], the names and
    the site creation of the [auto_creation.py] modules, the reading of
    command-line output in [cli_integration.py], the platform sections of
    [commands/init.py], the status and test functions of
    [commands/auth.py], and the cache of [utils/config.py].

    Conventions
    - text is [string] (8-bit characters); the whitespace and case classes
      are the ASCII ones;
    - Python truthiness of an optional string is [truthy];
    - a world snapshot is fixed for the duration of one call;
    - the answers of external tools and services (git, the [gh] and
      [netlify] programs, HTTP APIs, the file system) are fields of world
      records, one field per call that the code makes.

    Not covered: the module [platforms/railway.py], which the package
    [platforms/railway/] shadows, and the Render backend, whose class is
    not among the sources. *)

From Stdlib Require Import String Ascii ZArith List Bool Lia.
From Stdlib Require Import DecimalString.
From stdpp Require Import base option list strings gmap.

Open Scope string_scope.
Open Scope list_scope.

(** ** Python values and strings *)

Module Py.

(** Exceptions that the modelled code raises or catches.  The payload is
    what [str(e)] returns. *)
Inductive exn : Type :=
| AttributeError (msg : string)
| ConnectionError (msg : string)
| Timeout (msg : string)
| GithubException (status : Z) (msg : string)
| GitCommandError (msg : string)
| OSError (msg : string)
| KeyError (msg : string)
| OtherError (msg : string).

Definition str_exn (e : exn) : string :=
  match e with
  | AttributeError m | ConnectionError m | Timeout m
  | GithubException _ m | GitCommandError m | OSError m
  | KeyError m | OtherError m => m
  end.

(** The result of a call: a returned value or a raised exception. *)
Inductive outcome (A : Type) : Type :=
| Return (a : A)
| Raise (e : exn).
Arguments Return {A} a.
Arguments Raise {A} e.

Definition bind {A B} (m : outcome A) (k : A -> outcome B) : outcome B :=
  match m with
  | Return a => k a
  | Raise e => Raise e
  end.

(** [try: m  except Exception as e: h e] *)
Definition try_except {A} (m : outcome A) (h : exn -> outcome A) : outcome A :=
  match m with
  | Return a => Return a
  | Raise e => h e
  end.

Definition escapes {A} (m : outcome A) : Prop :=
  exists e, m = Raise e.

(** [bool(x)] for [x : Optional[str]]. *)
Definition truthy (o : option string) : bool :=
  match o with
  | None | Some "" => false
  | Some _ => true
  end.

(** [str.isspace] on ASCII: tab, LF, VT, FF, CR, FS, GS, RS, US, space. *)
Definition isspace (c : ascii) : bool :=
  let n := nat_of_ascii c in
  (Nat.leb 9 n && Nat.leb n 13) || (Nat.leb 28 n && Nat.leb n 32).

Fixpoint lstrip (s : string) : string :=
  match s with
  | String c s' => if isspace c then lstrip s' else s
  | EmptyString => EmptyString
  end.

Fixpoint rstrip (s : string) : string :=
  match s with
  | String c s' =>
      match rstrip s' with
      | EmptyString => if isspace c then EmptyString else String c EmptyString
      | r => String c r
      end
  | EmptyString => EmptyString
  end.

(** [s.strip()] *)
Definition strip (s : string) : string := rstrip (lstrip s).

(** [c.lower()] for one ASCII character. *)
Definition lower_ascii (c : ascii) : ascii :=
  let n := nat_of_ascii c in
  if Nat.leb 65 n && Nat.leb n 90 then ascii_of_nat (n + 32) else c.

Fixpoint map_chars (f : ascii -> ascii) (s : string) : string :=
  match s with
  | String c s' => String (f c) (map_chars f s')
  | EmptyString => EmptyString
  end.

(** [s.lower()] *)
Definition lower : string -> string := map_chars lower_ascii.

(** [s.replace(a, b)] for one-character [a] and [b]. *)
Definition replace_char (a b : ascii) : string -> string :=
  map_chars (fun c => if Ascii.eqb c a then b else c).

(** [s.split(sep)] for a one-character separator: never the empty list,
    empty fields are kept. *)
Fixpoint split (sep : ascii) (s : string) : list string :=
  match s with
  | EmptyString => [EmptyString]
  | String c s' =>
      if Ascii.eqb c sep then EmptyString :: split sep s'
      else match split sep s' with
           | h :: t => String c h :: t
           | [] => [String c EmptyString]
           end
  end.

Fixpoint count_char (c : ascii) (s : string) : nat :=
  match s with
  | EmptyString => 0
  | String d s' => (if Ascii.eqb d c then 1 else 0) + count_char c s'
  end.

Fixpoint prefixb (p s : string) : bool :=
  match p, s with
  | EmptyString, _ => true
  | String a p', String b s' => Ascii.eqb a b && prefixb p' s'
  | String _ _, EmptyString => false
  end.

(** [sub in s] *)
Fixpoint contains (sub s : string) : bool :=
  prefixb sub s ||
  match s with
  | EmptyString => false
  | String _ s' => contains sub s'
  end.

Arguments contains : simpl never.

(** [str(n)] for a non-negative integer. *)
Definition str_nat (n : nat) : string :=
  NilEmpty.string_of_uint (Nat.to_uint n).

(** [str(n)] for an integer. *)
Definition str_Z (n : Z) : string :=
  NilEmpty.string_of_int (Z.to_int n).

Definition eqb_str (a b : string) : bool := bool_decide (a = b).

(** [f"{x}"] for [x : Optional[str]]. *)
Definition fmt (o : option string) : string := default "None" o.

(** [os.path.basename(p)]: what follows the last slash. *)
Definition basename (p : string) : string :=
  List.last (split "/"%char p) EmptyString.

End Py.
Import Py.

(** ** [platforms/base.py]: result records *)

Record DeploymentResult := {
  success : bool;
  url : option string;
  message : string;
  deployment_id : option string
}.

Record DeploymentStatus := {
  status : string;
  status_url : option string;
  last_updated : option string;
  status_message : string
}.

(** [DeploymentStatus(status=s, message=m, url=u)] *)
Definition mkStatus (s m : string) (u : option string) : DeploymentStatus :=
  {| status := s; status_url := u; last_updated := None; status_message := m |}.

(** ** GitHub Pages URL ([platforms/github/platform.py], [deployment.py]) *)

Module PagesUrl.

(** The body shared by [GitHubPlatform.get_url] and
    [GitHubDeployment._generate_pages_url] after the [not self.repo_name]
    test: [None] stands for the early exit on [len(parts) != 2]. *)
Definition pages_url_of (name : string) : option string :=
  match split "/"%char name with
  | [username; repo] =>
      if eqb_str repo (username +:+ ".github.io")
      then Some ("https://" +:+ username +:+ ".github.io")
      else Some ("https://" +:+ username +:+ ".github.io/" +:+ repo)
  | _ => None
  end.

(** [GitHubPlatform.get_url], as a function of [self.repo_name]. *)
Definition get_url (repo_name : option string) : option string :=
  if negb (truthy repo_name) then None
  else match repo_name with
       | Some name => pages_url_of name
       | None => None
       end.

(** [GitHubDeployment._generate_pages_url]: the same, with the empty
    string in place of [None]. *)
Definition _generate_pages_url (repo_name : option string) : string :=
  if negb (truthy repo_name) then ""
  else match repo_name with
       | Some name => default "" (pages_url_of name)
       | None => ""
       end.

End PagesUrl.

(** ** The outside world, as one call observes it *)

Inductive backend := GitHub | Netlify | Vercel | Railway.

#[global]
Instance backend_eq_dec : EqDecision backend.
Proof. solve_decision. Defined.

(** What a path of the working directory holds.  [Unreadable] stands for
    every case in which [exists()] or [read_text()] raises (a directory, a
    file without read permission, undecodable bytes). *)
Inductive file_obs :=
| Text (content : string)
| Unreadable.

Record world := {
  (** [cli_integration.is_cli_available()] *)
  cli_available : backend -> bool;
  (** [cli_integration.get_token()] *)
  cli_token : backend -> option string;
  (** files of the working directory, by name *)
  files : gmap string file_obs;
  (** the process environment *)
  environ : gmap string string;
  (** [os.getcwd()] *)
  getcwd : outcome string
}.

(** ** Credential resolution: [_get_token] of the four platform classes *)

Module Credentials.

(** The middle block of [_get_token]:
<<
    try:
        token_file = Path(name)
        if token_file.exists():
            token = token_file.read_text().strip()
            if token:
                return token
    except Exception:
        pass
>>
    [Some t] when the block returns [t], [None] when control falls
    through to the environment lookup. *)
Definition read_token_file (w : world) (name : string) : option string :=
  match files w !! name with
  | Some (Text content) =>
      let token := strip content in
      if truthy (Some token) then Some token else None
  | Some Unreadable => None
  | None => None
  end.

(** The common shape of the four [_get_token] methods; they differ in
    the CLI object, the file name and the variable name only. *)
Definition get_token_from (b : backend) (token_file env_var : string)
           (w : world) : option string :=
  if cli_available w b && truthy (cli_token w b) then cli_token w b
  else match read_token_file w token_file with
       | Some token => Some token
       | None => environ w !! env_var
       end.

(** File and variable names, as written in each [platform.py]. *)
Definition token_file (b : backend) : string :=
  match b with
  | GitHub => ".deployx_token"
  | Netlify => ".deployx_netlify_token"
  | Vercel => ".deployx_vercel_token"
  | Railway => ".deployx_railway_token"
  end.

Definition env_var (b : backend) : string :=
  match b with
  | GitHub => "GITHUB_TOKEN"
  | Netlify => "NETLIFY_TOKEN"
  | Vercel => "VERCEL_TOKEN"
  | Railway => "RAILWAY_TOKEN"
  end.

(** [<Backend>Platform._get_token] *)
Definition _get_token (b : backend) (w : world) : option string :=
  get_token_from b (token_file b) (env_var b) w.

(** What each of the three sources yields on its own. *)
Definition cli_source (b : backend) (w : world) : option string :=
  if cli_available w b && truthy (cli_token w b) then cli_token w b else None.

Definition file_source (b : backend) (w : world) : option string :=
  read_token_file w (token_file b).

Definition env_source (b : backend) (w : world) : option string :=
  environ w !! env_var b.

End Credentials.

(** ** [commands/auth.py]: writing and removing token files *)

Module Auth.

(** The name lower-cased by [auth_setup_command] / [auth_clear_command]
    for each backend. *)
Definition platform_name (b : backend) : string :=
  match b with
  | GitHub => "github"
  | Netlify => "netlify"
  | Vercel => "vercel"
  | Railway => "railway"
  end.

Definition known_platform (platform : string) : bool :=
  bool_decide (platform ∈ ["github"; "vercel"; "railway"; "netlify"; "render"]).

(** [Path(f'.deployx_{platform}_token')] *)
Definition auth_token_file (platform : string) : string :=
  ".deployx_" +:+ platform +:+ "_token".

(** [_setup_platform_auth], from the point where the user has pasted
    [pasted]: strip, refuse the empty token, write the file, test the
    token ([token_ok] is the answer of [_test_platform_token]) and remove
    the file again when the test fails.  Writing is taken to succeed. *)
Definition _setup_platform_auth (platform pasted : string) (token_ok : bool)
           (fs : gmap string file_obs) : bool * gmap string file_obs :=
  let token := strip pasted in
  if negb (truthy (Some token)) then (false, fs)
  else
    let fs' := <[auth_token_file platform := Text token]> fs in
    if token_ok then (true, fs')
    else (false, delete (auth_token_file platform) fs').

(** [auth_clear_command], with the unlink taken to succeed. *)
Definition auth_clear_command (platform : string)
           (fs : gmap string file_obs) : bool * gmap string file_obs :=
  let platform := lower platform in
  if negb (known_platform platform) then (false, fs)
  else match fs !! auth_token_file platform with
       | Some _ => (true, delete (auth_token_file platform) fs)
       | None => (true, fs)
       end.

End Auth.

(** ** [utils/errors.py]

    The module is imported by every platform class but is not part of the
    sources at hand.  Its error constructors are used only through the
    [.message] of what they return, so they enter the development as
    functions to [string]; the retry decorator is modelled from the
    specification, with the two points it leaves open kept as fields. *)

Class utils_errors := {
  (** [handle_auth_error(platform, text).message] *)
  handle_auth_error : string -> string -> string;
  (** [handle_github_api_error(e).message] *)
  handle_github_api_error : exn -> string;
  (** [handle_git_error(text).message] *)
  handle_git_error : string -> string;
  (** [handle_build_error(text).message] *)
  handle_build_error : string -> string;
  (** what the retry wrapper hands back once a transient failure has used
      up the attempts *)
  on_exhausted : exn -> outcome (bool * string);
  (** what the retry wrapper hands back for a failure it does not retry *)
  on_fatal : exn -> outcome (bool * string)
}.

Module Retry.

(** Modelled from the spec: the decorator [retry_with_backoff] of
    [utils/errors.py], which is missing.  Section 4.3: at most three
    attempts; only connection failures, timeouts and 5xx-class replies
    are retried; every other failure ends the call at its first
    occurrence.  A normal return is handed back unchanged.  The state of
    the decorated object is threaded through the attempts. *)
Definition is_transient (e : exn) : bool :=
  match e with
  | ConnectionError _ | Timeout _ => true
  | GithubException code _ => (500 <=? code)%Z && (code <? 600)%Z
  | _ => false
  end.

Definition max_attempts : nat := 3.

(** One attempt, followed by at most [retries] further ones. *)
Fixpoint attempt `{utils_errors} {St : Type} (retries : nat)
         (body : St -> outcome (bool * string) * St) (s : St)
  : outcome (bool * string) * St :=
  match body s with
  | (Return r, s') => (Return r, s')
  | (Raise e, s') =>
      if is_transient e then
        match retries with
        | S k => attempt k body s'
        | O => (on_exhausted e, s')
        end
      else (on_fatal e, s')
  end.

Definition retry_with_backoff `{utils_errors} {St : Type}
           (body : St -> outcome (bool * string) * St) (s : St)
  : outcome (bool * string) * St :=
  attempt (max_attempts - 1) body s.

End Retry.

(** ** [platforms/github/deployment.py] *)

Module GitHubDeployment.

(** The working tree: a directory is the list of its entries, in the
    order in which [iterdir()] yields them. *)
#[warnings="-register-all"]
Inductive node :=
| File (data : string)
| Dir (children : list (string * node)).

Abbreviation tree := (list (string * node)).

Definition is_dir (n : node) : bool :=
  match n with Dir _ => true | File _ => false end.

Fixpoint assoc (name : string) (t : tree) : option node :=
  match t with
  | [] => None
  | (k, v) :: rest => if eqb_str k name then Some v else assoc name rest
  end.

Fixpoint remove (name : string) (t : tree) : tree :=
  match t with
  | [] => []
  | (k, v) :: rest =>
      if eqb_str k name then remove name rest else (k, v) :: remove name rest
  end.

(** Replace the entry called [name], or append it. *)
Fixpoint upsert (name : string) (n : node) (t : tree) : tree :=
  match t with
  | [] => [(name, n)]
  | (k, v) :: rest =>
      if eqb_str k name then (k, n) :: rest else (k, v) :: upsert name n rest
  end.

(** The components of a relative path as [pathlib] keeps them: empty
    components and [.] are dropped. *)
Definition path_parts (p : string) : list string :=
  List.filter (fun c => negb (eqb_str c "") && negb (eqb_str c "."))
              (split "/"%char p).

Fixpoint lookup_path (parts : list string) (n : node) : option node :=
  match parts with
  | [] => Some n
  | p :: ps =>
      match n with
      | Dir children =>
          match assoc p children with
          | Some c => lookup_path ps c
          | None => None
          end
      | File _ => None
      end
  end.

(** Whether [project_path / output_dir] lies outside the project
    directory as far as the path itself tells. *)
Definition leaves_project (output_dir : string) : bool :=
  prefixb "/" output_dir || bool_decide (".." ∈ path_parts output_dir).

(** A call to git that returned without raising.  Whether the call
    did what was asked is another matter for [push]: what it returns,
    GitPython's list of [PushInfo], is not read by the code, so a push that
    the remote rejected without an exception is recorded like any other. *)
Inductive effect :=
| EInit
| ECheckout (args : list string)
| EAdd (pathspec : string)
| ECommit (text : string)
| EPush (refspec : option string) (force : bool).

(** GitPython and the file system, as [deploy_to_branch] meets them. *)
Record deploy_world := {
  (** [Repo(project_path)] succeeds *)
  repo_opens : bool;
  (** [Repo.init(project_path)] *)
  repo_init : outcome unit;
  (** [[ref.name for ref in repo.refs]] *)
  refs : outcome (list string);
  (** [repo.git.checkout] applied to the given arguments *)
  checkout : list string -> outcome unit;
  (** the working tree that the checkout step leaves *)
  after_checkout : tree -> tree;
  (** what is left of a top-level entry once [shutil.rmtree(item,
      ignore_errors=True)] or [item.unlink(missing_ok=True)] has run;
      [None]: the entry is gone *)
  remove_result : string -> node -> option node;
  (** whether [copytree] / [copy2] of the item of that name raises *)
  copy_raises : string -> bool;
  (** what [project_path / output_dir] holds when it leaves the project *)
  external : string -> option node;
  (** [repo.git.add(pathspec)] *)
  add : string -> outcome unit;
  (** [repo.git.commit('-m', text)] *)
  commit : string -> outcome unit;
  (** [repo.remote('origin')] followed by [origin.push(refspec=...,
      force=...)], or by [origin.push()] when there is no refspec; the
      value returned is dropped by both callers *)
  push : option string -> bool -> outcome unit
}.

Record t := {
  repo_name : option string;
  method : string;
  branch : string
}.

Definition _generate_pages_url (self : t) : string :=
  PagesUrl._generate_pages_url (repo_name self).

(** [protected_items = {'.git', output_dir, '.gitignore', 'CNAME'}] *)
Definition protected_items (output_dir : string) : list string :=
  [".git"; output_dir; ".gitignore"; "CNAME"].

Definition is_protected (output_dir name : string) : bool :=
  bool_decide (name ∈ protected_items output_dir).

Section Methods.
Context `{utils_errors}.
Variable dw : deploy_world.

(** [output_path] looked up in the working tree [wt]. *)
Definition output_node (wt : tree) (output_dir : string) : option node :=
  if leaves_project output_dir then external dw output_dir
  else lookup_path (path_parts output_dir) (Dir wt).

(** Lines 45-58: local branch, else new branch, else the remote one,
    else an orphan branch.  The result carries the [checkout] calls
    that succeeded. *)
Definition last_component (ref_name : string) : string :=
  List.last (split "/"%char ref_name) EmptyString.

Definition checkout_branch (self : t) : outcome (list effect) :=
  let first_try :=
    bind (refs dw) (fun names =>
      let args :=
        if bool_decide (branch self ∈ List.map last_component names)
        then [branch self] else ["-b"; branch self] in
      bind (checkout dw args) (fun _ => Return [ECheckout args])) in
  match first_try with
  | Return tr => Return tr
  | Raise (GitCommandError _) =>
      let remote_args := ["-b"; branch self; "origin/" +:+ branch self] in
      match checkout dw remote_args with
      | Return _ => Return [ECheckout remote_args]
      | Raise (GitCommandError _) =>
          let orphan_args := ["--orphan"; branch self] in
          bind (checkout dw orphan_args)
               (fun _ => Return [ECheckout orphan_args])
      | Raise e => Raise e
      end
  | Raise e => Raise e
  end.

(** Lines 60-72: clear the branch content. *)
Definition clear_entry (output_dir : string) (e : string * node)
  : option (string * node) :=
  let '(name, n) := e in
  if is_protected output_dir name then Some (name, n)
  else match remove_result dw name n with
       | Some rest => Some (name, rest)
       | None => None
       end.

Definition clear_branch_content (output_dir : string) (wt : tree) : tree :=
  omap (clear_entry output_dir) wt.

(** Lines 74-86: copy the build output to the root.  The items are
    those listed when the loop starts.  For a directory the destination
    is removed first ([rmtree] with [ignore_errors=True], which leaves a
    plain file alone), and [copytree] raises when the destination is still
    there; a file copied onto a directory lands inside it.  What raises
    is logged and skipped. *)
Definition copy_item (wt : tree) (item : string * node) : tree :=
  let '(name, n) := item in
  match n with
  | Dir _ =>
      let wt' :=
        match assoc name wt with
        | Some (Dir _ as dest) =>
            match remove_result dw name dest with
            | Some rest => upsert name rest wt
            | None => remove name wt
            end
        | Some (File _) => wt
        | None => wt
        end in
      if copy_raises dw name then wt'
      else match assoc name wt' with
           | Some _ => wt'
           | None => upsert name n wt'
           end
  | File data =>
      if copy_raises dw name then wt
      else match assoc name wt with
           | Some (Dir children) =>
               upsert name (Dir (upsert name (File data) children)) wt
           | _ => upsert name n wt
           end
  end.

Definition copy_build_output (items : tree) (wt : tree) : tree :=
  List.fold_left copy_item items wt.

Definition failure (msg : string) : DeploymentResult :=
  {| success := false; url := None; message := msg; deployment_id := None |}.

(** The body of the outer [try] from line 39 on.  A [Raise] is an
    exception that reaches the handler of line 123. *)
Definition deploy_steps (self : t) (output_dir : string) (wt : tree)
  : outcome DeploymentResult * tree * list effect :=
  let opened : outcome (list effect) :=
    if repo_opens dw then Return []
    else bind (repo_init dw) (fun _ => Return [EInit]) in
  match opened with
  | Raise e => (Raise e, wt, [])
  | Return tr0 =>
      match checkout_branch self with
      | Raise e => (Raise e, wt, tr0)
      | Return tr1 =>
          let tr := tr0 ++ tr1 in
          let wt1 := after_checkout dw wt in
          let wt2 := clear_branch_content output_dir wt1 in
          match output_node wt2 output_dir with
          | Some (Dir items) =>
              let wt3 := copy_build_output items wt2 in
              let text := "Deploy to GitHub Pages" in
              match add dw "." with
              | Raise e => (Raise e, wt3, tr)
              | Return _ =>
                  match commit dw text with
                  | Raise (GitCommandError msg) =>
                      if contains "nothing to commit" msg then
                        (Return {| success := true;
                                   url := Some (_generate_pages_url self);
                                   message := "No changes to deploy";
                                   deployment_id := None |},
                         wt3, tr ++ [EAdd "."])
                      else (Raise (GitCommandError msg), wt3, tr ++ [EAdd "."])
                  | Raise e => (Raise e, wt3, tr ++ [EAdd "."])
                  | Return _ =>
                      let refspec := branch self +:+ ":" +:+ branch self in
                      match push dw (Some refspec) true with
                      | Raise e =>
                          (Return (failure (handle_git_error
                                     ("Failed to push to remote: " +:+ str_exn e))),
                           wt3, tr ++ [EAdd "."; ECommit text])
                      | Return _ =>
                          (Return {| success := true;
                                     url := Some (_generate_pages_url self);
                                     message :=
                                       "Successfully deployed to GitHub Pages (branch: "
                                       +:+ branch self +:+ ")";
                                     deployment_id := None |},
                           wt3,
                           tr ++ [EAdd "."; ECommit text;
                                  EPush (Some refspec) true])
                      end
                  end
              end
          | Some (File _) =>
              (Raise (OSError ("Not a directory: " +:+ output_dir)), wt2, tr)
          | None =>
              (Raise (OSError ("No such file or directory: " +:+ output_dir)),
               wt2, tr)
          end
      end
  end.

(** [deploy_to_branch(project_path, output_dir)], run on the working
    tree [wt] of [project_path]: the result, the working tree
    afterwards and the git calls that returned without raising, in the
    order in which they were made.  Messages
    that quote [output_path] quote [output_dir] here. *)
Definition deploy_to_branch (self : t) (output_dir : string) (wt : tree)
  : DeploymentResult * tree * list effect :=
  match output_node wt output_dir with
  | None =>
      (failure (handle_build_error
                  ("Build output directory not found: " +:+ output_dir)),
       wt, [])
  | Some _ =>
      match deploy_steps self output_dir wt with
      | (Return r, wt', tr) => (r, wt', tr)
      | (Raise e, wt', tr) =>
          (failure (handle_git_error ("Deployment failed: " +:+ str_exn e)),
           wt', tr)
      end
  end.

(** The body of the [try] of [deploy_to_docs_folder] after the test of
    [output_path]: replace [docs] by the build output, then add, commit
    and push, none of which is guarded. *)
Definition docs_steps (self : t) (output_dir : string) (wt : tree)
  : outcome DeploymentResult * tree * list effect :=
  let removed : outcome unit * tree :=
    match assoc "docs" wt with
    | Some d =>
        match remove_result dw "docs" d with
        | None => (Return tt, remove "docs" wt)
        | Some rest =>
            (Raise (OSError "rmtree: docs"), upsert "docs" rest wt)
        end
    | None => (Return tt, wt)
    end in
  match removed with
  | (Raise e, wt1) => (Raise e, wt1, [])
  | (Return _, wt1) =>
      match output_node wt1 output_dir with
      | Some (Dir items) =>
          if copy_raises dw "docs" then (Raise (OSError "copytree: docs"), wt1, [])
          else
            let wt2 := upsert "docs" (Dir items) wt1 in
            let text := "Deploy to GitHub Pages (docs folder)" in
            if negb (repo_opens dw)
            then (Raise (OtherError "InvalidGitRepositoryError"), wt2, [])
            else
              match add dw "docs/" with
              | Raise e => (Raise e, wt2, [])
              | Return _ =>
                  match commit dw text with
                  | Raise e => (Raise e, wt2, [EAdd "docs/"])
                  | Return _ =>
                      match push dw None false with
                      | Raise e => (Raise e, wt2, [EAdd "docs/"; ECommit text])
                      | Return _ =>
                          (Return {| success := true;
                                     url := Some (_generate_pages_url self);
                                     message :=
                                       "Successfully deployed to GitHub Pages (docs folder)";
                                     deployment_id := None |},
                           wt2,
                           [EAdd "docs/"; ECommit text; EPush None false])
                      end
                  end
              end
      | Some (File _) =>
          (Raise (OSError ("Not a directory: " +:+ output_dir)), wt1, [])
      | None =>
          (Raise (OSError ("No such file or directory: " +:+ output_dir)), wt1, [])
      end
  end.

(** [deploy_to_docs_folder(project_path, output_dir)] *)
Definition deploy_to_docs_folder (self : t) (output_dir : string) (wt : tree)
  : DeploymentResult * tree * list effect :=
  match output_node wt output_dir with
  | None =>
      (failure (handle_build_error
                  ("Build output directory not found: " +:+ output_dir)),
       wt, [])
  | Some _ =>
      match docs_steps self output_dir wt with
      | (Return r, wt', tr) => (r, wt', tr)
      | (Raise e, wt', tr) =>
          (failure (handle_git_error ("Deployment failed: " +:+ str_exn e)),
           wt', tr)
      end
  end.

End Methods.

End GitHubDeployment.

(** ** [platforms/github/platform.py] *)

Module GitHubPlatform.

(** [config.get('github', {})] *)
Record config := {
  cfg_repo : option string;
  cfg_method : option string;
  cfg_branch : option string
}.

(** The PyGithub calls the class makes, keyed by the token of the client
    that makes them. *)
Record github_api := {
  (** [GitHubAutoCreation(token).auto_create_repository(project_name)];
      its body is one [try]/[except Exception], it always returns *)
  auto_create_repository : string -> string -> bool * string * option string;
  (** [Github(token).get_repo(name)] *)
  get_repo : string -> string -> outcome unit;
  (** [user.login] for [user = Github(token).get_user()] *)
  user_login : string -> outcome string;
  (** [repo.get_collaborator_permission(login)] *)
  get_collaborator_permission : string -> string -> string -> outcome string;
  (** [repo.get_pages()], as the pair [(pages.status, pages.html_url)] *)
  get_pages : string -> string -> outcome (option string * option string);
  (** whether [PlatformEnvInterface] ([platforms/env_interface.py], not
      among the sources) gives the object a [logger]; [BasePlatform]
      and [GitHubPlatform.__init__] do not *)
  logger_defined : bool
}.

Record t := {
  repo_name : option string;
  method : string;
  branch : string;
  (** [self.github_client], by the token it was built with *)
  github_client : option string;
  (** [self.repo_obj], by client token and repository name *)
  repo_obj : option (string * string);
  token : option string;
  (** [self.auto_creation], by the token it was built with *)
  auto_creation : option string;
  (** [self.deployment.repo_name] *)
  deployment_repo_name : option string;
  env_management : bool
}.

Definition set_repo_name (self : t) (r : option string) : t :=
  {| repo_name := r; method := method self; branch := branch self;
     github_client := github_client self; repo_obj := repo_obj self;
     token := token self; auto_creation := auto_creation self;
     deployment_repo_name := r; env_management := env_management self |}.

Definition set_client (self : t) (tok : string) : t :=
  {| repo_name := repo_name self; method := method self; branch := branch self;
     github_client := Some tok; repo_obj := repo_obj self;
     token := token self; auto_creation := auto_creation self;
     deployment_repo_name := deployment_repo_name self;
     env_management := env_management self |}.

Definition set_repo_obj (self : t) (tok name : string) : t :=
  {| repo_name := repo_name self; method := method self; branch := branch self;
     github_client := github_client self; repo_obj := Some (tok, name);
     token := token self; auto_creation := auto_creation self;
     deployment_repo_name := deployment_repo_name self;
     env_management := true |}.

(** [__init__]: the token is resolved here, once. *)
Definition init (cfg : config) (w : world) : t :=
  let tok := Credentials._get_token GitHub w in
  {| repo_name := cfg_repo cfg;
     method := default "branch" (cfg_method cfg);
     branch := default "gh-pages" (cfg_branch cfg);
     github_client := None;
     repo_obj := None;
     token := tok;
     auto_creation := if truthy tok then tok else None;
     deployment_repo_name := cfg_repo cfg;
     env_management := false |}.

Section Methods.
Context `{utils_errors}.
Variable api : github_api.
Variable w : world.

(** Lines 93-101: the auto-creation block. *)
Definition auto_create_block (self : t) : outcome unit * t :=
  match auto_creation self with
  | Some ac_token =>
      if negb (truthy (repo_name self)) then
        match getcwd w with
        | Raise e => (Raise e, self)
        | Return cwd =>
            let project_name := basename cwd in
            let '(ok, _, repo_full_name) :=
              auto_create_repository api ac_token project_name in
            if ok && truthy repo_full_name then
              let self' := set_repo_name self repo_full_name in
              if logger_defined api then (Return tt, self')
              else (Raise (AttributeError
                     "'GitHubPlatform' object has no attribute 'logger'"),
                    self')
            else (Return tt, self)
        end
      else (Return tt, self)
  | None => (Return tt, self)
  end.

(** Lines 119-129: the permission check.  [Some r] is an early return,
    [None] means that control reaches line 131. *)
Definition permission_check (tok name : string) : option (bool * string) :=
  match user_login api tok with
  | Raise _ => None
  | Return login =>
      match get_collaborator_permission api tok name login with
      | Raise _ => None
      | Return permissions =>
          if bool_decide (permissions ∈ ["admin"; "write"]) then None
          else Some (false,
                     handle_auth_error "github"
                       "Insufficient repository permissions")
      end
  end.

(** Lines 106-138: the [try] block with its two handlers. *)
Definition remote_check (self : t) (tok name : string)
  : outcome (bool * string) * t :=
  let self1 := set_client self tok in
  match get_repo api tok name with
  | Raise e =>
      (match e with
       | ConnectionError _ | Timeout _ =>
           Return (false, handle_auth_error "github"
                            ("Network error: " +:+ str_exn e))
       | GithubException _ _ =>
           Return (false, handle_github_api_error e)
       | _ => Raise e
       end, self1)
  | Return _ =>
      let self2 := set_repo_obj self1 tok name in
      match permission_check tok name with
      | Some r => (Return r, self2)
      | None =>
          (match user_login api tok with
           | Return login =>
               Return (true, "GitHub credentials valid for user: " +:+ login)
           | Raise e =>
               match e with
               | ConnectionError _ | Timeout _ =>
                   Return (false, handle_auth_error "github"
                                    ("Network error: " +:+ str_exn e))
               | GithubException _ _ =>
                   Return (false, handle_github_api_error e)
               | _ => Raise e
               end
           end, self2)
      end
  end.

(** The decorated function body. *)
Definition validate_credentials_body (self : t)
  : outcome (bool * string) * t :=
  match token self with
  | Some tok =>
      if negb (truthy (token self)) then
        (Return (false, handle_auth_error "github" "No token provided"), self)
      else
        match auto_create_block self with
        | (Raise e, self') => (Raise e, self')
        | (Return _, self') =>
            match repo_name self' with
            | Some name =>
                if negb (truthy (repo_name self')) then
                  (Return (false, "Repository name not configured"), self')
                else remote_check self' tok name
            | None =>
                (Return (false, "Repository name not configured"), self')
            end
        end
  | None =>
      (Return (false, handle_auth_error "github" "No token provided"), self)
  end.

(** [@retry_with_backoff(max_retries=3) def validate_credentials] *)
Definition validate_credentials (self : t) : outcome (bool * string) * t :=
  Retry.retry_with_backoff validate_credentials_body self.

(** Lines 154-168: the inner [try] of [get_deployment_status]. *)
Definition pages_status (self : t) : outcome DeploymentStatus :=
  match repo_obj self with
  | None =>
      Raise (AttributeError "'NoneType' object has no attribute 'get_pages'")
  | Some (tok, name) =>
      match get_pages api tok name with
      | Return (pages_status, html_url) =>
          Return (mkStatus
                    (if bool_decide (pages_status = Some "built")
                     then "deployed" else "building")
                    ("GitHub Pages status: " +:+ fmt pages_status)
                    html_url)
      | Raise (GithubException code msg) =>
          if (code =? 404)%Z
          then Return (mkStatus "not_deployed" "GitHub Pages not enabled" None)
          else Raise (GithubException code msg)
      | Raise e => Raise e
      end
  end.

Definition get_deployment_status (self : t) : outcome DeploymentStatus * t :=
  let failed (e : exn) :=
    Return (mkStatus "error"
              ("Failed to get deployment status: " +:+ str_exn e) None) in
  match repo_obj self with
  | Some _ => (try_except (pages_status self) failed, self)
  | None =>
      match validate_credentials self with
      | (Raise e, self') => (failed e, self')
      | (Return (valid, _), self') =>
          if negb valid
          then (Return (mkStatus "error" "Invalid credentials" None), self')
          else (try_except (pages_status self') failed, self')
      end
  end.

(** [get_status(deployment_id=None)] *)
Definition get_status (self : t) : outcome DeploymentStatus * t :=
  get_deployment_status self.

(** [get_url] *)
Definition get_url (self : t) : option string :=
  PagesUrl.get_url (repo_name self).

End Methods.

Section Deployment.
Context `{utils_errors}.
Variable dw : GitHubDeployment.deploy_world.

(** [self.deployment], built in [__init__] and renamed by the
    auto-creation block. *)
Definition deployment (self : t) : GitHubDeployment.t :=
  {| GitHubDeployment.repo_name := deployment_repo_name self;
     GitHubDeployment.method := method self;
     GitHubDeployment.branch := branch self |}.

(** [execute_deployment(project_path, output_dir)], run on the working
    tree of [project_path]. *)
Definition execute_deployment (self : t) (output_dir : string)
           (wt : GitHubDeployment.tree)
  : DeploymentResult * GitHubDeployment.tree * list GitHubDeployment.effect :=
  if eqb_str (method self) "branch"
  then GitHubDeployment.deploy_to_branch dw (deployment self) output_dir wt
  else if eqb_str (method self) "docs"
  then GitHubDeployment.deploy_to_docs_folder dw (deployment self) output_dir wt
  else ({| success := false; url := None;
           message := "Unknown deployment method: " +:+ method self;
           deployment_id := None |}, wt, []).

End Deployment.

End GitHubPlatform.

(** ** JSON bodies, as [response.json()] returns them *)

#[warnings="-register-all"]
Inductive json :=
| JNull
| JBool (b : bool)
| JNum (n : Z)
| JStr (s : string)
| JArr (items : list json)
| JObj (fields : list (string * json)).

Module Json.

(** [bool(x)] *)
Definition truthy (j : json) : bool :=
  match j with
  | JNull => false
  | JBool b => b
  | JNum n => negb (n =? 0)%Z
  | JStr s => negb (eqb_str s "")
  | JArr [] => false
  | JArr (_ :: _) => true
  | JObj [] => false
  | JObj (_ :: _) => true
  end.

Fixpoint assoc (key : string) (fields : list (string * json)) : option json :=
  match fields with
  | [] => None
  | (k, v) :: rest => if eqb_str k key then Some v else assoc key rest
  end.

(** [x.get(key)]: defined on dictionaries only. *)
Definition get (j : json) (key : string) : outcome (option json) :=
  match j with
  | JObj fields => Return (assoc key fields)
  | JNull => Raise (AttributeError "'NoneType' object has no attribute 'get'")
  | JBool _ => Raise (AttributeError "'bool' object has no attribute 'get'")
  | JNum _ => Raise (AttributeError "'int' object has no attribute 'get'")
  | JStr _ => Raise (AttributeError "'str' object has no attribute 'get'")
  | JArr _ => Raise (AttributeError "'list' object has no attribute 'get'")
  end.

End Json.

(** A reply to one HTTP request: the call raised, or there is a status
    code and a body.  [body] is what the code obtains from
    [response.json()] when it can use it, and [Raise] when decoding or
    the first use of the decoded value raises. *)
Inductive http_reply (B : Type) :=
| HttpRaised (e : exn)
| HttpReply (code : Z) (body : outcome B).
Arguments HttpRaised {B} e.
Arguments HttpReply {B} code body.

(** A deploy object of the Netlify API, by the two fields that are read.
    [state] is a string when present (the annotation of
    [get_deployment_status] is [Tuple[bool, str, Optional[str]]]). *)
Record deploy_obj := {
  state : option string;
  deploy_url : option string
}.

(** [j.get(key)] read at a position annotated [Optional[str]]: a string
    stays, [null] and a missing key are [None]. *)
Definition as_opt_str (o : option json) : option string :=
  match o with
  | Some (JStr s) => Some s
  | _ => None
  end.

(** ** [platforms/netlify/api_integration.py] *)

Module NetlifyAPIIntegration.

Definition api_base : string := "https://api.netlify.com/api/v1".

(** The remote side and the local disk, as the methods of the class see
    them. *)
Record netlify_http := {
  (** [requests.get(url, headers={"Authorization": f"Bearer {token}"})]
      on a [/deploys] address: the body is a list of deploy objects *)
  http_get_deploys : string -> string -> http_reply (list deploy_obj);
  (** the same on a [/sites/{id}] address *)
  http_get : string -> string -> http_reply json;
  (** [requests.post(url, headers=..., files={'file': zip_file})] *)
  http_post_file : string -> string -> http_reply json
}.

(** One entry of [build_path.rglob('*')]. *)
Record build_entry := {
  rel_path : string;
  is_file : bool;
  (** whether [zip_file.write] can read it *)
  readable : bool
}.

Record local_fs := {
  (** [build_path.exists()] *)
  build_exists : bool;
  build_tree : list build_entry;
  (** [NamedTemporaryFile(suffix='.zip', delete=False)]: the name it
      picks, or the exception it raises *)
  named_temporary_file : outcome string;
  (** whether [os.unlink] of the bundle raises *)
  unlink_raises : bool
}.

Section Methods.
Variable net : netlify_http.
Variable token : string.

(** [get_deployment_status(site_id) -> Tuple[bool, str, Optional[str]]] *)
Definition get_deployment_status (site_id : string)
  : bool * string * option string :=
  match http_get_deploys net
          (api_base +:+ "/sites/" +:+ site_id +:+ "/deploys") token with
  | HttpRaised _ => (false, "error", None)
  | HttpReply code body =>
      if (code =? 200)%Z then
        match body with
        | Raise _ => (false, "error", None)
        | Return [] => (true, "no_deploys", None)
        | Return (latest_deploy :: _) =>
            (true, default "unknown" (state latest_deploy),
             deploy_url latest_deploy)
        end
      else (false, "error", None)
  end.

(** [get_site_info(site_id) -> Tuple[bool, Optional[Dict], str]] *)
Definition get_site_info (site_id : string) : bool * option json * string :=
  match http_get net (api_base +:+ "/sites/" +:+ site_id) token with
  | HttpRaised e => (false, None, "Query error: " +:+ str_exn e)
  | HttpReply code body =>
      if (code =? 200)%Z then
        match body with
        | Return site_data => (true, Some site_data, "Site info retrieved")
        | Raise e => (false, None, "Query error: " +:+ str_exn e)
        end
      else if (code =? 404)%Z then (false, None, "Site not found")
      else (false, None, "API error: " +:+ str_Z code)
  end.

(** [_create_deployment_zip]: the file is created first, then filled.
    The second component is the set of temporary files on disk after
    the call. *)
Fixpoint write_entries (entries : list build_entry) : outcome unit :=
  match entries with
  | [] => Return tt
  | e :: rest =>
      if is_file e then
        if readable e then write_entries rest
        else Raise (OSError ("Permission denied: " +:+ rel_path e))
      else write_entries rest
  end.

Definition _create_deployment_zip (fs : local_fs) (disk : gset string)
  : outcome string * gset string :=
  match named_temporary_file fs with
  | Raise e => (Raise e, disk)
  | Return zip_path =>
      let disk' := {[zip_path]} ∪ disk in
      match write_entries (build_tree fs) with
      | Return _ => (Return zip_path, disk')
      | Raise e => (Raise e, disk')
      end
  end.

(** Lines 81-98: the upload and the reading of the reply. *)
Definition upload (site_id : string) : outcome (bool * string * option string) :=
  match http_post_file net (api_base +:+ "/sites/" +:+ site_id +:+ "/deploys") token with
  | HttpRaised e => Raise e
  | HttpReply code body =>
      if (code =? 200)%Z then
        bind body (fun deploy_data =>
        bind (Json.get deploy_data "url") (fun deploy_url =>
        Return (true, "Deployment successful", as_opt_str deploy_url)))
      else
        bind body (fun data =>
        bind (Json.get data "message") (fun error_msg =>
        Return (false, default "Deployment failed" (as_opt_str error_msg), None)))
  end.

(** [deploy_site(site_id, project_path, build_dir)]; [build_path] is
    the rendering of [Path(project_path) / build_dir]. *)
Definition deploy_site (site_id build_path : string) (fs : local_fs)
           (disk : gset string)
  : (bool * string * option string) * gset string :=
  let failed (e : exn) := (false, "Deployment error: " +:+ str_exn e, None) in
  if negb (build_exists fs)
  then ((false, "Build directory not found: " +:+ build_path, None), disk)
  else
    match _create_deployment_zip fs disk with
    | (Raise e, disk1) => (failed e, disk1)
    | (Return zip_path, disk1) =>
        let r := upload site_id in
        (* finally: os.unlink(zip_path) *)
        if unlink_raises fs
        then (failed (OSError ("unlink: " +:+ zip_path)), disk1)
        else
          (match r with
           | Return v => v
           | Raise e => failed e
           end, disk1 ∖ {[zip_path]})
    end.

End Methods.

End NetlifyAPIIntegration.

(** ** [platforms/netlify/platform.py] *)

Module NetlifyPlatform.

(** [config.get('netlify', {})], or the configuration itself *)
Record config := {
  cfg_site_id : option string;
  cfg_custom_domain : option string;
  cfg_use_cli : option bool
}.

(** The collaborators of the class whose bodies always return. *)
Record netlify_env := {
  net : NetlifyAPIIntegration.netlify_http;
  (** [NetlifyAPIIntegration(token).validate_token()], without the user
      record *)
  validate_token : string -> bool * string;
  (** [NetlifyAutoCreation(token, use_cli).auto_create_site(name, ".",
      custom_domain)] *)
  auto_create_site : string -> string -> option string
                     -> bool * string * option string;
  (** [cli_integration.link_site(site_id, project_path)] *)
  link_site : string -> string -> bool * string;
  (** [cli_integration.deploy_site(project_path, output_dir)] *)
  cli_deploy_site : string -> string -> bool * string * option string;
  local : NetlifyAPIIntegration.local_fs
}.

Record t := {
  site_id : option string;
  custom_domain : option string;
  use_cli : bool;
  token : option string;
  (** [self.api_integration], by the token it was built with *)
  api_integration : option string;
  (** [self.auto_creation], by the token it was built with *)
  auto_creation : option string
}.

Definition init (cfg : config) (w : world) : t :=
  let tok := Credentials._get_token Netlify w in
  {| site_id := cfg_site_id cfg;
     custom_domain := cfg_custom_domain cfg;
     use_cli := default true (cfg_use_cli cfg);
     token := tok;
     api_integration := if truthy tok then tok else None;
     auto_creation := if truthy tok then tok else None |}.

Definition set_token (self : t) (tok : option string) : t :=
  {| site_id := site_id self; custom_domain := custom_domain self;
     use_cli := use_cli self; token := tok;
     api_integration := api_integration self;
     auto_creation := auto_creation self |}.

(** Lines 71-74: build the two helpers unless they exist. *)
Definition ensure_components (self : t) (tok : string) : t :=
  {| site_id := site_id self; custom_domain := custom_domain self;
     use_cli := use_cli self; token := token self;
     api_integration :=
       match api_integration self with Some a => Some a | None => Some tok end;
     auto_creation :=
       match auto_creation self with Some a => Some a | None => Some tok end |}.

Definition set_site_id (self : t) (sid : option string) : t :=
  {| site_id := sid; custom_domain := custom_domain self;
     use_cli := use_cli self; token := token self;
     api_integration := api_integration self;
     auto_creation := auto_creation self |}.

Section Methods.
Context `{utils_errors}.
Variable env : netlify_env.
Variable w : world.

(** Lines 81-92: the auto-creation block.  [Some r] is an early
    return or an exception, [None] means that control reaches line 94. *)
Definition auto_create_block (self : t)
  : option (outcome (bool * string)) * t :=
  match auto_creation self with
  | Some ac_token =>
      if negb (truthy (site_id self)) then
        match getcwd w with
        | Raise e => (Some (Raise e), self)
        | Return cwd =>
            let site_name := basename cwd in
            let '(ok, site_message, new_id) :=
              auto_create_site env ac_token site_name (custom_domain self) in
            if ok && truthy new_id then
              (Some (Raise (AttributeError
                 "'NetlifyPlatform' object has no attribute 'logger'")),
               set_site_id self new_id)
            else if negb ok then
              (Some (Return (false, "Site creation failed: " +:+ site_message)),
               self)
            else (None, self)
        end
      else (None, self)
  | None => (None, self)
  end.

Definition validate_credentials_body (self : t)
  : outcome (bool * string) * t :=
  let self1 := set_token self (Credentials._get_token Netlify w) in
  match token self1 with
  | Some tok =>
      if negb (truthy (token self1)) then
        (Return (false, handle_auth_error "netlify" "No token provided"), self1)
      else
        let self2 := ensure_components self1 tok in
        let '(valid, message) :=
          validate_token env (default tok (api_integration self2)) in
        if negb valid then (Return (false, message), self2)
        else
          match auto_create_block self2 with
          | (Some r, self3) => (r, self3)
          | (None, self3) => (Return (true, message), self3)
          end
  | None =>
      (Return (false, handle_auth_error "netlify" "No token provided"), self1)
  end.

(** [@retry_with_backoff(max_retries=3) def validate_credentials] *)
Definition validate_credentials (self : t) : outcome (bool * string) * t :=
  Retry.retry_with_backoff validate_credentials_body self.

(** The table of [get_deployment_status]; [dict.get(key, default)]. *)
Definition status_map : list (string * string) :=
  [("ready", "deployed"); ("building", "building");
   ("error", "error"); ("no_deploys", "not_deployed")].

Fixpoint dict_get (d : list (string * string)) (key dflt : string) : string :=
  match d with
  | [] => dflt
  | (k, v) :: rest => if eqb_str k key then v else dict_get rest key dflt
  end.

(** Nothing inside the [try] of [get_deployment_status] raises in this
    model, so its handler is not reached. *)
Definition get_deployment_status (self : t) : DeploymentStatus :=
  match site_id self, api_integration self with
  | Some sid, Some api_token =>
      if truthy (site_id self) then
        let '(ok, raw, u) :=
          NetlifyAPIIntegration.get_deployment_status (net env) api_token sid in
        if ok then
          let mapped_status := dict_get status_map raw raw in
          mkStatus mapped_status ("Netlify deployment: " +:+ raw) u
        else mkStatus "error" "Failed to get deployment status" None
      else mkStatus "not_deployed" "No Netlify site configured" None
  | _, _ => mkStatus "not_deployed" "No Netlify site configured" None
  end.

Definition get_status (self : t) : DeploymentStatus :=
  get_deployment_status self.

(** [get_url]: no [try] around the use of [site_data]. *)
Definition get_url (self : t) : outcome (option string) :=
  match site_id self, api_integration self with
  | Some sid, Some api_token =>
      if truthy (site_id self) then
        match NetlifyAPIIntegration.get_site_info (net env) api_token sid with
        | (true, Some site_data, _) =>
            if Json.truthy site_data
            then bind (Json.get site_data "url")
                      (fun u => Return (as_opt_str u))
            else Return None
        | _ => Return None
        end
      else Return None
  | _, _ => Return None
  end.

Definition result_of (r : bool * string * option string) : DeploymentResult :=
  let '(ok, msg, u) := r in
  {| success := ok; url := u; message := msg; deployment_id := None |}.

Definition failure (msg : string) : DeploymentResult :=
  {| success := false; url := None; message := msg; deployment_id := None |}.

Definition _deploy_via_cli (self : t) (project_path output_dir : string)
  : DeploymentResult :=
  let deploy := result_of (cli_deploy_site env project_path output_dir) in
  match site_id self with
  | Some sid =>
      if truthy (site_id self) then
        let '(link_success, link_message) := link_site env sid project_path in
        if negb link_success
        then failure ("Failed to link site: " +:+ link_message)
        else deploy
      else deploy
  | None => deploy
  end.

Definition _deploy_via_api (api_token sid : string)
           (project_path output_dir : string) (disk : gset string)
  : DeploymentResult * gset string :=
  let '(r, disk') :=
    NetlifyAPIIntegration.deploy_site (net env) api_token sid
      (project_path +:+ "/" +:+ output_dir) (local env) disk in
  (result_of r, disk').

(** [execute_deployment]; the second component is the set of
    temporary files on disk afterwards. *)
Definition execute_deployment (self : t) (project_path output_dir : string)
           (disk : gset string) : DeploymentResult * gset string :=
  if use_cli self && cli_available w Netlify
  then (_deploy_via_cli self project_path output_dir, disk)
  else match api_integration self, site_id self with
       | Some api_token, Some sid =>
           if truthy (site_id self)
           then _deploy_via_api api_token sid project_path output_dir disk
           else (failure "No deployment method available or site not configured",
                 disk)
       | _, _ =>
           (failure "No deployment method available or site not configured",
            disk)
       end.

End Methods.

End NetlifyPlatform.

(** ** [platforms/vercel/platform.py] *)

Module VercelPlatform.

Record config := {
  cfg_project : option string;
  cfg_framework : option string;
  cfg_use_cli : option bool
}.

Record vercel_env := {
  (** [VercelAutoCreation(token, use_cli).auto_create_project(name, ".",
      framework)]; one [try]/[except Exception], it always returns *)
  auto_create_project : string -> string -> option string
                        -> bool * string * option string;
  (** [VercelAPIIntegration(token).list_projects()], with [len(projects)]
      for the list *)
  list_projects : string -> bool * nat * string
}.

Record t := {
  project_name : option string;
  framework : option string;
  use_cli : bool;
  token : option string;
  api_integration : option string;
  auto_creation : option string
}.

Definition init (cfg : config) (w : world) : t :=
  let tok := Credentials._get_token Vercel w in
  {| project_name := cfg_project cfg;
     framework := cfg_framework cfg;
     use_cli := default true (cfg_use_cli cfg);
     token := tok;
     api_integration := if truthy tok then tok else None;
     auto_creation := if truthy tok then tok else None |}.

Definition set_token (self : t) (tok : option string) : t :=
  {| project_name := project_name self; framework := framework self;
     use_cli := use_cli self; token := tok;
     api_integration := api_integration self;
     auto_creation := auto_creation self |}.

Definition ensure_components (self : t) (tok : string) : t :=
  {| project_name := project_name self; framework := framework self;
     use_cli := use_cli self; token := token self;
     api_integration :=
       match api_integration self with Some a => Some a | None => Some tok end;
     auto_creation :=
       match auto_creation self with Some a => Some a | None => Some tok end |}.

Definition set_project_name (self : t) (p : option string) : t :=
  {| project_name := p; framework := framework self;
     use_cli := use_cli self; token := token self;
     api_integration := api_integration self;
     auto_creation := auto_creation self |}.

Section Methods.
Context `{utils_errors}.
Variable env : vercel_env.
Variable w : world.

(** Lines 75-86. *)
Definition auto_create_block (self : t)
  : option (outcome (bool * string)) * t :=
  match auto_creation self with
  | Some ac_token =>
      if negb (truthy (project_name self)) then
        match getcwd w with
        | Raise e => (Some (Raise e), self)
        | Return cwd =>
            let name := basename cwd in
            let '(ok, msg, project_url) :=
              auto_create_project env ac_token name (framework self) in
            if ok && truthy project_url then
              (Some (Raise (AttributeError
                 "'VercelPlatform' object has no attribute 'logger'")),
               set_project_name self (Some name))
            else if negb ok then
              (Some (Return (false, "Project creation failed: " +:+ msg)), self)
            else (None, self)
        end
      else (None, self)
  | None => (None, self)
  end.

(** Lines 88-100. *)
Definition list_check (self : t) : bool * string :=
  match api_integration self with
  | Some api_token =>
      let '(ok, count, msg) := list_projects env api_token in
      if ok then (true, "Vercel credentials valid - " +:+ str_nat count
                        +:+ " projects accessible")
      else (false, "Token validation failed: " +:+ msg)
  | None => (false, "No API integration available")
  end.

Definition validate_credentials_body (self : t)
  : outcome (bool * string) * t :=
  let self1 := set_token self (Credentials._get_token Vercel w) in
  match token self1 with
  | Some tok =>
      if negb (truthy (token self1)) then
        (Return (false, handle_auth_error "vercel" "No token provided"), self1)
      else
        let self2 := ensure_components self1 tok in
        match auto_create_block self2 with
        | (Some r, self3) => (r, self3)
        | (None, self3) => (Return (list_check self3), self3)
        end
  | None =>
      (Return (false, handle_auth_error "vercel" "No token provided"), self1)
  end.

Definition validate_credentials (self : t) : outcome (bool * string) * t :=
  Retry.retry_with_backoff validate_credentials_body self.

Definition get_deployment_status (self : t) : DeploymentStatus :=
  match project_name self with
  | Some name =>
      if truthy (project_name self) then
        mkStatus "deployed" ("Vercel project: " +:+ name)
                 (Some ("https://" +:+ name +:+ ".vercel.app"))
      else mkStatus "not_deployed" "No Vercel project configured" None
  | None => mkStatus "not_deployed" "No Vercel project configured" None
  end.

Definition get_status (self : t) : DeploymentStatus :=
  get_deployment_status self.

End Methods.

End VercelPlatform.

(** ** [platforms/railway/platform.py] *)

Module RailwayPlatform.

Record config := {
  cfg_project_id : option string;
  cfg_service_id : option string;
  cfg_environment_id : option string;
  cfg_use_cli : option bool
}.

(** The dictionary [setup_info] of [auto_create_complete_setup], by the
    three keys that are read. *)
Record setup_info := {
  new_project_id : option string;
  new_service_id : option string;
  new_environment_id : option string
}.

Record railway_env := {
  (** [RailwayAPIIntegration(token).validate_token()], without the user
      record *)
  validate_token : string -> bool * string;
  (** [RailwayAutoCreation(token, use_cli).auto_create_complete_setup(name)] *)
  auto_create_complete_setup : string -> string
                               -> bool * string * option setup_info;
  (** [RailwayAPIIntegration(token).get_project_info(project_id)], with
      the project record reduced to its [name] *)
  get_project_info : string -> string -> bool * option (option string) * string
}.

Record t := {
  project_id : option string;
  service_id : option string;
  environment_id : option string;
  use_cli : bool;
  token : option string;
  api_integration : option string;
  auto_creation : option string
}.

Definition init (cfg : config) (w : world) : t :=
  let tok := Credentials._get_token Railway w in
  {| project_id := cfg_project_id cfg;
     service_id := cfg_service_id cfg;
     environment_id := cfg_environment_id cfg;
     use_cli := default true (cfg_use_cli cfg);
     token := tok;
     api_integration := if truthy tok then tok else None;
     auto_creation := if truthy tok then tok else None |}.

Definition set_token (self : t) (tok : option string) : t :=
  {| project_id := project_id self; service_id := service_id self;
     environment_id := environment_id self;
     use_cli := use_cli self; token := tok;
     api_integration := api_integration self;
     auto_creation := auto_creation self |}.

Definition ensure_components (self : t) (tok : string) : t :=
  {| project_id := project_id self; service_id := service_id self;
     environment_id := environment_id self;
     use_cli := use_cli self; token := token self;
     api_integration :=
       match api_integration self with Some a => Some a | None => Some tok end;
     auto_creation :=
       match auto_creation self with Some a => Some a | None => Some tok end |}.

Definition set_setup (self : t) (i : setup_info) : t :=
  {| project_id := new_project_id i; service_id := new_service_id i;
     environment_id := new_environment_id i;
     use_cli := use_cli self; token := token self;
     api_integration := api_integration self;
     auto_creation := auto_creation self |}.

Section Methods.
Context `{utils_errors}.
Variable env : railway_env.
Variable w : world.

(** Lines 82-93. *)
Definition auto_create_block (self : t)
  : option (outcome (bool * string)) * t :=
  match auto_creation self with
  | Some ac_token =>
      if negb (truthy (project_id self)) then
        match getcwd w with
        | Raise e => (Some (Raise e), self)
        | Return cwd =>
            let '(ok, setup_message, info) :=
              auto_create_complete_setup env ac_token (basename cwd) in
            match ok, info with
            | true, Some i =>
                (Some (Raise (AttributeError
                   "'RailwayPlatform' object has no attribute 'logger'")),
                 set_setup self i)
            | true, None => (None, self)
            | false, _ =>
                (Some (Return (false, "Setup creation failed: " +:+ setup_message)),
                 self)
            end
        end
      else (None, self)
  | None => (None, self)
  end.

Definition validate_credentials_body (self : t)
  : outcome (bool * string) * t :=
  let self1 := set_token self (Credentials._get_token Railway w) in
  match token self1 with
  | Some tok =>
      if negb (truthy (token self1)) then
        (Return (false, handle_auth_error "railway" "No token provided"), self1)
      else
        let self2 := ensure_components self1 tok in
        let '(valid, message) :=
          validate_token env (default tok (api_integration self2)) in
        if negb valid then (Return (false, message), self2)
        else
          match auto_create_block self2 with
          | (Some r, self3) => (r, self3)
          | (None, self3) => (Return (true, message), self3)
          end
  | None =>
      (Return (false, handle_auth_error "railway" "No token provided"), self1)
  end.

Definition validate_credentials (self : t) : outcome (bool * string) * t :=
  Retry.retry_with_backoff validate_credentials_body self.

Definition get_deployment_status (self : t) : DeploymentStatus :=
  match project_id self, api_integration self with
  | Some pid, Some api_token =>
      if truthy (project_id self) then
        match get_project_info env api_token pid with
        | (true, Some name, _) =>
            mkStatus "deployed" ("Railway project: " +:+ fmt name)
                     (Some ("https://railway.app/project/" +:+ pid))
        | (_, _, msg) =>
            mkStatus "error" ("Failed to get project info: " +:+ msg) None
        end
      else mkStatus "not_deployed" "No Railway project configured" None
  | _, _ => mkStatus "not_deployed" "No Railway project configured" None
  end.

Definition get_status (self : t) : DeploymentStatus :=
  get_deployment_status self.

End Methods.

End RailwayPlatform.


(** ** [platforms/github/auto_creation.py]: the suggested name *)

Module GitHubAutoCreation.

(** [project_name.lower().replace(" ", "-").replace("_", "-")] *)
Definition base_name_of (project_name : string) : string :=
  replace_char "_" "-" (replace_char " " "-" (lower project_name)).

(** The remote side: [taken n full_name] tells whether the [n]-th call
    (from 0) of [github_client.get_repo(full_name)] returns; when it
    raises, the name is free. *)
Definition responses := nat -> string -> bool.

(** The [while True] loop, entered with [counter]; [fuel] bounds the
    number of lookups it may make, [None] means that they are used up
    with the loop still running. *)
Fixpoint probe (fuel : nat) (taken : responses) (username base_name : string)
         (counter : nat) : option string :=
  match fuel with
  | O => None
  | S fuel' =>
      let new_name := base_name +:+ "-" +:+ str_nat counter in
      if taken counter (username +:+ "/" +:+ new_name)
      then probe fuel' taken username base_name (S counter)
      else Some new_name
  end.

(** [_generate_suggested_name(project_name, username)] for a client
    that exists. *)
Definition _generate_suggested_name (fuel : nat) (taken : responses)
           (project_name username : string) : option string :=
  let base_name := base_name_of project_name in
  if taken 0 (username +:+ "/" +:+ base_name)
  then probe fuel taken username base_name 1
  else Some base_name.

(** The remote side of an account on which the base name and the first
    [n] suffixed names exist. *)
Definition crowded (n : nat) : responses := fun k _ => Nat.leb k n.

(** A remote side that answers every lookup. *)
Definition always_taken : responses := fun _ _ => true.

End GitHubAutoCreation.

(** * Further code

    The rest of the files met so far, and what they call. *)

(** ** More of Python's [str] *)

Module PyStr.

(** [s.split(sep)] for a separator of one character or more: the text is
    scanned from the left and matches do not overlap.  [skip] counts the
    characters of a separator found earlier that are still to be passed. *)
Fixpoint split_from (sep : string) (skip : nat) (s : string) : list string :=
  match s with
  | EmptyString => [EmptyString]
  | String c s' =>
      match skip with
      | S k => split_from sep k s'
      | O =>
          if prefixb sep s
          then EmptyString :: split_from sep (String.length sep - 1) s'
          else match split_from sep 0 s' with
               | h :: t => String c h :: t
               | [] => [String c EmptyString]
               end
      end
  end.

Definition split_str (sep s : string) : list string := split_from sep 0 s.

(** [s.replace(old, new)] for a non-empty [old]. *)
Fixpoint replace_from (old new : string) (skip : nat) (s : string) : string :=
  match s with
  | EmptyString => EmptyString
  | String c s' =>
      match skip with
      | S k => replace_from old new k s'
      | O =>
          if prefixb old s
          then new +:+ replace_from old new (String.length old - 1) s'
          else String c (replace_from old new 0 s')
      end
  end.

Definition replace (old new s : string) : string := replace_from old new 0 s.

(** [Some p] when [s = p + suffix], so that [p] is [s[:-len(suffix)]]
    and [s.endswith(suffix)] holds; [None] otherwise. *)
Fixpoint strip_suffix (suffix s : string) : option string :=
  if eqb_str s suffix then Some EmptyString
  else match s with
       | EmptyString => None
       | String c s' =>
           match strip_suffix suffix s' with
           | Some p => Some (String c p)
           | None => None
           end
       end.

(** [c.isalnum()] and the test for an ASCII character. *)
Definition isalnum (c : ascii) : bool :=
  let n := nat_of_ascii c in
  (Nat.leb 48 n && Nat.leb n 57) || (Nat.leb 65 n && Nat.leb n 90)
  || (Nat.leb 97 n && Nat.leb n 122).

Fixpoint forallb_str (p : ascii -> bool) (s : string) : bool :=
  match s with
  | EmptyString => true
  | String c s' => p c && forallb_str p s'
  end.

Definition is_ascii (s : string) : bool :=
  forallb_str (fun c => Nat.ltb (nat_of_ascii c) 128) s.

(** ["".join(c for c in s if p(c))] *)
Fixpoint filter_str (p : ascii -> bool) (s : string) : string :=
  match s with
  | EmptyString => EmptyString
  | String c s' => if p c then String c (filter_str p s') else filter_str p s'
  end.

(** [s.strip(chars)] for a single character. *)
Fixpoint lstrip_char (x : ascii) (s : string) : string :=
  match s with
  | String c s' => if Ascii.eqb c x then lstrip_char x s' else s
  | EmptyString => EmptyString
  end.

Fixpoint rstrip_char (x : ascii) (s : string) : string :=
  match s with
  | String c s' =>
      match rstrip_char x s' with
      | EmptyString => if Ascii.eqb c x then EmptyString else String c EmptyString
      | r => String c r
      end
  | EmptyString => EmptyString
  end.

Definition strip_char (x : ascii) (s : string) : string :=
  rstrip_char x (lstrip_char x s).

(** [l[i]] with the [IndexError] as [None]. *)
Definition item {A} (l : list A) (i : nat) : option A := List.nth_error l i.

End PyStr.

(** ** [platforms/github/git_utils.py] *)

Module GitUtils.

(** [extract_repo_name_from_url(url)]; nothing in its [try] raises. *)
Definition extract_repo_name_from_url (url : string) : option string :=
  let cut (repo_part : string) :=
    match PyStr.strip_suffix ".git" repo_part with
    | Some p => Some p
    | None => Some repo_part
    end in
  if prefixb "git@github.com:" url
  then cut (List.last (split ":"%char url) EmptyString)
  else if contains "github.com/" url
  then cut (List.last (PyStr.split_str "github.com/" url) EmptyString)
  else None.

End GitUtils.

(** ** [commands/init.py]: detecting the repository *)

Module Init.

(** [_detect_git_repository], from the URL of the remote [origin];
    [None] stands for a directory that is no repository or has no such
    remote.  An [IndexError] ends in the handler, like every exception. *)
Definition _detect_git_repository (origin_url : option string) : option string :=
  match origin_url with
  | None => None
  | Some url =>
      if contains "github.com" url then
        let part :=
          if prefixb "git@" url
          then PyStr.item (split ":"%char url) 1
          else PyStr.item (PyStr.split_str "github.com/" url) 1 in
        match part with
        | Some repo_part => Some (PyStr.replace ".git" "" repo_part)
        | None => None
        end
      else None
  end.

End Init.

(** ** [commands/init.py]: the platform sections *)

Module InitCommand.

(** What the file system answers when [init] writes: whether
    [open(path, 'w')] or [open(path, 'a')] succeeds, and whether
    [os.chmod(path, 0o600)] does.  Paths are relative to [project_path],
    which is the directory the later commands run in. *)
Record fs_env := {
  can_write : string -> bool;
  can_chmod : string -> bool
}.

Definition LF : string := String "010" EmptyString.

(** The [try] block of [_save_platform_token] (lines 380-404), which
    [_configure_github] repeats for [.deployx_token] (lines 154-178):
    write the token, restrict the permissions, and see to it that
    [.gitignore] names the file.  [false] stands for the [except] branch;
    what has been written by then stays. *)
Definition save_token (env : fs_env) (token_file token : string)
           (fs : gmap string file_obs) : bool * gmap string file_obs :=
  if negb (can_write env token_file) then (false, fs)
  else
    let fs1 := <[token_file := Text token]> fs in
    if negb (can_chmod env token_file) then (false, fs1)
    else
      match fs1 !! ".gitignore" with
      | Some (Text gitignore_content) =>
          if contains token_file gitignore_content then (true, fs1)
          else if can_write env ".gitignore"
               then (true, <[".gitignore" :=
                               Text (gitignore_content +:+ LF +:+ token_file +:+ LF)]> fs1)
               else (false, fs1)
      | Some Unreadable => (false, fs1)
      | None =>
          if can_write env ".gitignore"
          then (true, <[".gitignore" := Text (token_file +:+ LF)]> fs1)
          else (false, fs1)
      end.

Definition _save_platform_token (env : fs_env) (platform token : string)
           (fs : gmap string file_obs) : bool * gmap string file_obs :=
  save_token env (".deployx_" +:+ platform +:+ "_token") token fs.

(** What the user answers; [None] is a prompt left with Ctrl-C. *)
Record answers := {
  token_value : option string;
  use_detected : option bool;
  repo_text : option string;
  method_choice : option string;
  branch_text : option string;
  id_text : option string
}.

(** The section of [deployx.yml] a [_configure_<platform>] returns. *)
Inductive section :=
| GitHubSection (repo : string) (method branch : option string)
| VercelSection
| NetlifySection (site_id : option string)
| RailwaySection (project_id : option string).

(** The [validate] of the repository prompt: [len(x.split('/')) == 2]. *)
Definition valid_repo_text (x : string) : bool :=
  Nat.eqb (List.length (split "/"%char x)) 2.

(** [_configure_github]; [origin_url] is the URL of the remote [origin]
    when [project_path] is a repository that has one. *)
Definition _configure_github (env : fs_env) (origin_url : option string)
           (a : answers) (fs : gmap string file_obs)
  : option section * gmap string file_obs :=
  match token_value a with
  | Some token =>
      if negb (truthy (Some token)) then (None, fs)
      else
        let '(saved, fs') := save_token env ".deployx_token" token fs in
        if negb saved then (None, fs')
        else
          let detected := Init._detect_git_repository origin_url in
          let repo_name :=
            if truthy detected
            then if default false (use_detected a) then detected else None
            else detected in
          let repo_name := if truthy repo_name then repo_name else repo_text a in
          match repo_name with
          | Some repo =>
              if negb (truthy (Some repo)) then (None, fs')
              else
                let branch :=
                  if bool_decide (method_choice a = Some "branch")
                  then branch_text a else Some "gh-pages" in
                (Some (GitHubSection repo (method_choice a) branch), fs')
          | None => (None, fs')
          end
  | None => (None, fs)
  end.

(** [_configure_vercel], [_configure_netlify], [_configure_railway] *)
Definition with_token (env : fs_env) (platform : string) (a : answers)
           (fs : gmap string file_obs) (s : section)
  : option section * gmap string file_obs :=
  match token_value a with
  | Some token =>
      if negb (truthy (Some token)) then (None, fs)
      else
        let '(saved, fs') := _save_platform_token env platform token fs in
        if saved then (Some s, fs') else (None, fs')
  | None => (None, fs)
  end.

Definition optional_id (a : answers) : option string :=
  if truthy (id_text a) then id_text a else None.

Definition _configure_vercel (env : fs_env) (a : answers)
           (fs : gmap string file_obs) :=
  with_token env "vercel" a fs VercelSection.

Definition _configure_netlify (env : fs_env) (a : answers)
           (fs : gmap string file_obs) :=
  with_token env "netlify" a fs (NetlifySection (optional_id a)).

Definition _configure_railway (env : fs_env) (a : answers)
           (fs : gmap string file_obs) :=
  with_token env "railway" a fs (RailwaySection (optional_id a)).

(** The platform-specific part of [init_command] (lines 59-75). *)
Definition platform_config (platform : backend) (env : fs_env)
           (origin_url : option string) (a : answers)
           (fs : gmap string file_obs)
  : option section * gmap string file_obs :=
  match platform with
  | GitHub => _configure_github env origin_url a fs
  | Vercel => _configure_vercel env a fs
  | Netlify => _configure_netlify env a fs
  | Railway => _configure_railway env a fs
  end.

End InitCommand.

(** ** [commands/auth.py]: status, and the test behind [auth setup] *)

Module AuthCommand.

(** [Path(name).exists()]: something is at the path, readable or not. *)
Definition path_exists (w : world) (name : string) : bool :=
  match files w !! name with
  | Some _ => true
  | None => false
  end.

(** The last two tests of every [_check_<platform>_auth]: the token file
    [.deployx_<platform>_token], then the environment variable. *)
Definition check_file_and_env (b : backend) (w : world)
  : bool * string * option string :=
  if path_exists w (Auth.auth_token_file (Auth.platform_name b))
  then (true, "token file", None)
  else if truthy (environ w !! Credentials.env_var b)
       then (true, "environment", None)
       else (false, "", None).

(** [_check_github_auth], [_check_vercel_auth], [_check_railway_auth]:
    the command-line tool first; [user] is what
    [cli.get_authenticated_user()] returns. *)
Definition check_with_cli (b : backend) (user : option string) (w : world)
  : bool * string * option string :=
  if cli_available w b then (true, "CLI", user)
  else check_file_and_env b w.

Definition _check_github_auth := check_with_cli GitHub.
Definition _check_vercel_auth := check_with_cli Vercel.
Definition _check_railway_auth := check_with_cli Railway.

(** [_check_netlify_auth] does not ask the command-line tool. *)
Definition _check_netlify_auth (w : world) : bool * string * option string :=
  check_file_and_env Netlify w.

(** The entry of [status_func] for a backend, as [auth_setup_command] and
    [auth_status_command] call it. *)
Definition check_auth (b : backend) (user : option string) (w : world)
  : bool * string * option string :=
  match b with
  | GitHub => _check_github_auth user w
  | Vercel => _check_vercel_auth user w
  | Railway => _check_railway_auth user w
  | Netlify => _check_netlify_auth w
  end.

(** What [_test_platform_token] reaches: the three platform classes, and
    for Netlify [requests.get(".../api/v1/user")] with the token as
    bearer, by its status code. *)
Record test_env := {
  github_api : GitHubPlatform.github_api;
  vercel_env : VercelPlatform.vercel_env;
  railway_env : RailwayPlatform.railway_env;
  netlify_user : string -> outcome Z
}.

(** [valid, _ = platform_instance.validate_credentials()] inside
    [try: ... except Exception: return False] *)
Definition valid_of (r : outcome (bool * string)) : bool :=
  match r with
  | Return (valid, _) => valid
  | Raise _ => false
  end.

Section Testing.
Context `{utils_errors}.
Variable env : test_env.

(** [_test_platform_token(platform, token)].  The platform classes are
    built from the configuration [{'<platform>': {}}] and resolve their
    token themselves. *)
Definition _test_platform_token (b : backend) (token : string) (w : world)
  : bool :=
  match b with
  | GitHub =>
      valid_of (GitHubPlatform.validate_credentials (github_api env) w
                  (GitHubPlatform.init
                     {| GitHubPlatform.cfg_repo := None;
                        GitHubPlatform.cfg_method := None;
                        GitHubPlatform.cfg_branch := None |} w)).1
  | Vercel =>
      valid_of (VercelPlatform.validate_credentials (vercel_env env) w
                  (VercelPlatform.init
                     {| VercelPlatform.cfg_project := None;
                        VercelPlatform.cfg_framework := None;
                        VercelPlatform.cfg_use_cli := None |} w)).1
  | Railway =>
      valid_of (RailwayPlatform.validate_credentials (railway_env env) w
                  (RailwayPlatform.init
                     {| RailwayPlatform.cfg_project_id := None;
                        RailwayPlatform.cfg_service_id := None;
                        RailwayPlatform.cfg_environment_id := None;
                        RailwayPlatform.cfg_use_cli := None |} w)).1
  | Netlify =>
      match netlify_user env token with
      | Return code => (code =? 200)%Z
      | Raise _ => false
      end
  end.

(** The world once [token_file] has been written. *)
Definition written (w : world) (name content : string) : world :=
  {| cli_available := cli_available w;
     cli_token := cli_token w;
     files := <[name := Text content]> (files w);
     environ := environ w;
     getcwd := getcwd w |}.

(** [_setup_platform_auth(platform)] with the test it runs: the token
    is stripped, stored, tested with the file in place, and the file is
    removed again when the test fails. *)
Definition setup (b : backend) (pasted : string) (w : world)
  : bool * gmap string file_obs :=
  let token := strip pasted in
  Auth._setup_platform_auth (Auth.platform_name b) pasted
    (_test_platform_token b token
       (written w (Auth.auth_token_file (Auth.platform_name b)) token))
    (files w).

End Testing.

End AuthCommand.

(** ** [auto_creation.py] of Netlify, Vercel and Railway: names *)

Module SuggestedName.

(** [c.isalnum() or c == "-"] *)
Definition keep (c : ascii) : bool := PyStr.isalnum c || Ascii.eqb c "-".

(** The first two statements shared by the three
    [_generate_suggested_name]:
<<
    suggested = name.lower().replace(" ", "-").replace("_", "-")
    suggested = "".join(c for c in suggested if c.isalnum() or c == "-")
>>
    Python's [lower] and [isalnum] are those of Unicode; on ASCII text
    they are the functions used here. *)
Definition clean (name : string) : string :=
  PyStr.filter_str keep
    (replace_char "_" "-" (replace_char " " "-" (lower name))).

(** [s or dflt] *)
Definition or_default (s dflt : string) : string :=
  if truthy (Some s) then s else dflt.

(** [suggested.strip("-") or dflt], the end of the Netlify and Railway
    versions. *)
Definition trimmed (name dflt : string) : string :=
  or_default (PyStr.strip_char "-" (clean name)) dflt.

(** The characters of a name that the three services take: lower-case
    letters, digits and the hyphen. *)
Definition name_char (c : ascii) : bool :=
  let n := nat_of_ascii c in
  (Nat.leb 97 n && Nat.leb n 122) || (Nat.leb 48 n && Nat.leb n 57)
  || Ascii.eqb c "-".

End SuggestedName.

Module VercelAutoCreation.

Definition _generate_suggested_name (project_name : string) : string :=
  SuggestedName.clean project_name.

(** [_prompt_for_project_name]; [typed] is what [input()] returns, [None]
    when it is left with Ctrl-C. *)
Definition _prompt_for_project_name (suggested_name : string)
           (typed : option string) : option string :=
  match typed with
  | None => None
  | Some text =>
      let user_input := strip text in
      if negb (truthy (Some user_input)) then Some suggested_name
      else Some (SuggestedName.clean user_input)
  end.

End VercelAutoCreation.

Module RailwayAutoCreation.

Definition _generate_suggested_name (project_name : string) : string :=
  SuggestedName.trimmed project_name "my-project".

Definition _prompt_for_project_name (suggested_name : string)
           (typed : option string) : option string :=
  let clean_name := _generate_suggested_name suggested_name in
  match typed with
  | None => None
  | Some text =>
      let user_input := strip text in
      if negb (truthy (Some user_input)) then Some clean_name
      else Some (_generate_suggested_name user_input)
  end.

End RailwayAutoCreation.

Module NetlifyAutoCreation.

Definition _generate_suggested_name (site_name : string) : string :=
  SuggestedName.trimmed site_name "my-site".

Definition _prompt_for_site_name (suggested_name : string)
           (typed : option string) : option string :=
  match typed with
  | None => None
  | Some text =>
      let user_input := strip text in
      if negb (truthy (Some user_input)) then Some suggested_name
      else Some (_generate_suggested_name user_input)
  end.

(** What [auto_create_site] meets. *)
Record site_env := {
  (** [(Path(project_path) / '.netlify').exists()] and the same for
      [netlify.toml] *)
  has_netlify_dir : outcome bool;
  has_netlify_toml : outcome bool;
  (** what [input()] gives at the prompt: a line, [None] for Ctrl-C,
      which the prompt catches, or another exception (end of input) *)
  typed : outcome (option string);
  (** [self.use_cli] *)
  use_cli : bool;
  (** [self.cli_integration.is_cli_available()], which lets everything
      but [FileNotFoundError] pass *)
  cli_is_available : outcome bool;
  (** [cli_integration.create_site(name, project_path)] and
      [cli_integration.link_site(site_id, project_path)]: both catch
      every exception *)
  cli_create_site : string -> bool * string * option string;
  cli_link_site : string -> bool * string;
  (** [self.api_integration] is set *)
  has_api : bool;
  (** [api_integration.create_site(name, custom_domain)], which catches
      every exception *)
  api_create_site : string -> option string -> bool * string * option string
}.

(** What a call has asked of Netlify and of the project directory. *)
Inductive request :=
| CliCreate (name : string)
| CliLink (site_id : string)
| ApiCreate (name : string) (custom_domain : option string)
| WriteState (site_id : option string).

Section Creation.
Variable env : site_env.

(** [should_create_site] *)
Definition should_create_site : outcome (bool * string) :=
  bind (has_netlify_dir env) (fun dir =>
    if dir then Return (false, "Netlify site already configured")
    else bind (has_netlify_toml env) (fun toml =>
      if toml then Return (false, "netlify.toml found, site may already exist")
      else Return (true, "No Netlify site detected"))).

(** [_create_via_cli] *)
Definition _create_via_cli (site_name : string)
  : (bool * string * option string) * list request :=
  let '(ok, message, site_id) := cli_create_site env site_name in
  if ok then
    match site_id with
    | Some sid =>
        if truthy site_id
        then ((true, message, site_id), [CliCreate site_name; CliLink sid])
        else ((true, message, site_id), [CliCreate site_name])
    | None => ((true, message, site_id), [CliCreate site_name])
    end
  else ((false, message, None), [CliCreate site_name]).

(** [_create_via_api]; writing [.netlify/state.json] is tried and what
    it raises is logged. *)
Definition _create_via_api (site_name : string) (custom_domain : option string)
  : (bool * string * option string) * list request :=
  let '(ok, message, site_id) := api_create_site env site_name custom_domain in
  if ok then ((true, message, site_id),
              [ApiCreate site_name custom_domain; WriteState site_id])
  else ((false, message, None), [ApiCreate site_name custom_domain]).

(** [auto_create_site(site_name, project_path, custom_domain)] *)
Definition auto_create_site (site_name : string) (custom_domain : option string)
  : (bool * string * option string) * list request :=
  let failed (e : exn) :=
    ((false, "Failed to create site: " +:+ str_exn e, None), []) in
  match should_create_site with
  | Raise e => failed e
  | Return (false, reason) => ((true, reason, None), [])
  | Return (true, _) =>
      let suggested_name := _generate_suggested_name site_name in
      match typed env with
      | Raise e => failed e
      | Return line =>
          match _prompt_for_site_name suggested_name line with
          | Some final_name =>
              if negb (truthy (Some final_name))
              then ((false, "Site creation cancelled", None), [])
              else
                let by_api :=
                  if has_api env then _create_via_api final_name custom_domain
                  else ((false, "No authentication method available", None), []) in
                if use_cli env then
                  match cli_is_available env with
                  | Raise e => failed e
                  | Return true => _create_via_cli final_name
                  | Return false => by_api
                  end
                else by_api
          | None => ((false, "Site creation cancelled", None), [])
          end
      end
  end.

End Creation.

End NetlifyAutoCreation.

(** ** [cli_integration.py] of Netlify, Vercel and Railway: reading the output *)

(** [subprocess.run(..., capture_output=True, text=True)]: the call
    raises (no such program, no permission) or the program ends. *)
Record completed := {
  returncode : Z;
  stdout : string;
  stderr : string
}.

Module NetlifyCLIIntegration.

(** The loop of [deploy_site] (lines 99-106) over the lines still to
    read.  [line.split('Website URL:')[1]] is an index into a list. *)
Fixpoint find_url (lines : list string) : outcome (option string) :=
  match lines with
  | [] => Return None
  | line :: rest =>
      if contains "Website URL:" line then
        match PyStr.item (PyStr.split_str "Website URL:" line) 1 with
        | Some text => Return (Some (strip text))
        | None => Raise (OtherError "list index out of range")
        end
      else if contains "https://" line && contains "netlify.app" line
      then Return (Some (strip line))
      else find_url rest
  end.

(** [deploy_site(project_path, build_dir)], as a function of what
    [netlify deploy --prod --dir build_dir] did. *)
Definition deploy_site (run : outcome completed)
  : bool * string * option string :=
  let failed (e : exn) := (false, "Deployment failed: " +:+ str_exn e, None) in
  match run with
  | Raise e => failed e
  | Return result =>
      if (returncode result =? 0)%Z then
        match find_url (split "010"%char (stdout result)) with
        | Return url => (true, "Deployment successful", url)
        | Raise e => failed e
        end
      else (false, "Deployment failed: " +:+ stderr result, None)
  end.

(** The loop of [create_site] (lines 72-76). *)
Fixpoint find_site_id (lines : list string) : outcome (option string) :=
  match lines with
  | [] => Return None
  | line :: rest =>
      if contains "Site ID:" line then
        match PyStr.item (PyStr.split_str "Site ID:" line) 1 with
        | Some text => Return (Some (strip text))
        | None => Raise (OtherError "list index out of range")
        end
      else find_site_id rest
  end.

(** [create_site(site_name, project_path)], as a function of what
    [netlify sites:create --name site_name] did. *)
Definition create_site (site_name : string) (run : outcome completed)
  : bool * string * option string :=
  let failed (e : exn) := (false, "Failed to create site: " +:+ str_exn e, None) in
  match run with
  | Raise e => failed e
  | Return result =>
      if (returncode result =? 0)%Z then
        match find_site_id (split "010"%char (stdout result)) with
        | Return site_id =>
            (true, "Successfully created site: " +:+ site_name, site_id)
        | Raise e => failed e
        end
      else (false, "Failed to create site: " +:+ stderr result, None)
  end.

End NetlifyCLIIntegration.

(** The loop that [deploy_project] of the Vercel and of the Railway class
    run over the lines of the output; the two differ in the host name. *)
Fixpoint find_hosted_url (host : string) (lines : list string) : option string :=
  match lines with
  | [] => None
  | line :: rest =>
      if contains "https://" line && contains host line
      then Some (strip line)
      else find_hosted_url host rest
  end.

(** The body of the two [deploy_project]. *)
Definition deploy_with_host (host : string) (run : outcome completed)
  : bool * string * option string :=
  match run with
  | Raise e => (false, "Deployment failed: " +:+ str_exn e, None)
  | Return result =>
      if (returncode result =? 0)%Z then
        (true, "Deployment successful",
         find_hosted_url host (split "010"%char (strip (stdout result))))
      else (false, "Deployment failed: " +:+ stderr result, None)
  end.

Module VercelCLIIntegration.

(** [deploy_project(project_path)], as a function of what
    [vercel --prod --yes] did. *)
Definition deploy_project (run : outcome completed)
  : bool * string * option string :=
  deploy_with_host "vercel.app" run.

End VercelCLIIntegration.

Module RailwayCLIIntegration.

(** [deploy_project(project_path)], as a function of what [railway up]
    did. *)
Definition deploy_project (run : outcome completed)
  : bool * string * option string :=
  deploy_with_host "railway.app" run.

End RailwayCLIIntegration.

(** ** [platforms/github/env_management.py] *)

Module GitHubEnvManagement.

(** The repository, as the secrets code meets it. *)
Record secrets_api := {
  (** [self.github_client.get_repo(self.repo_name)] *)
  get_repo : outcome unit;
  (** [repo.get_public_key().key] *)
  get_public_key : outcome string;
  (** whether the body of the inner [try] for one variable, which is
      [_encrypt_secret(value, key)] followed by
      [repo.create_secret(name, encrypted)], runs without an exception *)
  put_secret : string -> string -> string -> bool
}.

(** [self._repo_obj] is set *)
Record t := { cached : bool }.

Section Methods.
Context `{utils_errors}.
Variable api : secrets_api.

(** The property [repo_obj] *)
Definition repo_obj (self : t) : outcome unit * t :=
  if cached self then (Return tt, self)
  else match get_repo api with
       | Return _ => (Return tt, {| cached := true |})
       | Raise e => (Raise e, self)
       end.

(** The [for] loop of [set_environment_variables]: the counter and the
    names of the secrets written so far. *)
Fixpoint set_each (public_key : string) (items : list (string * string))
         (success_count : nat) (written : list string) : nat * list string :=
  match items with
  | [] => (success_count, written)
  | (key, value) :: rest =>
      if put_secret api key value public_key
      then set_each public_key rest (S success_count) (written ++ [key])
      else set_each public_key rest success_count written
  end.

(** What the two outer handlers make of an exception. *)
Definition set_failed (e : exn) : bool * string :=
  match e with
  | GithubException _ _ => (false, handle_github_api_error e)
  | _ => (false, "Failed to set environment variables: " +:+ str_exn e)
  end.

(** [set_environment_variables(env_vars)]: the result, the names of the
    secrets written, and the object afterwards.  [env_vars] holds the
    items of the dictionary in their order. *)
Definition set_environment_variables (self : t)
           (env_vars : list (string * string))
  : (bool * string) * list string * t :=
  match env_vars with
  | [] => ((true, "No environment variables to set"), [], self)
  | _ :: _ =>
      match repo_obj self with
      | (Raise e, self') => (set_failed e, [], self')
      | (Return _, self') =>
          match get_public_key api with
          | Raise e => (set_failed e, [], self')
          | Return public_key =>
              let '(success_count, written) :=
                set_each public_key env_vars 0 [] in
              if Nat.eqb success_count (List.length env_vars)
              then ((true, "Successfully set " +:+ str_nat success_count
                           +:+ " secrets"), written, self')
              else ((false, "Set " +:+ str_nat success_count +:+ "/"
                            +:+ str_nat (List.length env_vars) +:+ " secrets"),
                    written, self')
          end
      end
  end.

End Methods.

End GitHubEnvManagement.
(** ** [platforms/github/platform.py]: secrets through the platform *)

Module GitHubPlatformEnv.

Section Methods.
Context `{utils_errors}.
Variable api : GitHubPlatform.github_api.
Variable w : world.
Variable secrets : GitHubEnvManagement.secrets_api.

(** [GitHubPlatform.set_environment_variables(env_vars)] (lines 41-47).
    [self.env_management] is created by a validation that gets as far as
    the repository; [em] is that object when it exists already. *)
Definition set_environment_variables (self : GitHubPlatform.t)
           (em : GitHubEnvManagement.t) (env_vars : list (string * string))
  : outcome (bool * string) * list string * GitHubPlatform.t :=
  let through (em : GitHubEnvManagement.t) (self' : GitHubPlatform.t) :=
    let '(r, written, _) :=
      GitHubEnvManagement.set_environment_variables secrets em env_vars in
    (Return r, written, self') in
  if GitHubPlatform.env_management self then through em self
  else
    match GitHubPlatform.validate_credentials api w self with
    | (Raise e, self') => (Raise e, [], self')
    | (Return (valid, _), self') =>
        if negb valid then (Return (false, "Invalid credentials"), [], self')
        else if GitHubPlatform.env_management self'
             then through {| GitHubEnvManagement.cached := false |} self'
             else (Raise (AttributeError
                     "'NoneType' object has no attribute 'set_environment_variables'"),
                   [], self')
    end.

End Methods.

End GitHubPlatformEnv.

(** ** [git_utils.py] and [github/auto_creation.py]: creating the repository *)

(** How a [subprocess.run] that the caller guards ends: the program ran,
    [FileNotFoundError] (no such program or directory), or another
    exception. *)
Inductive ran :=
| Ran (result : completed)
| NotFound
| Failed (e : exn).

Module GitQueries.

(** What git answers in [project_path]. *)
Record git := {
  (** [git status] *)
  git_status : ran;
  (** [git remote -v] *)
  git_remote_v : ran;
  (** [git remote get-url origin] *)
  git_get_url : ran
}.

(** [GitUtils.is_git_repository]: only [FileNotFoundError] is caught. *)
Definition is_git_repository (g : git) : outcome bool :=
  match git_status g with
  | Ran result => Return (returncode result =? 0)%Z
  | NotFound => Return false
  | Failed e => Raise e
  end.

(** [GitUtils.has_remote_origin] *)
Definition has_remote_origin (g : git) : bool :=
  match git_remote_v g with
  | Ran result => (returncode result =? 0)%Z && contains "origin" (stdout result)
  | NotFound | Failed _ => false
  end.

(** [GitUtils.get_remote_origin_url] *)
Definition get_remote_origin_url (g : git) : option string :=
  match git_get_url g with
  | Ran result =>
      if (returncode result =? 0)%Z then Some (strip (stdout result)) else None
  | NotFound | Failed _ => None
  end.

End GitQueries.

Module GitHubRepoCreation.

(** What [auto_create_repository] meets besides git. *)
Record repo_env := {
  git : GitQueries.git;
  (** [self.github_client.get_user().login] *)
  user_login : outcome string;
  (** the lookups of [_generate_suggested_name] *)
  taken : GitHubAutoCreation.responses;
  (** [input()] at the prompt: a line, [None] for Ctrl-C, or another
      exception *)
  typed : outcome (option string);
  (** [user.create_repo(name=...)]: [(repo.full_name, repo.clone_url)] *)
  create_repo : string -> outcome (string * string);
  (** whether [git init], run with [check=True], goes through *)
  git_init_ok : bool
}.

(** What a call has asked of GitHub and of git. *)
Inductive request :=
| CreateRepo (name : string)
| EnablePages (full_name : string)
| GitInit
| GitRemoteAdd (url : string).

Section Creation.
Context `{utils_errors}.
Variable env : repo_env.

(** [should_create_repository] *)
Definition should_create_repository : outcome (bool * string) :=
  bind (GitQueries.is_git_repository (git env)) (fun is_repo =>
    if negb is_repo then Return (true, "No git repository detected")
    else if negb (GitQueries.has_remote_origin (git env))
    then Return (true, "Git repository exists but no remote origin configured")
    else
      let remote_url := GitQueries.get_remote_origin_url (git env) in
      if truthy remote_url
         && negb (contains "github.com" (default "" remote_url))
      then Return (true, "Remote origin is not GitHub")
      else Return (false, "Git repository with GitHub remote already exists")).

(** [_prompt_for_repo_name] *)
Definition _prompt_for_repo_name (suggested_name : string)
           (line : option string) : option string :=
  match line with
  | None => None
  | Some text =>
      let user_input := strip text in
      if negb (truthy (Some user_input)) then Some suggested_name
      else Some (GitHubAutoCreation.base_name_of user_input)
  end.

(** [_configure_git_remote(clone_url, project_path)]: what it asks of
    git; its result is not used. *)
Definition _configure_git_remote (clone_url : string) : list request :=
  match GitQueries.is_git_repository (git env) with
  | Raise _ => []
  | Return is_repo =>
      let remote :=
        if negb (GitQueries.has_remote_origin (git env))
        then [GitRemoteAdd clone_url] else [] in
      if is_repo then remote
      else if git_init_ok env then GitInit :: remote else [GitInit]
  end.

(** The two handlers of [auto_create_repository]. *)
Definition creation_failed (e : exn) : bool * string * option string :=
  match e with
  | GithubException _ _ => (false, handle_github_api_error e, None)
  | _ => (false, "Failed to create repository: " +:+ str_exn e, None)
  end.

(** [auto_create_repository(project_name, project_path)] on an object
    built with [token].  [fuel] bounds the lookups of the name probing;
    [None]: they are used up with the probing still going on. *)
Definition auto_create_repository (fuel : nat) (token : option string)
           (project_name : string)
  : option ((bool * string * option string) * list request) :=
  if negb (truthy token)
  then Some ((false, "GitHub token not available", None), [])
  else
    match should_create_repository with
    | Raise e => Some (creation_failed e, [])
    | Return (false, reason) => Some ((true, reason, None), [])
    | Return (true, _) =>
        match user_login env with
        | Raise e => Some (creation_failed e, [])
        | Return login =>
            match GitHubAutoCreation._generate_suggested_name
                    fuel (taken env) project_name login with
            | None => None
            | Some suggested_name =>
                match typed env with
                | Raise e => Some (creation_failed e, [])
                | Return line =>
                    match _prompt_for_repo_name suggested_name line with
                    | Some repo_name =>
                        if negb (truthy (Some repo_name))
                        then Some ((false, "Repository creation cancelled", None), [])
                        else
                          match create_repo env repo_name with
                          | Raise e =>
                              Some (creation_failed e, [CreateRepo repo_name])
                          | Return (full_name, clone_url) =>
                              Some ((true, "Created repository: " +:+ full_name,
                                     Some full_name),
                                    CreateRepo repo_name :: EnablePages full_name
                                    :: _configure_git_remote clone_url)
                          end
                    | None =>
                        Some ((false, "Repository creation cancelled", None), [])
                    end
                end
            end
        end
    end.

End Creation.

End GitHubRepoCreation.

(** ** [platforms/github/platform.py]: [prepare_deployment] *)

Module GitHubPlatformPrepare.

Section Methods.
Context `{utils_errors}.
Variable api : GitHubPlatform.github_api.
Variable w : world.

(** [prepare_deployment(project_path, build_command, output_dir)]
    (lines 177-187); none of the three arguments is used. *)
Definition prepare_deployment (self : GitHubPlatform.t)
  : outcome (bool * string) * GitHubPlatform.t :=
  match GitHubPlatform.validate_credentials api w self with
  | (Raise e, self') => (Raise e, self')
  | (Return (valid, message), self') =>
      if negb valid then (Return (false, message), self')
      else match GitHubPlatform.repo_obj self' with
           | None => (Return (false, "Repository not accessible"), self')
           | Some _ => (Return (true, "Ready for deployment"), self')
           end
  end.

End Methods.

End GitHubPlatformPrepare.

(** ** [utils/config.py] *)

Module Config.

(** What [deployx.yml] is when it is read: not there, not readable as
    YAML (or not readable at all), or a document, by the value that
    [yaml.safe_load] returns for it ([JNull] for an empty file). *)
Inductive config_file :=
| Absent
| Unloadable (e : exn)
| Document (value : json).

(** The object, by its cache [self._data]. *)
Record t := { _data : json }.

(** [Config(project_path)] *)
Definition init : t := {| _data := JObj [] |}.

(** [load()] *)
Definition load (self : t) (file : config_file) : outcome json * t :=
  match file with
  | Absent => (Return (JObj []), self)
  | Unloadable e => (Raise e, self)
  | Document value =>
      let data := if Json.truthy value then value else JObj [] in
      (Return data, {| _data := data |})
  end.

(** [save(data)]: the cache is set before the file is opened;
    [can_write] tells whether [open(self.config_path, 'w')] and the dump
    go through, and [dumped] is the value that the text written by
    [yaml.dump(data, ...)] is loaded as. *)
Definition save (can_write : bool) (dumped : json) (self : t)
           (file : config_file) (data : list (string * json))
  : outcome unit * t * config_file :=
  let self' := {| _data := JObj data |} in
  if can_write then (Return tt, self', Document dumped)
  else (Raise (OSError "deployx.yml"), self', file).

(** [exists()] *)
Definition exists_ (file : config_file) : bool :=
  match file with
  | Absent => false
  | _ => true
  end.

(** [get(key, default)] *)
Definition get (self : t) (file : config_file) (key : string) (dflt : json)
  : outcome json * t :=
  let look (self1 : t) : outcome json * t :=
    (bind (Json.get (_data self1) key) (fun v => Return (default dflt v)),
     self1) in
  if negb (Json.truthy (_data self))
  then match load self file with
       | (Raise e, self1) => (Raise e, self1)
       | (Return _, self1) => look self1
       end
  else look self.

(** [get_platform_config(platform)] *)
Definition get_platform_config (self : t) (file : config_file)
           (platform : string) : outcome json * t :=
  get self file platform (JObj []).

End Config.

(** * Sample inputs

    Concrete objects and worlds on which the statements below are
    evaluated. *)

Definition project_site : GitHubPlatform.t :=
  {| GitHubPlatform.repo_name := Some "user/repo";
     GitHubPlatform.method := "branch";
     GitHubPlatform.branch := "gh-pages";
     GitHubPlatform.github_client := None;
     GitHubPlatform.repo_obj := None;
     GitHubPlatform.token := None;
     GitHubPlatform.auto_creation := None;
     GitHubPlatform.deployment_repo_name := Some "user/repo";
     GitHubPlatform.env_management := false |}.

(** One possible [utils/errors.py]: the error text is the platform name
    followed by the text handed in, and the retry wrapper re-raises what
    it does not retry. *)
Definition sample_errors : utils_errors :=
  {| handle_auth_error := fun platform text => platform +:+ ": " +:+ text;
     handle_github_api_error := fun e => "GitHub API error: " +:+ str_exn e;
     handle_git_error := fun text => "Git error: " +:+ text;
     handle_build_error := fun text => "Build error: " +:+ text;
     on_exhausted := fun e => Raise e;
     on_fatal := fun e => Raise e |}.

(** The world with one source taken away. *)
Definition without_cli (b : backend) (w : world) : world :=
  {| cli_available := fun b' => if bool_decide (b' = b) then false
                                else cli_available w b';
     cli_token := cli_token w;
     files := files w;
     environ := environ w;
     getcwd := getcwd w |}.

Definition without_file (b : backend) (w : world) : world :=
  {| cli_available := cli_available w;
     cli_token := cli_token w;
     files := delete (Credentials.token_file b) (files w);
     environ := environ w;
     getcwd := getcwd w |}.

Definition without_env (b : backend) (w : world) : world :=
  {| cli_available := cli_available w;
     cli_token := cli_token w;
     files := files w;
     environ := delete (Credentials.env_var b) (environ w);
     getcwd := getcwd w |}.

(** A machine on which every backend has all three sources. *)
Definition all_sources : world :=
  {| cli_available := fun _ => true;
     cli_token := fun _ => Some "cli-token";
     files := list_to_map
                [(".deployx_token", Text (" file-token" +:+ String "010" ""));
                 (".deployx_netlify_token", Text "file-token");
                 (".deployx_vercel_token", Text "file-token");
                 (".deployx_railway_token", Text "file-token")];
     environ := list_to_map
                [("GITHUB_TOKEN", "env-token"); ("NETLIFY_TOKEN", "env-token");
                 ("VERCEL_TOKEN", "env-token"); ("RAILWAY_TOKEN", "env-token")];
     getcwd := Return "/home/dev/my_site" |}.

(** A machine without any credential. *)
Definition no_sources : world :=
  {| cli_available := fun _ => false;
     cli_token := fun _ => None;
     files := ∅;
     environ := ∅;
     getcwd := Return "/home/dev/my_site" |}.

(** What "the call fails with the missing-token message" means for each
    backend: [GitHubPlatform] resolves its token when it is built, the
    other three when [validate_credentials] runs. *)
Definition reports_missing_token `{utils_errors} (b : backend) (w : world) : Prop :=
  match b with
  | GitHub =>
      forall api cfg,
        fst (GitHubPlatform.validate_credentials api w (GitHubPlatform.init cfg w))
        = Return (false, handle_auth_error "github" "No token provided")
  | Netlify =>
      forall env self,
        fst (NetlifyPlatform.validate_credentials env w self)
        = Return (false, handle_auth_error "netlify" "No token provided")
  | Vercel =>
      forall env self,
        fst (VercelPlatform.validate_credentials env w self)
        = Return (false, handle_auth_error "vercel" "No token provided")
  | Railway =>
      forall env self,
        fst (RailwayPlatform.validate_credentials env w self)
        = Return (false, handle_auth_error "railway" "No token provided")
  end.

Definition with_files (fs : gmap string file_obs) (w : world) : world :=
  {| cli_available := cli_available w;
     cli_token := cli_token w;
     files := fs;
     environ := environ w;
     getcwd := getcwd w |}.

(** [no_sources] after [export GITHUB_TOKEN=fresh-token], and the same
    for Netlify. *)
Definition env_only : world :=
  {| cli_available := fun _ => false;
     cli_token := fun _ => None;
     files := ∅;
     environ := list_to_map [("GITHUB_TOKEN", "fresh-token");
                             ("NETLIFY_TOKEN", "fresh-token")];
     getcwd := Return "/home/dev/my_site" |}.

(** A machine whose only credential is an old Netlify token in the
    environment. *)
Definition old_env : world :=
  {| cli_available := fun _ => false;
     cli_token := fun _ => None;
     files := ∅;
     environ := list_to_map [("NETLIFY_TOKEN", "old-token")];
     getcwd := Return "/home/dev/my_site" |}.

Definition quiet_http : NetlifyAPIIntegration.netlify_http :=
  {| NetlifyAPIIntegration.http_get_deploys := fun _ _ => HttpReply 200 (Return []);
     NetlifyAPIIntegration.http_get := fun _ _ => HttpReply 404 (Return JNull);
     NetlifyAPIIntegration.http_post_file := fun _ _ => HttpReply 200 (Return (JObj [])) |}.

Definition quiet_fs : NetlifyAPIIntegration.local_fs :=
  {| NetlifyAPIIntegration.build_exists := true;
     NetlifyAPIIntegration.build_tree := [];
     NetlifyAPIIntegration.named_temporary_file := Return "/tmp/tmpa1b2c3.zip";
     NetlifyAPIIntegration.unlink_raises := false |}.

(** A Netlify account on which only [fresh-token] is valid. *)
Definition fresh_only : NetlifyPlatform.netlify_env :=
  {| NetlifyPlatform.net := quiet_http;
     NetlifyPlatform.validate_token := fun tok =>
       if eqb_str tok "fresh-token" then (true, "Authenticated as dev@example.org")
       else (false, "Invalid token");
     NetlifyPlatform.auto_create_site := fun _ _ _ =>
       (true, "Netlify site already configured", None);
     NetlifyPlatform.link_site := fun _ _ => (true, "linked");
     NetlifyPlatform.cli_deploy_site := fun _ _ => (true, "Deployment successful", None);
     NetlifyPlatform.local := quiet_fs |}.

Definition netlify_site_cfg : NetlifyPlatform.config :=
  {| NetlifyPlatform.cfg_site_id := Some "site-1";
     NetlifyPlatform.cfg_custom_domain := None;
     NetlifyPlatform.cfg_use_cli := None |}.

(** The five values of the specification, and the four that the
    platform classes write. *)
Definition canonical_statuses : list string :=
  ["unknown"; "not_deployed"; "building"; "ready"; "error"].

Definition code_statuses : list string :=
  ["deployed"; "building"; "error"; "not_deployed"].

(** A Netlify site whose latest deploy is in the given state. *)
Definition latest_in_state (raw : string) : NetlifyPlatform.netlify_env :=
  {| NetlifyPlatform.net :=
       {| NetlifyAPIIntegration.http_get_deploys := fun _ _ =>
            HttpReply 200
              (Return [{| state := Some raw;
                          deploy_url := Some "https://site-1.netlify.app" |}]);
          NetlifyAPIIntegration.http_get := fun _ _ => HttpReply 404 (Return JNull);
          NetlifyAPIIntegration.http_post_file := fun _ _ =>
            HttpReply 200 (Return (JObj [])) |};
     NetlifyPlatform.validate_token := fun _ => (true, "Authenticated as dev@example.org");
     NetlifyPlatform.auto_create_site := fun _ _ _ =>
       (true, "Netlify site already configured", None);
     NetlifyPlatform.link_site := fun _ _ => (true, "linked");
     NetlifyPlatform.cli_deploy_site := fun _ _ => (true, "Deployment successful", None);
     NetlifyPlatform.local := quiet_fs |}.

Definition netlify_site : NetlifyPlatform.t :=
  {| NetlifyPlatform.site_id := Some "site-1";
     NetlifyPlatform.custom_domain := None;
     NetlifyPlatform.use_cli := false;
     NetlifyPlatform.token := Some "fresh-token";
     NetlifyPlatform.api_integration := Some "fresh-token";
     NetlifyPlatform.auto_creation := Some "fresh-token" |}.

(** A project with a [build] directory, checked out on [gh-pages]. *)
Definition built_project : GitHubDeployment.tree :=
  [(".git", GitHubDeployment.Dir []);
   (".gitignore", GitHubDeployment.File "node_modules");
   ("build", GitHubDeployment.Dir
               [("index.html", GitHubDeployment.File "<html></html>")]);
   ("node_modules", GitHubDeployment.Dir
               [("left-pad", GitHubDeployment.Dir [])]);
   ("index.html", GitHubDeployment.File "<html></html>")].

Definition pages_deployment : GitHubDeployment.t :=
  {| GitHubDeployment.repo_name := Some "user/repo";
     GitHubDeployment.method := "branch";
     GitHubDeployment.branch := "gh-pages" |}.

(** A repository in which every call succeeds, except that the commit
    step answers as [commit_answer] says. *)
Definition calm_repo (commit_answer : outcome unit)
           (stuck : string -> bool) : GitHubDeployment.deploy_world :=
  {| GitHubDeployment.repo_opens := true;
     GitHubDeployment.repo_init := Return tt;
     GitHubDeployment.refs := Return ["main"; "gh-pages"; "origin/main"];
     GitHubDeployment.checkout := fun _ => Return tt;
     GitHubDeployment.after_checkout := fun wt => wt;
     GitHubDeployment.remove_result := fun name n =>
       if stuck name then Some n else None;
     GitHubDeployment.copy_raises := fun _ => false;
     GitHubDeployment.external := fun _ => None;
     GitHubDeployment.add := fun _ => Return tt;
     GitHubDeployment.commit := fun _ => commit_answer;
     GitHubDeployment.push := fun _ _ => Return tt |}.

Definition clean_tree_text : string :=
  "Cmd('git') failed due to: exit code(1) stdout: 'On branch gh-pages nothing to commit, working tree clean'".

Definition nothing_to_commit : outcome unit :=
  Raise (GitCommandError clean_tree_text).

(** The run gets as far as the commit step: the build output exists, the
    repository opens or is initialised, a checkout succeeds, the build
    output is still a directory once the branch content is cleared, and
    [git add] succeeds. *)
Definition reaches_commit (dw : GitHubDeployment.deploy_world)
           (self : GitHubDeployment.t) (output_dir : string)
           (wt : GitHubDeployment.tree) : Prop :=
  GitHubDeployment.output_node dw wt output_dir <> None /\
  (GitHubDeployment.repo_opens dw = true \/
   GitHubDeployment.repo_init dw = Return tt) /\
  (exists tr, GitHubDeployment.checkout_branch dw self = Return tr) /\
  (exists items,
      GitHubDeployment.output_node dw
        (GitHubDeployment.clear_branch_content dw output_dir
           (GitHubDeployment.after_checkout dw wt)) output_dir
      = Some (GitHubDeployment.Dir items)) /\
  GitHubDeployment.add dw "." = Return tt.

Definition makes_history (e : GitHubDeployment.effect) : bool :=
  match e with
  | GitHubDeployment.ECommit _ | GitHubDeployment.EPush _ _ => true
  | _ => false
  end.

(** [node_modules] cannot be removed (say, a file in it is held open or
    belongs to another user); every other removal succeeds. *)
Definition stuck_node_modules (name : string) : bool :=
  eqb_str name "node_modules".

(** An Angular-style project: the build output is [dist/app]. *)
Definition nested_project : GitHubDeployment.tree :=
  [(".git", GitHubDeployment.Dir []);
   ("dist", GitHubDeployment.Dir
              [("app", GitHubDeployment.Dir
                         [("index.html", GitHubDeployment.File "<html></html>")])]);
   ("src", GitHubDeployment.Dir [])].

(** The top-level entry of the project directory through which
    [project_path / output_dir] is reached: the build-output directory
    itself when [output_dir] is one name, the entry that holds it when
    [output_dir] is a longer path; none when the path leaves the
    project or is the project directory. *)
Definition build_output_entry (output_dir : string) : option string :=
  if GitHubDeployment.leaves_project output_dir then None
  else head (GitHubDeployment.path_parts output_dir).

(** The allow-list as the specification words it: the version-control
    metadata directory, the build-output directory, the ignore file and
    the custom-domain marker file. *)
Definition allow_listed (output_dir name : string) : bool :=
  bool_decide (name ∈ [".git"; ".gitignore"; "CNAME"]) ||
  bool_decide (build_output_entry output_dir = Some name).

(** C8 as the specification words it: after the clearing step the
    top-level entries are exactly the allow-listed ones, unchanged. *)
Definition clears_all_but_allow_list (dw : GitHubDeployment.deploy_world)
           (output_dir : string) (wt : GitHubDeployment.tree) : Prop :=
  forall name n,
    (name, n) ∈ GitHubDeployment.clear_branch_content dw output_dir wt <->
    ((name, n) ∈ wt /\ allow_listed output_dir name = true).

(** [output_dir] names a top-level entry of the project directory: the
    text is one path component, so that [project_path / output_dir] is
    the entry of that name. *)
Definition names_top_level_entry (output_dir : string) : Prop :=
  GitHubDeployment.leaves_project output_dir = false /\
  GitHubDeployment.path_parts output_dir = [output_dir].

(** A build directory with a file that cannot be read. *)
Definition unreadable_build : NetlifyAPIIntegration.local_fs :=
  {| NetlifyAPIIntegration.build_exists := true;
     NetlifyAPIIntegration.build_tree :=
       [{| NetlifyAPIIntegration.rel_path := "index.html";
           NetlifyAPIIntegration.is_file := true;
           NetlifyAPIIntegration.readable := true |};
        {| NetlifyAPIIntegration.rel_path := "private.key";
           NetlifyAPIIntegration.is_file := true;
           NetlifyAPIIntegration.readable := false |}];
     NetlifyAPIIntegration.named_temporary_file := Return "/tmp/tmpa1b2c3.zip";
     NetlifyAPIIntegration.unlink_raises := false |}.

Definition netlify_with (fs : NetlifyAPIIntegration.local_fs)
           (h : NetlifyAPIIntegration.netlify_http)
           (created : bool * string * option string)
  : NetlifyPlatform.netlify_env :=
  {| NetlifyPlatform.net := h;
     NetlifyPlatform.validate_token := fun _ => (true, "Authenticated as dev@example.org");
     NetlifyPlatform.auto_create_site := fun _ _ _ => created;
     NetlifyPlatform.link_site := fun _ _ => (true, "linked");
     NetlifyPlatform.cli_deploy_site := fun _ _ => (true, "Deployment successful", None);
     NetlifyPlatform.local := fs |}.

(** The site address answers with a JSON array. *)
Definition array_reply : NetlifyAPIIntegration.netlify_http :=
  {| NetlifyAPIIntegration.http_get_deploys := fun _ _ => HttpReply 200 (Return []);
     NetlifyAPIIntegration.http_get := fun _ _ =>
       HttpReply 200 (Return (JArr [JObj [("url", JStr "https://site-1.netlify.app")]]));
     NetlifyAPIIntegration.http_post_file := fun _ _ =>
       HttpReply 200 (Return (JObj [])) |}.

(** A Netlify object for which no site is configured yet. *)
Definition netlify_no_site : NetlifyPlatform.t :=
  {| NetlifyPlatform.site_id := None;
     NetlifyPlatform.custom_domain := None;
     NetlifyPlatform.use_cli := false;
     NetlifyPlatform.token := Some "fresh-token";
     NetlifyPlatform.api_integration := Some "fresh-token";
     NetlifyPlatform.auto_creation := Some "fresh-token" |}.

Definition site_created : bool * string * option string :=
  (true, "Created site: my-site", Some "0d3a9f2c").

(** A project whose site is kept in [docs]. *)
Definition docs_project : GitHubDeployment.tree :=
  [(".git", GitHubDeployment.Dir []);
   ("docs", GitHubDeployment.Dir
              [("index.html", GitHubDeployment.File "<html></html>")]);
   ("README.md", GitHubDeployment.File "# site")].

(** A file system that takes every write. *)
Definition willing_fs : InitCommand.fs_env :=
  {| InitCommand.can_write := fun _ => true;
     InitCommand.can_chmod := fun _ => true |}.

(** The user pastes a token and keeps every default. *)
Definition pastes (token : string) : InitCommand.answers :=
  {| InitCommand.token_value := Some token;
     InitCommand.use_detected := Some true;
     InitCommand.repo_text := Some "user/repo";
     InitCommand.method_choice := Some "branch";
     InitCommand.branch_text := Some "gh-pages";
     InitCommand.id_text := Some "" |}.

(** A project directory whose [.gitignore] lists [node_modules]. *)
Definition fresh_checkout : gmap string file_obs :=
  {[ ".gitignore" := Text "node_modules" ]}.

(** Services that accept the token of the command-line tool and no
    other; nothing is created on the way. *)
Definition accepts_cli_token : AuthCommand.test_env :=
  {| AuthCommand.github_api :=
       {| GitHubPlatform.auto_create_repository := fun _ _ =>
            (false, "not asked for", None);
          GitHubPlatform.get_repo := fun _ _ => Return tt;
          GitHubPlatform.user_login := fun _ => Return "user";
          GitHubPlatform.get_collaborator_permission := fun _ _ _ =>
            Return "admin";
          GitHubPlatform.get_pages := fun _ _ => Return (None, None);
          GitHubPlatform.logger_defined := false |};
     AuthCommand.vercel_env :=
       {| VercelPlatform.auto_create_project := fun _ _ _ =>
            (true, "project exists", None);
          VercelPlatform.list_projects := fun token =>
            if eqb_str token "cli-token" then (true, 2, "")
            else (false, 0, "invalid token") |};
     AuthCommand.railway_env :=
       {| RailwayPlatform.validate_token := fun token =>
            if eqb_str token "cli-token" then (true, "Token valid")
            else (false, "Invalid token");
          RailwayPlatform.auto_create_complete_setup := fun _ _ =>
            (true, "setup exists", None);
          RailwayPlatform.get_project_info := fun _ _ =>
            (false, None, "not asked for") |};
     AuthCommand.netlify_user := fun token =>
       Return (if eqb_str token "cli-token" then 200%Z else 401%Z) |}.

(** What [lower], [replace(" ", "-")] and [replace("_", "-")] make of
    one character. *)
Definition fold_char (c : ascii) : ascii :=
  let c1 := lower_ascii c in
  let c2 := if Ascii.eqb c1 " " then "-"%char else c1 in
  if Ascii.eqb c2 "_" then "-"%char else c2.

(** A name as the hosting services take it: not empty, made of
    lower-case letters, digits and hyphens, with no hyphen at either end. *)
Definition well_formed_name (r : string) : bool :=
  negb (eqb_str r "") && PyStr.forallb_str SuggestedName.name_char r
  && negb (prefixb "-" r)
  && bool_decide (PyStr.strip_suffix "-" r = None).

(** The name that a request would create a site under. *)
Definition created_name (q : NetlifyAutoCreation.request) : option string :=
  match q with
  | NetlifyAutoCreation.CliCreate name => Some name
  | NetlifyAutoCreation.ApiCreate name _ => Some name
  | _ => None
  end.

(** A project without Netlify files, a user who presses Enter, and an
    API that creates what it is asked for. *)
Definition first_site : NetlifyAutoCreation.site_env :=
  {| NetlifyAutoCreation.has_netlify_dir := Return false;
     NetlifyAutoCreation.has_netlify_toml := Return false;
     NetlifyAutoCreation.typed := Return (Some "");
     NetlifyAutoCreation.use_cli := false;
     NetlifyAutoCreation.cli_is_available := Return false;
     NetlifyAutoCreation.cli_create_site := fun _ => (false, "no CLI", None);
     NetlifyAutoCreation.cli_link_site := fun _ => (false, "no CLI");
     NetlifyAutoCreation.has_api := true;
     NetlifyAutoCreation.api_create_site := fun name _ =>
       (true, "Created site: " +:+ name, Some "site-1") |}.

(** A repository that takes every secret but [BAD]. *)
Definition picky_secrets : GitHubEnvManagement.secrets_api :=
  {| GitHubEnvManagement.get_repo := Return tt;
     GitHubEnvManagement.get_public_key := Return "key";
     GitHubEnvManagement.put_secret := fun key _ _ => negb (eqb_str key "BAD") |}.

(** The command-line side of [env] is [NetlifyCLIIntegration.deploy_site]:
    what it returns is what that method makes of some run of
    [netlify deploy]. *)
Definition cli_is_modelled (env : NetlifyPlatform.netlify_env) : Prop :=
  forall project_path output_dir,
    exists run,
      NetlifyPlatform.cli_deploy_site env project_path output_dir
      = NetlifyCLIIntegration.deploy_site run.

(** A Netlify environment in which [netlify deploy] ends as [result]
    says. *)
Definition netlify_cli_ends (result : completed) : NetlifyPlatform.netlify_env :=
  {| NetlifyPlatform.net := quiet_http;
     NetlifyPlatform.validate_token := fun _ => (true, "Authenticated");
     NetlifyPlatform.auto_create_site := fun _ _ _ => (true, "exists", None);
     NetlifyPlatform.link_site := fun _ _ => (true, "linked");
     NetlifyPlatform.cli_deploy_site := fun _ _ =>
       NetlifyCLIIntegration.deploy_site (Return result);
     NetlifyPlatform.local := quiet_fs |}.

(** A run of [netlify deploy] that is refused after it has printed the
    address of the site. *)
Definition refused_deploy : completed :=
  {| returncode := 1;
     stdout := "Website URL: https://my-site.netlify.app";
     stderr := "Error: Unauthorized" |}.

(** A site that is deployed with the command-line tool. *)
Definition netlify_cli_site : NetlifyPlatform.t :=
  {| NetlifyPlatform.site_id := Some "site-1";
     NetlifyPlatform.custom_domain := None;
     NetlifyPlatform.use_cli := true;
     NetlifyPlatform.token := Some "fresh-token";
     NetlifyPlatform.api_integration := Some "fresh-token";
     NetlifyPlatform.auto_creation := Some "fresh-token" |}.

(** The repository creation that [GitHubPlatform] calls is
    [GitHubAutoCreation.auto_create_repository] in the project directory
    described by [env], and it returns. *)
Definition creation_is_modelled `{utils_errors}
           (api : GitHubPlatform.github_api)
           (env : GitHubRepoCreation.repo_env) : Prop :=
  forall token project_name,
    truthy (Some token) = true ->
    exists fuel requests,
      GitHubRepoCreation.auto_create_repository env fuel (Some token) project_name
      = Some (GitHubPlatform.auto_create_repository api token project_name,
              requests).

(** The requests that create a repository. *)
Definition creates_repo (q : GitHubRepoCreation.request) : bool :=
  match q with
  | GitHubRepoCreation.CreateRepo _ => true
  | _ => false
  end.

(** A clone whose only remote is called [upstream]; its address holds
    the letters [origin]. *)
Definition upstream_only : GitQueries.git :=
  {| GitQueries.git_status :=
       Ran {| returncode := 0; stdout := "On branch main"; stderr := "" |};
     GitQueries.git_remote_v :=
       Ran {| returncode := 0;
              stdout := "upstream https://gitlab.com/team/original.git (fetch)";
              stderr := "" |};
     GitQueries.git_get_url :=
       Ran {| returncode := 2; stdout := "";
              stderr := "error: No such remote 'origin'" |} |}.

Definition in_upstream_clone : GitHubRepoCreation.repo_env :=
  {| GitHubRepoCreation.git := upstream_only;
     GitHubRepoCreation.user_login := Return "user";
     GitHubRepoCreation.taken := fun _ _ => false;
     GitHubRepoCreation.typed := Return (Some "");
     GitHubRepoCreation.create_repo := fun name =>
       Return ("user/" +:+ name, "https://github.com/user/" +:+ name +:+ ".git");
     GitHubRepoCreation.git_init_ok := true |}.

(** What PyGithub answers for the account of [in_upstream_clone]. *)
Definition upstream_clone_api : GitHubPlatform.github_api :=
  {| GitHubPlatform.auto_create_repository := fun _ _ =>
       (true, "Git repository with GitHub remote already exists", None);
     GitHubPlatform.get_repo := fun _ _ => Return tt;
     GitHubPlatform.user_login := fun _ => Return "user";
     GitHubPlatform.get_collaborator_permission := fun _ _ _ => Return "admin";
     GitHubPlatform.get_pages := fun _ _ => Return (None, None);
     GitHubPlatform.logger_defined := false |}.

(** A platform object built from a configuration without [repo]. *)
Definition unnamed_site : GitHubPlatform.t :=
  {| GitHubPlatform.repo_name := None;
     GitHubPlatform.method := "branch";
     GitHubPlatform.branch := "gh-pages";
     GitHubPlatform.github_client := None;
     GitHubPlatform.repo_obj := None;
     GitHubPlatform.token := Some "ghp_abc";
     GitHubPlatform.auto_creation := Some "ghp_abc";
     GitHubPlatform.deployment_repo_name := None;
     GitHubPlatform.env_management := false |}.

(** The retry wrapper does not turn a failure into a success: what it
    hands back for an exception is not a pair that begins with [True]. *)
Definition wrapper_reports_failures `{utils_errors} : Prop :=
  forall e message,
    on_exhausted e <> Return (true, message) /\
    on_fatal e <> Return (true, message).

(** An object that has been through a successful validation. *)
Definition ready_for_deployment (self : GitHubPlatform.t) : Prop :=
  exists token name,
    GitHubPlatform.token self = Some token /\
    GitHubPlatform.repo_name self = Some name /\
    GitHubPlatform.deployment_repo_name self = Some name /\
    GitHubPlatform.github_client self = Some token /\
    GitHubPlatform.repo_obj self = Some (token, name) /\
    GitHubPlatform.env_management self = true.

(** * Properties *)

(** ** Strings *)

Lemma split_nonempty sep s : split sep s <> [].
Proof.
  destruct s as [|c s]; simpl; [discriminate|].
  destruct (Ascii.eqb c sep); [discriminate|].
  destruct (split sep s); discriminate.
Qed.

Lemma split_length sep s : length (split sep s) = S (count_char sep s).
Proof.
  induction s as [|c s IH]; simpl; [reflexivity|].
  destruct (Ascii.eqb c sep); simpl.
  - now rewrite IH.
  - destruct (split sep s) as [|h t] eqn:E.
    + now apply split_nonempty in E.
    + simpl in *. exact IH.
Qed.

Lemma split_no_sep sep s : count_char sep s = 0 -> split sep s = [s].
Proof.
  induction s as [|c s IH]; simpl; [reflexivity|].
  destruct (Ascii.eqb c sep); simpl; [discriminate|].
  intros Hc. now rewrite IH.
Qed.

Lemma split_app sep a b :
  count_char sep a = 0 ->
  split sep (a +:+ String sep b) = a :: split sep b.
Proof.
  induction a as [|c a IH]; simpl.
  - intros _. now rewrite Ascii.eqb_refl.
  - destruct (Ascii.eqb c sep); simpl; [discriminate|].
    intros Hc. now rewrite IH.
Qed.

Lemma eqb_str_true a b : eqb_str a b = true <-> a = b.
Proof. unfold eqb_str. apply bool_decide_eq_true. Qed.

Lemma eqb_str_refl a : eqb_str a a = true.
Proof. now apply eqb_str_true. Qed.

Lemma rstrip_idem s : rstrip (rstrip s) = rstrip s.
Proof.
  induction s as [|c s IH]; [reflexivity|]. simpl.
  destruct (rstrip s) as [|d r] eqn:E.
  - destruct (isspace c) eqn:Ec; [reflexivity|]. simpl. now rewrite Ec.
  - change (rstrip (String c (String d r))) with
      (match rstrip (String d r) with
       | EmptyString => if isspace c then EmptyString else String c EmptyString
       | x => String c x
       end).
    now rewrite IH.
Qed.

Lemma lstrip_head s :
  lstrip s = EmptyString \/ exists c t, lstrip s = String c t /\ isspace c = false.
Proof.
  induction s as [|c s IH]; [now left|]. simpl.
  destruct (isspace c) eqn:Ec; [exact IH|]. right. eauto.
Qed.

Lemma rstrip_head c t :
  isspace c = false -> exists r, rstrip (String c t) = String c r.
Proof.
  intros Ec. simpl. destruct (rstrip t); [rewrite Ec|]; eauto.
Qed.

Lemma strip_idem s : strip (strip s) = strip s.
Proof.
  unfold strip.
  destruct (lstrip_head s) as [->|(c & t & -> & Ec)]; [reflexivity|].
  destruct (rstrip_head c t Ec) as (r & Hr).
  rewrite Hr. simpl lstrip. rewrite Ec, <- Hr. apply rstrip_idem.
Qed.

(** ** C10: the Pages address *)

Lemma pages_url_of_two_parts owner repo :
  count_char "/" owner = 0 -> count_char "/" repo = 0 ->
  PagesUrl.pages_url_of (owner +:+ "/" +:+ repo) =
  Some (if bool_decide (repo = owner +:+ ".github.io")
        then "https://" +:+ owner +:+ ".github.io"
        else "https://" +:+ owner +:+ ".github.io/" +:+ repo).
Proof.
  intros Ho Hr. unfold PagesUrl.pages_url_of.
  change (owner +:+ "/" +:+ repo) with (owner +:+ String "/" repo).
  rewrite (split_app _ _ _ Ho), (split_no_sep _ _ Hr).
  unfold eqb_str. now destruct (bool_decide _).
Qed.

Lemma pages_url_of_other name :
  count_char "/" name <> 1 -> PagesUrl.pages_url_of name = None.
Proof.
  intros Hn. unfold PagesUrl.pages_url_of.
  pose proof (split_length "/" name) as Hl.
  destruct (split "/" name) as [|a [|b [|c l]]]; try reflexivity.
  simpl in Hl. congruence.
Qed.

(** C10.  [GitHubPlatform.get_url] depends on [repo_name] only; it is
    [None] when the name is unset (absent or empty) and when the name does
    not hold exactly one slash; for [owner/repo] it is
    [https://owner.github.io] when [repo] is [owner.github.io] and
    [https://owner.github.io/repo] otherwise. *)
Theorem get_url_of_repo_name :
  (forall self1 self2 : GitHubPlatform.t,
      GitHubPlatform.repo_name self1 = GitHubPlatform.repo_name self2 ->
      GitHubPlatform.get_url self1 = GitHubPlatform.get_url self2) /\
  (forall self,
      truthy (GitHubPlatform.repo_name self) = false ->
      GitHubPlatform.get_url self = None) /\
  (forall self name,
      GitHubPlatform.repo_name self = Some name ->
      count_char "/" name <> 1 ->
      GitHubPlatform.get_url self = None) /\
  (forall self owner repo,
      count_char "/" owner = 0 -> count_char "/" repo = 0 ->
      GitHubPlatform.repo_name self = Some (owner +:+ "/" +:+ repo) ->
      GitHubPlatform.get_url self =
      Some (if bool_decide (repo = owner +:+ ".github.io")
            then "https://" +:+ owner +:+ ".github.io"
            else "https://" +:+ owner +:+ ".github.io/" +:+ repo)).
Proof.
  unfold GitHubPlatform.get_url, PagesUrl.get_url. repeat split.
  - intros self1 self2 ->. reflexivity.
  - intros self ->. reflexivity.
  - intros self name -> Hn.
    destruct (negb (truthy (Some name))); [reflexivity|].
    now apply pages_url_of_other.
  - intros self owner repo Ho Hr ->.
    assert (truthy (Some (owner +:+ "/" +:+ repo)) = true) as ->
        by (destruct owner; reflexivity).
    simpl negb. cbv iota. now apply pages_url_of_two_parts.
Qed.

Lemma get_url_of_repo_name_witness :
  GitHubPlatform.get_url project_site = Some "https://user.github.io/repo".
Proof.
  destruct get_url_of_repo_name as (_ & _ & _ & H).
  exact (H project_site "user" "repo" eq_refl eq_refl eq_refl).
Defined.

(** ** C2: the order of the credential sources *)

Section Resolution.
Import Credentials.
Context `{utils_errors}.

Lemma get_token_cases (b : backend) (w : world) :
  _get_token b w =
  match cli_source b w with
  | Some t => Some t
  | None => match file_source b w with
            | Some t => Some t
            | None => env_source b w
            end
  end.
Proof.
  unfold _get_token, get_token_from, cli_source, file_source, env_source.
  destruct (cli_available w b && truthy (cli_token w b)) eqn:E.
  - destruct (cli_token w b) eqn:Et; [reflexivity|].
    now rewrite andb_false_r in E.
  - reflexivity.
Qed.

Lemma cli_source_truthy b w t : cli_source b w = Some t -> truthy (Some t) = true.
Proof.
  unfold cli_source.
  destruct (cli_available w b && truthy (cli_token w b)) eqn:E; [|discriminate].
  intros Ht. rewrite Ht in E. now apply andb_true_iff in E.
Qed.

Lemma file_source_truthy b w t : file_source b w = Some t -> truthy (Some t) = true.
Proof.
  unfold file_source, read_token_file.
  destruct (files w !! token_file b) as [[c|]|]; try discriminate.
  destruct (truthy (Some (strip c))) eqn:E; [|discriminate].
  now intros [= <-].
Qed.

Lemma no_token_absent b w :
  cli_source b w = None -> file_source b w = None ->
  truthy (env_source b w) = false ->
  truthy (_get_token b w) = false.
Proof. intros Hc Hf He. now rewrite get_token_cases, Hc, Hf. Qed.

Lemma retry_return {St : Type} (body : St -> outcome (bool * string) * St) s r s' :
  body s = (Return r, s') ->
  Retry.retry_with_backoff body s = (Return r, s').
Proof.
  intros Hb. unfold Retry.retry_with_backoff. simpl. now rewrite Hb.
Qed.

Lemma retry_return_fst {St : Type} (body : St -> outcome (bool * string) * St) s r :
  fst (body s) = Return r ->
  fst (Retry.retry_with_backoff body s) = Return r.
Proof.
  destruct (body s) as [o s'] eqn:Hb. simpl. intros ->.
  now rewrite (retry_return _ _ _ _ Hb).
Qed.

Lemma github_no_token api w self :
  truthy (GitHubPlatform.token self) = false ->
  GitHubPlatform.validate_credentials api w self =
  (Return (false, handle_auth_error "github" "No token provided"), self).
Proof.
  intros Ht. apply retry_return. unfold GitHubPlatform.validate_credentials_body.
  destruct (GitHubPlatform.token self); [|reflexivity].
  now rewrite Ht.
Qed.

Lemma netlify_no_token env w self :
  truthy (_get_token Netlify w) = false ->
  fst (NetlifyPlatform.validate_credentials env w self) =
  Return (false, handle_auth_error "netlify" "No token provided").
Proof.
  intros Ht. apply retry_return_fst.
  unfold NetlifyPlatform.validate_credentials_body. cbn.
  destruct (_get_token Netlify w); [|reflexivity].
  now rewrite Ht.
Qed.

Lemma vercel_no_token env w self :
  truthy (_get_token Vercel w) = false ->
  fst (VercelPlatform.validate_credentials env w self) =
  Return (false, handle_auth_error "vercel" "No token provided").
Proof.
  intros Ht. apply retry_return_fst.
  unfold VercelPlatform.validate_credentials_body. cbn.
  destruct (_get_token Vercel w); [|reflexivity].
  now rewrite Ht.
Qed.

Lemma railway_no_token env w self :
  truthy (_get_token Railway w) = false ->
  fst (RailwayPlatform.validate_credentials env w self) =
  Return (false, handle_auth_error "railway" "No token provided").
Proof.
  intros Ht. apply retry_return_fst.
  unfold RailwayPlatform.validate_credentials_body. cbn.
  destruct (_get_token Railway w); [|reflexivity].
  now rewrite Ht.
Qed.

End Resolution.

Section Removal.
Import Credentials.

Lemma without_cli_sources b w :
  cli_source b (without_cli b w) = None /\
  file_source b (without_cli b w) = file_source b w /\
  env_source b (without_cli b w) = env_source b w.
Proof.
  unfold cli_source, file_source, env_source, read_token_file, without_cli; simpl.
  now rewrite bool_decide_eq_true_2.
Qed.

Lemma without_file_sources b w :
  cli_source b (without_file b w) = cli_source b w /\
  file_source b (without_file b w) = None /\
  env_source b (without_file b w) = env_source b w.
Proof.
  unfold cli_source, file_source, env_source, read_token_file, without_file; simpl.
  now rewrite lookup_delete_eq.
Qed.

Lemma without_env_sources b w :
  cli_source b (without_env b w) = cli_source b w /\
  file_source b (without_env b w) = file_source b w /\
  env_source b (without_env b w) = None.
Proof.
  unfold cli_source, file_source, env_source, read_token_file, without_env; simpl.
  now rewrite lookup_delete_eq.
Qed.

End Removal.

(** C2.  For every backend the token is looked for in the command-line
    tool, then in the token file, then in the environment variable, and the
    first source that yields a non-empty value decides alone: with all
    three present the result is the tool's value, without the tool the
    file's, without the file the variable's, without all three nothing.
    When no source yields a value, [validate_credentials] returns
    [(False, handle_auth_error(<backend>, "No token provided").message)]
    and raises nothing. *)
Theorem credential_resolution_order `{utils_errors} (b : backend) (w : world) :
  (forall t, Credentials.cli_source b w = Some t ->
             t <> "" /\ Credentials._get_token b w = Some t) /\
  (forall t, Credentials.cli_source b w = None ->
             Credentials.file_source b w = Some t ->
             t <> "" /\ Credentials._get_token b w = Some t) /\
  (Credentials.cli_source b w = None ->
   Credentials.file_source b w = None ->
   Credentials._get_token b w = Credentials.env_source b w) /\
  (forall c f e,
      Credentials.cli_source b w = Some c ->
      Credentials.file_source b w = Some f ->
      Credentials.env_source b w = Some e ->
      Credentials._get_token b w = Some c /\
      Credentials._get_token b (without_cli b w) = Some f /\
      Credentials._get_token b (without_file b (without_cli b w)) = Some e /\
      Credentials._get_token b
        (without_env b (without_file b (without_cli b w))) = None) /\
  (Credentials.cli_source b w = None ->
   Credentials.file_source b w = None ->
   truthy (Credentials.env_source b w) = false ->
   truthy (Credentials._get_token b w) = false /\ reports_missing_token b w).
Proof.
  assert (Hne : forall t, truthy (Some t) = true -> t <> "")
    by (intros t Ht ->; discriminate).
  split; [|split; [|split; [|split]]].
  - intros t Hc. split; [eauto using cli_source_truthy|].
    now rewrite get_token_cases, Hc.
  - intros t Hc Hf. split; [eauto using file_source_truthy|].
    now rewrite get_token_cases, Hc, Hf.
  - intros Hc Hf. now rewrite get_token_cases, Hc, Hf.
  - intros c f e Hc Hf He.
    destruct (without_cli_sources b w) as (C1 & F1 & E1).
    destruct (without_file_sources b (without_cli b w)) as (C2 & F2 & E2).
    destruct (without_env_sources b (without_file b (without_cli b w)))
      as (C3 & F3 & E3).
    rewrite !get_token_cases.
    rewrite C3, F3, E3, C2, F2, E2, C1, F1, E1, Hc, Hf, He. auto.
  - intros Hc Hf He.
    pose proof (no_token_absent b w Hc Hf He) as Hn.
    split; [exact Hn|].
    destruct b; simpl; intros.
    + rewrite github_no_token; [reflexivity|exact Hn].
    + now apply netlify_no_token.
    + now apply vercel_no_token.
    + now apply railway_no_token.
Qed.

Lemma credential_resolution_order_witness :
  (Credentials._get_token GitHub all_sources = Some "cli-token" /\
   Credentials._get_token GitHub (without_cli GitHub all_sources)
   = Some "file-token" /\
   Credentials._get_token GitHub
     (without_file GitHub (without_cli GitHub all_sources)) = Some "env-token" /\
   Credentials._get_token GitHub
     (without_env GitHub (without_file GitHub (without_cli GitHub all_sources)))
   = None) /\
  (truthy (Credentials._get_token Netlify no_sources) = false /\
   @reports_missing_token sample_errors Netlify no_sources).
Proof.
  split.
  - destruct (@credential_resolution_order sample_errors GitHub all_sources)
      as (_ & _ & _ & H4 & _).
    apply H4; vm_compute; reflexivity.
  - destruct (@credential_resolution_order sample_errors Netlify no_sources)
      as (_ & _ & _ & _ & H5).
    apply H5; vm_compute; reflexivity.
Defined.

(** ** C7: is the token resolved again by [validate_credentials]? *)

(** The three classes that start [validate_credentials] with
    [self.token = self._get_token()] do store the token of the moment. *)
Lemma netlify_auto_create_keeps_token env w self :
  NetlifyPlatform.token (snd (NetlifyPlatform.auto_create_block env w self))
  = NetlifyPlatform.token self.
Proof.
  unfold NetlifyPlatform.auto_create_block.
  destruct (NetlifyPlatform.auto_creation self); [|reflexivity].
  destruct (negb (truthy (NetlifyPlatform.site_id self))); [|reflexivity].
  destruct (getcwd w); [|reflexivity].
  destruct (NetlifyPlatform.auto_create_site env _ _ _) as [[ok m] sid].
  destruct (ok && truthy sid); [reflexivity|].
  now destruct (negb ok).
Qed.

Lemma netlify_token_refreshed `{utils_errors} env w self :
  NetlifyPlatform.token (snd (NetlifyPlatform.validate_credentials_body env w self))
  = Credentials._get_token Netlify w.
Proof.
  unfold NetlifyPlatform.validate_credentials_body. cbn.
  destruct (Credentials._get_token Netlify w) as [tok|]; [|reflexivity].
  destruct (negb (truthy (Some tok))); [reflexivity|].
  destruct (NetlifyPlatform.validate_token env _) as [valid msg].
  destruct (negb valid); [reflexivity|].
  match goal with
  | |- context [NetlifyPlatform.auto_create_block env w ?s] =>
      pose proof (netlify_auto_create_keeps_token env w s) as Hk;
      destruct (NetlifyPlatform.auto_create_block env w s) as [[r|] s3]
  end; exact Hk.
Qed.

Lemma attempt_ext `{utils_errors} {St : Type}
      (body1 body2 : St -> outcome (bool * string) * St) n s :
  (forall x, body1 x = body2 x) ->
  Retry.attempt n body1 s = Retry.attempt n body2 s.
Proof.
  intros Hext. revert s. induction n as [|n IH]; intros s; simpl;
    rewrite Hext; destruct (body2 s) as [[r|e] s']; try reflexivity;
    destruct (Retry.is_transient e); try reflexivity.
  apply IH.
Qed.

(** [GitHubPlatform.validate_credentials] reads nothing of the machine
    but the working directory: the credential sources of the moment have
    no influence on it. *)
Lemma github_validation_ignores_sources `{utils_errors} api w1 w2 self :
  getcwd w1 = getcwd w2 ->
  GitHubPlatform.validate_credentials api w1 self
  = GitHubPlatform.validate_credentials api w2 self.
Proof.
  intros Hcwd. unfold GitHubPlatform.validate_credentials, Retry.retry_with_backoff.
  apply attempt_ext. intros x.
  unfold GitHubPlatform.validate_credentials_body, GitHubPlatform.auto_create_block.
  now rewrite Hcwd.
Qed.

(** C7, on the code.  A [GitHubPlatform] built on a machine without
    credentials keeps reporting the missing token after [GITHUB_TOKEN] has
    been set, although [_get_token] now finds it; [NetlifyPlatform] in the
    same situation picks the new token up.  A [NetlifyPlatform] built with
    an old token stores the new one in [self.token] but still checks the
    old one, which sits in [self.api_integration].  In general the result
    of [GitHubPlatform.validate_credentials] does not depend on the
    credential sources at the time of the call. *)
Theorem stale_token_at_validation :
  (Credentials._get_token GitHub no_sources = None /\
   Credentials._get_token GitHub env_only = Some "fresh-token" /\
   forall (U : utils_errors) api cfg,
     fst (GitHubPlatform.validate_credentials api env_only
            (GitHubPlatform.init cfg no_sources))
     = Return (false, handle_auth_error "github" "No token provided")) /\
  (forall (U : utils_errors),
     fst (NetlifyPlatform.validate_credentials fresh_only env_only
            (NetlifyPlatform.init netlify_site_cfg no_sources))
     = Return (true, "Authenticated as dev@example.org")) /\
  (forall (U : utils_errors),
     let r := NetlifyPlatform.validate_credentials fresh_only env_only
                (NetlifyPlatform.init netlify_site_cfg old_env) in
     fst r = Return (false, "Invalid token") /\
     NetlifyPlatform.token (snd r) = Some "fresh-token" /\
     NetlifyPlatform.api_integration (snd r) = Some "old-token") /\
  (forall (U : utils_errors) api self w1 w2,
     getcwd w1 = getcwd w2 ->
     GitHubPlatform.validate_credentials api w1 self
     = GitHubPlatform.validate_credentials api w2 self).
Proof.
  split; [|split; [|split]].
  - split; [reflexivity|]. split; [vm_compute; reflexivity|].
    intros U api cfg. now rewrite github_no_token.
  - intros U. vm_compute. reflexivity.
  - intros U. vm_compute. auto.
  - intros U api self w1 w2. apply github_validation_ignores_sources.
Qed.

(** ** C9: the token file that is written and the one that is read *)

Lemma same_token_file_except_github (b : backend) :
  b <> GitHub ->
  Credentials.token_file b = Auth.auth_token_file (Auth.platform_name b).
Proof. destruct b; [congruence|reflexivity..]. Qed.

(** A token stored by [deployx auth setup] is found by the file source of
    Netlify, Vercel and Railway, and is no longer found once
    [deployx auth clear] has run. *)
Lemma stored_token_found (b : backend) (pasted : string) (w : world) :
  b <> GitHub ->
  strip pasted <> "" ->
  let '(ok, fs) :=
    Auth._setup_platform_auth (Auth.platform_name b) pasted true (files w) in
  ok = true /\
  Credentials.file_source b (with_files fs w) = Some (strip pasted) /\
  Credentials.file_source b
    (with_files (snd (Auth.auth_clear_command (Auth.platform_name b) fs)) w)
  = None.
Proof.
  intros Hb Hne. unfold Auth._setup_platform_auth.
  assert (Ht : truthy (Some (strip pasted)) = true)
    by (destruct (strip pasted); [congruence|reflexivity]).
  rewrite Ht. simpl negb. cbv iota.
  split; [reflexivity|].
  unfold Credentials.file_source, Credentials.read_token_file. simpl.
  rewrite (same_token_file_except_github b Hb).
  split.
  - rewrite lookup_insert_eq, strip_idem.
    destruct (strip pasted); [congruence|reflexivity].
  - unfold Auth.auth_clear_command.
    assert (lower (Auth.platform_name b) = Auth.platform_name b) as ->
        by (destruct b; reflexivity).
    assert (Auth.known_platform (Auth.platform_name b) = true) as ->
        by (destruct b; reflexivity).
    simpl negb. cbv iota.
    rewrite lookup_insert_eq. simpl.
    now rewrite lookup_delete_eq.
Qed.

(** C9, on the code.  [deployx auth setup github] and
    [deployx auth clear github] work on [.deployx_github_token], whereas
    [GitHubPlatform._get_token] reads [.deployx_token]: after a successful
    setup on a machine without other credentials the platform finds no
    token.  For the other three backends the two names agree. *)
Theorem github_token_file_differs :
  Auth.auth_token_file (Auth.platform_name GitHub) = ".deployx_github_token" /\
  Credentials.token_file GitHub = ".deployx_token" /\
  (let '(ok, fs) := Auth._setup_platform_auth "github" "ghp_0123456789" true ∅ in
   ok = true /\
   fs !! ".deployx_github_token" = Some (Text "ghp_0123456789") /\
   Credentials._get_token GitHub (with_files fs no_sources) = None) /\
  (forall b, b <> GitHub ->
     Credentials.token_file b = Auth.auth_token_file (Auth.platform_name b)).
Proof.
  split; [reflexivity|]. split; [reflexivity|]. split.
  - vm_compute. auto.
  - exact same_token_file_except_github.
Qed.

(** ** C1: the status vocabulary *)

Lemma contains_self s : contains s s = true.
Proof.
  assert (P : forall x, prefixb x x = true)
    by (induction x as [|c x IH]; simpl; [reflexivity|];
        now rewrite Ascii.eqb_refl, IH).
  destruct s as [|c s]; [reflexivity|].
  change (contains (String c s) (String c s))
    with (prefixb (String c s) (String c s) || contains (String c s) s).
  now rewrite P.
Qed.

Lemma contains_app p s : contains s (p +:+ s) = true.
Proof.
  induction p as [|c p IH].
  - apply contains_self.
  - change (String c p +:+ s) with (String c (p +:+ s)).
    change (contains s (String c (p +:+ s)))
      with (prefixb s (String c (p +:+ s)) || contains s (p +:+ s)).
    rewrite IH. apply orb_true_r.
Qed.

Lemma github_pages_status_in `{utils_errors} api self d :
  try_except (GitHubPlatform.pages_status api self)
    (fun e => Return (mkStatus "error"
                ("Failed to get deployment status: " +:+ str_exn e) None))
  = d ->
  exists ds, d = Return ds /\ status ds ∈ code_statuses.
Proof.
  intros <-. unfold GitHubPlatform.pages_status.
  destruct (GitHubPlatform.repo_obj self) as [[tok name]|]; simpl.
  - destruct (GitHubPlatform.get_pages api tok name) as [[raw u]|e]; simpl.
    + eexists; split; [reflexivity|]. simpl.
      destruct (bool_decide _); unfold code_statuses; set_solver.
    + destruct e as [m|m|m|code m|m|m|m|m]; simpl;
        try (eexists; split; [reflexivity|];
             unfold code_statuses; simpl; set_solver).
      destruct (code =? 404)%Z; simpl;
        (eexists; split; [reflexivity|]; unfold code_statuses; simpl; set_solver).
  - eexists; split; [reflexivity|]. unfold code_statuses; simpl; set_solver.
Qed.

Lemma github_status_in `{utils_errors} api w self :
  exists ds, fst (GitHubPlatform.get_status api w self) = Return ds /\
             status ds ∈ code_statuses.
Proof.
  unfold GitHubPlatform.get_status, GitHubPlatform.get_deployment_status.
  destruct (GitHubPlatform.repo_obj self) eqn:Hr.
  - simpl. eapply github_pages_status_in. reflexivity.
  - destruct (GitHubPlatform.validate_credentials api w self) as [[[valid m]|e] self'].
    + destruct valid; simpl.
      * eapply github_pages_status_in. reflexivity.
      * eexists; split; [reflexivity|]. unfold code_statuses; simpl; set_solver.
    + simpl. eexists; split; [reflexivity|]. unfold code_statuses; simpl; set_solver.
Qed.

Lemma dict_get_status_map raw :
  raw ∈ List.map fst NetlifyPlatform.status_map ->
  NetlifyPlatform.dict_get NetlifyPlatform.status_map raw raw ∈ code_statuses.
Proof.
  unfold NetlifyPlatform.status_map, code_statuses. simpl. intros Hin.
  repeat (apply elem_of_cons in Hin as [->|Hin];
          [vm_compute; set_solver|]).
  now apply elem_of_nil in Hin.
Qed.

(** C1 as stated fails.  With the latest Netlify deploy in the state
    [weird-state], [get_status] returns that very text as [status], which
    is neither [unknown] nor any other of the five values; with the deploy
    in the state [ready] it returns [deployed], which is not one of the
    five either. *)
Lemma netlify_status_outside_vocabulary :
  status (NetlifyPlatform.get_status (latest_in_state "weird-state") netlify_site)
  = "weird-state" /\
  ~ status (NetlifyPlatform.get_status (latest_in_state "weird-state") netlify_site)
    ∈ canonical_statuses /\
  status (NetlifyPlatform.get_status (latest_in_state "ready") netlify_site)
  = "deployed" /\
  ~ status (NetlifyPlatform.get_status (latest_in_state "ready") netlify_site)
    ∈ canonical_statuses.
Proof.
  assert (D : forall s : string, s ∈ canonical_statuses ->
                bool_decide (s ∈ canonical_statuses) = true)
    by (intros s Hs; now apply bool_decide_eq_true).
  repeat split; try reflexivity; intros Hin; apply D in Hin; vm_compute in Hin;
    discriminate.
Qed.

(** C1, amended.  The status written by the four platform classes is one
    of [deployed], [building], [error], [not_deployed]: always for GitHub
    (where [built] gives [deployed] and every other raw value [building]),
    Vercel and Railway, and for Netlify whenever the raw state reported by
    the API is a key of the table ([ready], [building], [error],
    [no_deploys]).  The raw value stands verbatim at the end of [message],
    for GitHub and Netlify alike, whether the table knows it or not. *)
Theorem status_vocabulary `{utils_errors} :
  (forall api w self,
      exists ds, fst (GitHubPlatform.get_status api w self) = Return ds /\
                 status ds ∈ code_statuses) /\
  (forall api w self tok name raw u,
      GitHubPlatform.repo_obj self = Some (tok, name) ->
      GitHubPlatform.get_pages api tok name = Return (raw, u) ->
      exists ds, fst (GitHubPlatform.get_status api w self) = Return ds /\
                 status ds = (if bool_decide (raw = Some "built")
                              then "deployed" else "building") /\
                 status_message ds = "GitHub Pages status: " +:+ fmt raw /\
                 contains (fmt raw) (status_message ds) = true) /\
  (forall self, status (VercelPlatform.get_status self) ∈ code_statuses) /\
  (forall env self, status (RailwayPlatform.get_status env self) ∈ code_statuses) /\
  (forall env self sid tok raw u,
      NetlifyPlatform.site_id self = Some sid -> sid <> "" ->
      NetlifyPlatform.api_integration self = Some tok ->
      NetlifyAPIIntegration.get_deployment_status (NetlifyPlatform.net env) tok sid
      = (true, raw, u) ->
      let ds := NetlifyPlatform.get_status env self in
      status_message ds = "Netlify deployment: " +:+ raw /\
      contains raw (status_message ds) = true /\
      (raw ∈ List.map fst NetlifyPlatform.status_map ->
       status ds ∈ code_statuses)) /\
  (forall env self,
      (forall sid tok raw u,
          NetlifyPlatform.site_id self = Some sid ->
          NetlifyPlatform.api_integration self = Some tok ->
          NetlifyAPIIntegration.get_deployment_status (NetlifyPlatform.net env) tok sid
          = (true, raw, u) ->
          raw ∈ List.map fst NetlifyPlatform.status_map) ->
      status (NetlifyPlatform.get_status env self) ∈ code_statuses).
Proof.
  split; [|split; [|split; [|split; [|split]]]].
  - intros. apply github_status_in.
  - intros api w self tok name raw u Hr Hp.
    unfold GitHubPlatform.get_status, GitHubPlatform.get_deployment_status.
    rewrite Hr. unfold GitHubPlatform.pages_status. rewrite Hr, Hp. simpl.
    eexists; split; [reflexivity|]. simpl.
    repeat split. apply contains_app.
  - intros self. unfold VercelPlatform.get_status, VercelPlatform.get_deployment_status.
    destruct (VercelPlatform.project_name self); [|unfold code_statuses; simpl; set_solver].
    destruct (truthy _); unfold code_statuses; simpl; set_solver.
  - intros env self.
    unfold RailwayPlatform.get_status, RailwayPlatform.get_deployment_status.
    repeat (match goal with
            | |- context [match ?x with _ => _ end] => destruct x
            end; simpl; try (unfold code_statuses; set_solver)).
  - intros env self sid tok raw u Hs Hne Ha Hg ds. subst ds.
    unfold NetlifyPlatform.get_status, NetlifyPlatform.get_deployment_status.
    rewrite Hs, Ha.
    assert (truthy (Some sid) = true) as ->
        by (destruct sid; [congruence|reflexivity]).
    rewrite Hg. simpl.
    split; [reflexivity|]. split; [apply contains_app|].
    apply dict_get_status_map.
  - intros env self Hk.
    unfold NetlifyPlatform.get_status, NetlifyPlatform.get_deployment_status.
    destruct (NetlifyPlatform.site_id self) as [sid|] eqn:Hs;
      [|unfold code_statuses; simpl; set_solver].
    destruct (NetlifyPlatform.api_integration self) as [tok|] eqn:Ha;
      [|unfold code_statuses; simpl; set_solver].
    destruct (truthy (Some sid)); [|unfold code_statuses; simpl; set_solver].
    destruct (NetlifyAPIIntegration.get_deployment_status _ tok sid)
      as [[ok raw] u] eqn:Hg.
    destruct ok; [|unfold code_statuses; simpl; set_solver].
    simpl. apply dict_get_status_map. eapply Hk; eauto.
Qed.

Lemma status_vocabulary_witness :
  status (NetlifyPlatform.get_status (latest_in_state "ready") netlify_site)
  ∈ code_statuses.
Proof.
  destruct (@status_vocabulary sample_errors) as (_ & _ & _ & _ & H5 & _).
  refine (proj2 (proj2 (H5 (latest_in_state "ready") netlify_site
                           "site-1" "fresh-token" "ready"
                           (Some "https://site-1.netlify.app")
                           eq_refl _ eq_refl eq_refl)) _).
  - discriminate.
  - unfold NetlifyPlatform.status_map. simpl. constructor.
Defined.

(** ** C3: nothing to commit *)

Lemma deploy_steps_success_url `{utils_errors} dw self output_dir wt r wt' tr :
  GitHubDeployment.deploy_steps dw self output_dir wt = (Return r, wt', tr) ->
  success r = true ->
  url r = Some (GitHubDeployment._generate_pages_url self).
Proof.
  unfold GitHubDeployment.deploy_steps. intros Hd Hs.
  repeat case_match; simplify_eq; try reflexivity; discriminate.
Qed.

Lemma successful_deploy_url `{utils_errors} dw self output_dir wt :
  let r := (GitHubDeployment.deploy_to_branch dw self output_dir wt).1.1 in
  success r = true ->
  url r = Some (GitHubDeployment._generate_pages_url self).
Proof.
  unfold GitHubDeployment.deploy_to_branch.
  destruct (GitHubDeployment.output_node dw wt output_dir); [|discriminate].
  destruct (GitHubDeployment.deploy_steps dw self output_dir wt)
    as [[[r|e] wt'] tr] eqn:Hd; simpl; [|discriminate].
  now apply (deploy_steps_success_url _ _ _ _ _ _ _ Hd).
Qed.

Lemma execute_branch `{utils_errors} dw self output_dir wt :
  GitHubPlatform.method self = "branch" ->
  GitHubPlatform.execute_deployment dw self output_dir wt
  = GitHubDeployment.deploy_to_branch dw (GitHubPlatform.deployment self)
      output_dir wt.
Proof. unfold GitHubPlatform.execute_deployment. now intros ->. Qed.

Lemma nothing_to_commit_on_branch `{utils_errors} dw self output_dir wt msg :
  reaches_commit dw self output_dir wt ->
  GitHubDeployment.commit dw "Deploy to GitHub Pages"
  = Raise (GitCommandError msg) ->
  contains "nothing to commit" msg = true ->
  exists wt' effects,
    GitHubDeployment.deploy_to_branch dw self output_dir wt
    = ({| success := true;
          url := Some (GitHubDeployment._generate_pages_url self);
          message := "No changes to deploy";
          deployment_id := None |}, wt', effects) /\
    List.existsb makes_history effects = false.
Proof.
  intros (Hex & Hopen & (tr & Hco) & (items & Hitems) & Hadd) Hcommit Hmsg.
  unfold GitHubDeployment.deploy_to_branch.
  destruct (GitHubDeployment.output_node dw wt output_dir) eqn:Ho; [|congruence].
  unfold GitHubDeployment.deploy_steps.
  assert (Hopened :
    exists tr0, (if GitHubDeployment.repo_opens dw then Return []
                 else bind (GitHubDeployment.repo_init dw)
                           (fun _ => Return [GitHubDeployment.EInit]))
                = Return tr0 /\ List.existsb makes_history tr0 = false).
  { destruct (GitHubDeployment.repo_opens dw) eqn:Hr; [eauto|].
    destruct Hopen as [?| ->]; [discriminate|]. simpl. eauto. }
  destruct Hopened as (tr0 & Hop & Htr0).
  cbv zeta. rewrite Hop, Hco, Hitems, Hadd, Hcommit, Hmsg.
  do 2 eexists. split; [reflexivity|].
  rewrite !existsb_app, Htr0. simpl. rewrite !orb_false_r.
  revert Hco. unfold GitHubDeployment.checkout_branch, bind.
  intros Hco. repeat case_match; simplify_eq; reflexivity.
Qed.

(** C3.  With the branch method, when the run reaches the commit step
    and [git commit] fails with a text that contains [nothing to commit],
    [execute_deployment] returns success with the message
    [No changes to deploy] and the Pages address of the repository, which
    is the address that every successful [execute_deployment] of the same
    object returns; no commit is made and nothing is pushed. *)
Theorem nothing_to_commit_is_success `{utils_errors}
        dw (self : GitHubPlatform.t) output_dir wt msg :
  GitHubPlatform.method self = "branch" ->
  reaches_commit dw (GitHubPlatform.deployment self) output_dir wt ->
  GitHubDeployment.commit dw "Deploy to GitHub Pages"
  = Raise (GitCommandError msg) ->
  contains "nothing to commit" msg = true ->
  let '(r, _, effects) := GitHubPlatform.execute_deployment dw self output_dir wt in
  r = {| success := true;
         url := Some (GitHubDeployment._generate_pages_url
                        (GitHubPlatform.deployment self));
         message := "No changes to deploy";
         deployment_id := None |} /\
  List.existsb makes_history effects = false /\
  (forall dw0 wt0,
      let r0 := (GitHubPlatform.execute_deployment dw0 self output_dir wt0).1.1 in
      success r0 = true -> url r0 = url r).
Proof.
  intros Hm Hreach Hcommit Hmsg.
  destruct (nothing_to_commit_on_branch dw _ output_dir wt msg Hreach Hcommit Hmsg)
    as (wt' & effects & Hd & He).
  rewrite (execute_branch dw self output_dir wt Hm), Hd.
  split; [reflexivity|]. split; [exact He|].
  intros dw0 wt0. rewrite (execute_branch dw0 self output_dir wt0 Hm).
  exact (successful_deploy_url dw0 _ output_dir wt0).
Qed.

Lemma nothing_to_commit_is_success_witness :
  let '(r, _, effects) :=
    @GitHubPlatform.execute_deployment sample_errors
      (calm_repo nothing_to_commit (fun _ => false))
      project_site "build" built_project in
  r = {| success := true;
         url := Some "https://user.github.io/repo";
         message := "No changes to deploy";
         deployment_id := None |} /\
  List.existsb makes_history effects = false.
Proof.
  pose proof (@nothing_to_commit_is_success sample_errors
                (calm_repo nothing_to_commit (fun _ => false))
                project_site "build" built_project clean_tree_text) as Hw.
  cbv zeta in Hw.
  destruct (@GitHubPlatform.execute_deployment sample_errors
              (calm_repo nothing_to_commit (fun _ => false))
              project_site "build" built_project) as [[r wt'] effects].
  destruct Hw as (Hr & He & _).
  - reflexivity.
  - repeat split; try discriminate; vm_compute; eauto.
  - reflexivity.
  - vm_compute. reflexivity.
  - split; [exact Hr | exact He].
Defined.

(** Two deploys of the same build output in a row: the second one finds
    the working tree as the first one left it, leaves it as it is, and,
    [git commit] having nothing to commit, reports success with the
    address of the first. *)
Example second_deploy_of_unchanged_output :
  let '(r1, wt1, _) :=
    @GitHubPlatform.execute_deployment sample_errors
      (calm_repo (Return tt) (fun _ => false))
      project_site "build" built_project in
  let '(r2, wt2, effects2) :=
    @GitHubPlatform.execute_deployment sample_errors
      (calm_repo nothing_to_commit (fun _ => false))
      project_site "build" wt1 in
  success r1 = true /\ url r1 = Some "https://user.github.io/repo" /\
  success r2 = true /\ url r2 = url r1 /\
  message r2 = "No changes to deploy" /\
  wt2 = wt1 /\ List.existsb makes_history effects2 = false.
Proof. vm_compute. repeat split. Qed.

(** The docs-folder method has no such case: there the same answer of
    [git commit] ends in a failure. *)
Example docs_folder_nothing_to_commit :
  success (@GitHubDeployment.deploy_to_docs_folder sample_errors
             (calm_repo nothing_to_commit (fun _ => false))
             pages_deployment "build" built_project).1.1 = false.
Proof. reflexivity. Qed.

(** ** C8: clearing the branch content *)

Section Clearing.
Import GitHubDeployment.
Variable dw : deploy_world.

Lemma is_protected_iff output_dir name :
  is_protected output_dir name = true <->
  name ∈ [".git"; output_dir; ".gitignore"; "CNAME"].
Proof. unfold is_protected, protected_items. apply bool_decide_eq_true. Qed.

Lemma clear_keeps_protected output_dir (wt : tree) name n :
  (name, n) ∈ wt -> is_protected output_dir name = true ->
  (name, n) ∈ clear_branch_content dw output_dir wt.
Proof.
  intros Hin Hp. unfold clear_branch_content.
  apply list_elem_of_omap. exists (name, n). split; [exact Hin|].
  unfold clear_entry. now rewrite Hp.
Qed.

Lemma clear_origin output_dir (wt : tree) name n :
  (name, n) ∈ clear_branch_content dw output_dir wt ->
  (is_protected output_dir name = true /\ (name, n) ∈ wt) \/
  (is_protected output_dir name = false /\
   exists n0, (name, n0) ∈ wt /\ remove_result dw name n0 = Some n).
Proof.
  unfold clear_branch_content. intros Hin.
  apply list_elem_of_omap in Hin as ([name0 n0] & Hin & Hc).
  unfold clear_entry in Hc.
  destruct (is_protected output_dir name0) eqn:Hp.
  - injection Hc as <- <-. now left.
  - destruct (remove_result dw name0 n0) eqn:Hr; [|discriminate].
    injection Hc as <- <-. right. eauto.
Qed.

Lemma clear_all_removed output_dir (wt : tree) :
  (forall name n, (name, n) ∈ wt -> is_protected output_dir name = false ->
                  remove_result dw name n = None) ->
  clear_branch_content dw output_dir wt
  = List.filter (fun e => is_protected output_dir e.1) wt.
Proof.
  unfold clear_branch_content.
  induction wt as [|[name n] wt IH]; intros Hall; [reflexivity|].
  simpl. unfold clear_entry at 1.
  destruct (is_protected output_dir name) eqn:Hp; simpl.
  - f_equal. apply IH. intros name' n' Hin. apply Hall. now right.
  - rewrite (Hall name n); [|now left|exact Hp].
    apply IH. intros name' n' Hin. apply Hall. now right.
Qed.

Lemma clear_keeps_assoc output_dir (wt : tree) name :
  is_protected output_dir name = true ->
  assoc name (clear_branch_content dw output_dir wt) = assoc name wt.
Proof.
  intros Hp. unfold clear_branch_content.
  induction wt as [|[k v] wt IH]; [reflexivity|].
  cbn [omap list_omap]. unfold clear_entry at 1.
  destruct (eqb_str k name) eqn:E.
  - apply eqb_str_true in E as ->. rewrite Hp. simpl.
    now rewrite eqb_str_refl.
  - simpl. rewrite E. destruct (is_protected output_dir k).
    + simpl. now rewrite E.
    + destruct (remove_result dw k v); [|exact IH]. simpl. now rewrite E.
Qed.

Lemma top_level_entry_allow_list output_dir name :
  names_top_level_entry output_dir ->
  allow_listed output_dir name = is_protected output_dir name.
Proof.
  intros [Hin Hparts].
  unfold allow_listed, build_output_entry, is_protected, protected_items.
  rewrite Hin, Hparts. cbn [head].
  apply eq_true_iff_eq.
  rewrite orb_true_iff, !bool_decide_eq_true, !elem_of_cons, !elem_of_nil.
  split.
  - intros [[->|[->|[->|[]]]] | [= ->]]; auto.
  - intros [->|[->|[->|[->|[]]]]]; auto.
Qed.

Lemma top_level_output_node output_dir (wt : tree) :
  names_top_level_entry output_dir ->
  output_node dw wt output_dir = assoc output_dir wt.
Proof.
  intros [Hin Hparts]. unfold output_node. rewrite Hin, Hparts.
  cbn [lookup_path]. now destruct (assoc output_dir wt).
Qed.

End Clearing.

(** C8 as stated fails: when the removal of a top-level entry does not
    succeed, which [rmtree(..., ignore_errors=True)] and the handler around
    [unlink] let pass, the entry is still there after the clearing step
    although it is not on the allow-list. *)
Lemma unremovable_entry_stays :
  ~ clears_all_but_allow_list
      (calm_repo nothing_to_commit stuck_node_modules) "build" built_project.
Proof.
  intros Hc.
  destruct (Hc "node_modules"
              (GitHubDeployment.Dir [("left-pad", GitHubDeployment.Dir [])]))
    as [Hkept _].
  assert (Hin : ("node_modules",
                 GitHubDeployment.Dir [("left-pad", GitHubDeployment.Dir [])])
                ∈ GitHubDeployment.clear_branch_content
                    (calm_repo nothing_to_commit stuck_node_modules)
                    "build" built_project).
  { vm_compute. repeat constructor. }
  destruct (Hkept Hin) as [_ Hp]. vm_compute in Hp. discriminate.
Qed.

(** C8, amended.  When [output_dir] names a top-level entry of the
    project directory, the build-output directory is that entry, and the
    allow-list of the code is the one of the specification.  The clearing
    step then keeps, unchanged and in place, every top-level entry on the
    allow-list ([.git], the build-output directory, [.gitignore],
    [CNAME]); every other entry is removed when its removal succeeds, and
    otherwise what the failed removal left of it stays; no entry is
    added; the build-output directory is afterwards what it was before.
    When all removals succeed, what is left is exactly the allow-listed
    entries. *)
Theorem clearing_keeps_allow_list
        (dw : GitHubDeployment.deploy_world) (output_dir : string)
        (wt : GitHubDeployment.tree) :
  names_top_level_entry output_dir ->
  let cleared := GitHubDeployment.clear_branch_content dw output_dir wt in
  (forall name, allow_listed output_dir name = true <->
                name ∈ [".git"; output_dir; ".gitignore"; "CNAME"]) /\
  (GitHubDeployment.output_node dw wt output_dir
   = GitHubDeployment.assoc output_dir wt /\
   GitHubDeployment.output_node dw cleared output_dir
   = GitHubDeployment.output_node dw wt output_dir) /\
  (forall name n,
      (name, n) ∈ wt ->
      allow_listed output_dir name = true ->
      (name, n) ∈ cleared) /\
  (forall name n,
      (name, n) ∈ cleared ->
      (allow_listed output_dir name = true /\ (name, n) ∈ wt) \/
      (allow_listed output_dir name = false /\
       exists n0, (name, n0) ∈ wt /\
                  GitHubDeployment.remove_result dw name n0 = Some n)) /\
  ((forall name n,
       (name, n) ∈ wt ->
       allow_listed output_dir name = false ->
       GitHubDeployment.remove_result dw name n = None) ->
   cleared = List.filter (fun e => allow_listed output_dir e.1) wt /\
   clears_all_but_allow_list dw output_dir wt).
Proof.
  intros Htop cleared. subst cleared.
  pose proof (fun name => top_level_entry_allow_list output_dir name Htop) as Hal.
  assert (Hself : GitHubDeployment.is_protected output_dir output_dir = true).
  { apply is_protected_iff. right. now left. }
  assert (Hfilter :
            List.filter (fun e => allow_listed output_dir e.1) wt
            = List.filter (fun e => GitHubDeployment.is_protected output_dir e.1) wt).
  { apply List.filter_ext. intros e. apply Hal. }
  split; [|split; [|split; [|split]]].
  - intros name. rewrite Hal. apply is_protected_iff.
  - split; [now apply top_level_output_node|].
    rewrite !(top_level_output_node _ output_dir _ Htop).
    now apply clear_keeps_assoc.
  - intros name n Hin Ha. rewrite Hal in Ha. now apply clear_keeps_protected.
  - intros name n Hin. rewrite Hal. now apply clear_origin.
  - intros Hall.
    assert (Heq : GitHubDeployment.clear_branch_content dw output_dir wt
                  = List.filter (fun e => allow_listed output_dir e.1) wt).
    { rewrite Hfilter. apply clear_all_removed.
      intros name n Hin Hp. apply Hall; [exact Hin|]. now rewrite Hal. }
    split; [exact Heq|].
    intros name n. rewrite Heq, list_elem_of_In, List.filter_In, <- list_elem_of_In.
    reflexivity.
Qed.

Lemma clearing_keeps_allow_list_witness :
  names_top_level_entry "build" /\
  GitHubDeployment.clear_branch_content
    (calm_repo nothing_to_commit (fun _ => false)) "build" built_project
  = [(".git", GitHubDeployment.Dir []);
     (".gitignore", GitHubDeployment.File "node_modules");
     ("build", GitHubDeployment.Dir
                 [("index.html", GitHubDeployment.File "<html></html>")])].
Proof.
  assert (Htop : names_top_level_entry "build") by (split; reflexivity).
  split; [exact Htop|].
  destruct (clearing_keeps_allow_list
              (calm_repo nothing_to_commit (fun _ => false))
              "build" built_project Htop) as (_ & _ & _ & _ & H5).
  destruct H5 as [Heq _]; [|rewrite Heq; reflexivity].
  intros name n _ _. reflexivity.
Defined.

(** A remark on [output_dir]: the allow-list of the code holds its text,
    not the top-level entry through which the build output is reached.
    With [output_dir = "dist/app"], which names no top-level entry, the
    entry [dist] is cleared away together with the build output, against
    C8 as the specification words it, and the deployment fails at the
    copy step. *)
Example nested_output_is_cleared :
  ~ names_top_level_entry "dist/app" /\
  ~ clears_all_but_allow_list (calm_repo (Return tt) (fun _ => false))
      "dist/app" nested_project /\
  GitHubDeployment.output_node (calm_repo (Return tt) (fun _ => false))
    nested_project "dist/app" <> None /\
  GitHubDeployment.clear_branch_content (calm_repo (Return tt) (fun _ => false))
    "dist/app" nested_project = [(".git", GitHubDeployment.Dir [])] /\
  success (@GitHubDeployment.deploy_to_branch sample_errors
             (calm_repo (Return tt) (fun _ => false))
             pages_deployment "dist/app" nested_project).1.1 = false.
Proof.
  split; [intros [_ Hparts]; vm_compute in Hparts; discriminate Hparts|].
  split.
  { intros Hc.
    destruct (Hc "dist"
                (GitHubDeployment.Dir
                   [("app", GitHubDeployment.Dir
                              [("index.html",
                                GitHubDeployment.File "<html></html>")])]))
      as [_ Hback].
    assert (Hin : ("dist",
                   GitHubDeployment.Dir
                     [("app", GitHubDeployment.Dir
                                [("index.html",
                                  GitHubDeployment.File "<html></html>")])])
                  ∈ GitHubDeployment.clear_branch_content
                      (calm_repo (Return tt) (fun _ => false))
                      "dist/app" nested_project).
    { apply Hback. split; [|reflexivity].
      unfold nested_project. right. left. }
    vm_compute in Hin. apply list_elem_of_singleton in Hin. discriminate Hin. }
  repeat split; vm_compute; discriminate || reflexivity.
Qed.

(** ** C5: the temporary bundle *)

Section Bundle.
Import NetlifyAPIIntegration.

(** Once the bundle has been written, it is removed whatever the upload
    does, provided that [os.unlink] itself does not raise. *)
Lemma bundle_removed_once_built net token site_id build_path fs disk zip_path :
  named_temporary_file fs = Return zip_path ->
  zip_path ∉ disk ->
  write_entries (build_tree fs) = Return tt ->
  unlink_raises fs = false ->
  zip_path ∉ (deploy_site net token site_id build_path fs disk).2.
Proof.
  intros Ht Hfresh Hw Hu. unfold deploy_site, _create_deployment_zip.
  destruct (build_exists fs); simpl; [|exact Hfresh].
  rewrite Ht, Hw, Hu. simpl.
  intros Hin. apply elem_of_difference in Hin as [_ Hn].
  apply Hn. now apply elem_of_singleton.
Qed.

(** When writing the bundle raises, the file that
    [NamedTemporaryFile(delete=False)] created stays on disk. *)
Lemma bundle_left_when_writing_fails net token site_id build_path fs disk zip_path e :
  build_exists fs = true ->
  named_temporary_file fs = Return zip_path ->
  write_entries (build_tree fs) = Raise e ->
  deploy_site net token site_id build_path fs disk
  = ((false, "Deployment error: " +:+ str_exn e, None), {[zip_path]} ∪ disk).
Proof.
  intros Hb Ht Hw. unfold deploy_site, _create_deployment_zip.
  now rewrite Hb, Ht, Hw.
Qed.

End Bundle.

(** C5, on the code.  [_create_deployment_zip] is called before the
    [try]/[finally] that unlinks the bundle.  With a build directory that
    holds a file which cannot be read, [zip_file.write] raises after the
    temporary file has been created: [execute_deployment] returns a
    failure and the file is still on disk.  (After a bundle that could be
    written the file is gone, see [bundle_removed_once_built].) *)
Theorem bundle_survives_failed_build :
  let '(r, disk) :=
    @NetlifyPlatform.execute_deployment
      (netlify_with unreadable_build quiet_http site_created)
      no_sources netlify_site "." "build" ∅ in
  r = {| success := false; url := None;
         message := "Deployment error: Permission denied: private.key";
         deployment_id := None |} /\
  "/tmp/tmpa1b2c3.zip" ∈ disk.
Proof. vm_compute. split; [reflexivity|]. set_solver. Qed.

(** ** C6: the probing loop *)

Section Probing.
Import GitHubAutoCreation.

Lemma probe_more_fuel fuel fuel' taken username base_name counter name :
  probe fuel taken username base_name counter = Some name ->
  fuel <= fuel' ->
  probe fuel' taken username base_name counter = Some name.
Proof.
  revert fuel' counter. induction fuel as [|fuel IH]; intros fuel' counter; simpl.
  - discriminate.
  - intros Hp Hle. destruct fuel' as [|fuel']; [lia|]. simpl.
    destruct (taken counter _); [|exact Hp].
    apply IH; [exact Hp|lia].
Qed.

Lemma probe_always_taken fuel username base_name counter :
  probe fuel always_taken username base_name counter = None.
Proof.
  revert counter. induction fuel as [|fuel IH]; intros counter; simpl;
    [reflexivity|apply IH].
Qed.

Lemma probe_crowded_none n fuel username base_name counter :
  counter + fuel <= S n ->
  probe fuel (crowded n) username base_name counter = None.
Proof.
  revert counter. induction fuel as [|fuel IH]; intros counter Hle; simpl;
    [reflexivity|].
  unfold crowded at 1.
  destruct (Nat.leb_spec counter n); [|lia].
  apply IH. lia.
Qed.

Lemma probe_crowded_some n fuel username base_name counter :
  counter <= S n -> S n < counter + fuel ->
  probe fuel (crowded n) username base_name counter
  = Some (base_name +:+ "-" +:+ str_nat (S n)).
Proof.
  revert counter. induction fuel as [|fuel IH]; intros counter Hle Hlt; simpl;
    [lia|].
  unfold crowded at 1.
  destruct (Nat.leb_spec counter n).
  - apply IH; lia.
  - now replace counter with (S n) by lia.
Qed.

End Probing.

(** C6, on the code.  The [while True] loop of
    [_generate_suggested_name] has no bound: against a remote side that
    answers every lookup it never returns, whatever the number of lookups
    allowed; and for every [n], on an account where the base name and the
    [n] first suffixed names are taken, [n] lookups in the loop are not
    enough while [n + 1] are.  So no fixed number of attempts suffices for
    all sequences of answers. *)
Theorem name_probing_has_no_bound :
  (forall fuel project_name username,
      GitHubAutoCreation._generate_suggested_name
        fuel GitHubAutoCreation.always_taken project_name username = None) /\
  (forall n project_name username,
      GitHubAutoCreation._generate_suggested_name
        n (GitHubAutoCreation.crowded n) project_name username = None /\
      GitHubAutoCreation._generate_suggested_name
        (S n) (GitHubAutoCreation.crowded n) project_name username
      = Some (GitHubAutoCreation.base_name_of project_name
              +:+ "-" +:+ str_nat (S n))) /\
  ~ (exists bound, forall taken project_name username,
        GitHubAutoCreation._generate_suggested_name
          bound taken project_name username <> None).
Proof.
  split; [|split].
  - intros fuel p u. unfold GitHubAutoCreation._generate_suggested_name.
    simpl. apply probe_always_taken.
  - intros n p u. unfold GitHubAutoCreation._generate_suggested_name.
    assert (Hc : forall s, GitHubAutoCreation.crowded n 0 s = true)
      by reflexivity.
    cbv zeta. rewrite !Hc. split.
    + apply probe_crowded_none. lia.
    + apply probe_crowded_some; lia.
  - intros [bound Hb].
    apply (Hb GitHubAutoCreation.always_taken "my_site" "user").
    unfold GitHubAutoCreation._generate_suggested_name. simpl.
    apply probe_always_taken.
Qed.

(** The name that the loop suggests on an account that already has
    [my-site], [my-site-1] and [my-site-2]. *)
Example suggested_name_after_two_collisions :
  GitHubAutoCreation._generate_suggested_name
    3 (GitHubAutoCreation.crowded 2) "My_Site" "user" = Some "my-site-3".
Proof. reflexivity. Qed.

(** ** C4: exceptions at the contract boundary *)

(** The auto-creation block of the three token-refreshing classes ends in
    [self.logger.info(...)], and no class in their hierarchy defines
    [logger]: after a successful creation the body of
    [validate_credentials] raises. *)
Lemma netlify_body_raises_after_creation `{utils_errors} :
  fst (NetlifyPlatform.validate_credentials_body
         (netlify_with quiet_fs quiet_http site_created) env_only netlify_no_site)
  = Raise (AttributeError "'NetlifyPlatform' object has no attribute 'logger'").
Proof. reflexivity. Qed.

(** C4, on the code.  [NetlifyPlatform.get_url] uses the decoded reply
    outside any [try]: when the site address answers 200 with a JSON
    array, [site_data.get('url')] raises [AttributeError] and the
    exception leaves [get_url].  [NetlifyPlatform.validate_credentials]
    raises [AttributeError] from [self.logger] after a successful site
    creation; the decorated call hands back whatever the retry wrapper
    makes of a failure it does not retry, and with a wrapper that
    re-raises it the exception leaves [validate_credentials]. *)
Theorem exception_leaves_the_contract :
  NetlifyPlatform.get_url (netlify_with quiet_fs array_reply site_created)
                          netlify_site
  = Raise (AttributeError "'list' object has no attribute 'get'") /\
  (forall U : utils_errors,
      fst (@NetlifyPlatform.validate_credentials U
             (netlify_with quiet_fs quiet_http site_created)
             env_only netlify_no_site)
      = @on_fatal U
          (AttributeError "'NetlifyPlatform' object has no attribute 'logger'")) /\
  escapes (fst (@NetlifyPlatform.validate_credentials sample_errors
                  (netlify_with quiet_fs quiet_http site_created)
                  env_only netlify_no_site)).
Proof.
  split; [reflexivity|]. split.
  - intros U. reflexivity.
  - eexists. reflexivity.
Qed.

(** * Further properties *)

(** ** Strings, continued *)

Lemma str_app_cons (c : ascii) (a b : string) :
  String c a +:+ b = String c (a +:+ b).
Proof. reflexivity. Qed.

Lemma str_app_assoc (a b c : string) : (a +:+ b) +:+ c = a +:+ (b +:+ c).
Proof.
  induction a as [|x a IH]; [reflexivity|].
  rewrite !str_app_cons; simpl; now rewrite IH.
Qed.

Lemma str_app_nil_r (a : string) : a +:+ "" = a.
Proof.
  induction a as [|x a IH]; [reflexivity|].
  rewrite !str_app_cons; simpl; now rewrite IH.
Qed.

Lemma str_length_app (a b : string) :
  String.length (a +:+ b) = String.length a + String.length b.
Proof.
  induction a as [|x a IH]; [reflexivity|].
  rewrite !str_app_cons; simpl; now rewrite IH.
Qed.

Lemma prefixb_iff (p s : string) :
  prefixb p s = true <-> exists q, s = p +:+ q.
Proof.
  revert s; induction p as [|a p IH]; intros s; simpl.
  - split; eauto.
  - destruct s as [|b s].
    + split; [discriminate | intros [q H]; discriminate].
    + rewrite andb_true_iff, Ascii.eqb_eq, IH. split.
      * intros [-> [q ->]]. eauto.
      * intros [q H]. injection H as -> ->. eauto.
Qed.

Lemma prefixb_app (p q : string) : prefixb p (p +:+ q) = true.
Proof. apply prefixb_iff. eauto. Qed.

Lemma contains_eq (sub s : string) :
  contains sub s
  = prefixb sub s || match s with
                     | EmptyString => false
                     | String _ s' => contains sub s'
                     end.
Proof. destruct s; reflexivity. Qed.

Lemma contains_iff (sub s : string) :
  contains sub s = true <-> exists p q, s = p +:+ sub +:+ q.
Proof.
  induction s as [|c s IH]; rewrite contains_eq, orb_true_iff, prefixb_iff.
  - split.
    + intros [[q H]|H]; [|discriminate]. exists EmptyString, q. exact H.
    + intros [p [q H]]. left. destruct p; [eauto | discriminate].
  - rewrite IH. split.
    + intros [[q H]|[p [q H]]].
      * exists EmptyString, q. exact H.
      * exists (String c p), q. now rewrite H.
    + intros [p [q H]]. destruct p as [|d p].
      * left. eauto.
      * right. injection H as _ H. eauto.
Qed.

Lemma contains_mid (p sub q : string) : contains sub (p +:+ sub +:+ q) = true.
Proof. apply contains_iff. eauto. Qed.

Lemma contains_trans (a b c : string) :
  contains a b = true -> contains b c = true -> contains a c = true.
Proof.
  rewrite !contains_iff. intros [p [q ->]] [p' [q' ->]].
  exists (p' +:+ p), (q +:+ q'). now rewrite !str_app_assoc.
Qed.

Lemma prefixb_head (a : ascii) (sub' : string) (c : ascii) (s : string) :
  c <> a -> prefixb (String a sub') (String c s) = false.
Proof.
  intros H. simpl. destruct (Ascii.eqb_spec a c); [congruence | reflexivity].
Qed.

Lemma count_char_cons_0 (a c : ascii) (s : string) :
  count_char a (String c s) = 0 -> c <> a /\ count_char a s = 0.
Proof.
  simpl. destruct (Ascii.eqb_spec c a); [discriminate | auto].
Qed.

Lemma count_char_app (a : ascii) (x y : string) :
  count_char a (x +:+ y) = count_char a x + count_char a y.
Proof. induction x as [|c x IH]; simpl; [reflexivity | rewrite IH; lia]. Qed.

(** A text whose characters all differ from the first one of [sub] holds
    no occurrence of [sub]: the search goes on behind it. *)
Lemma contains_skip (a : ascii) (sub' x y : string) :
  count_char a x = 0 ->
  contains (String a sub') (x +:+ y) = contains (String a sub') y.
Proof.
  induction x as [|c x IH]; intros H; [reflexivity|].
  apply count_char_cons_0 in H as [Hc H].
  change (String c x +:+ y) with (String c (x +:+ y)).
  rewrite contains_eq, prefixb_head by exact Hc. simpl. auto.
Qed.

Lemma split_from_skip (sep x t : string) :
  PyStr.split_from sep (String.length x) (x +:+ t) = PyStr.split_from sep 0 t.
Proof. induction x; simpl; auto. Qed.

Lemma split_str_match (a : ascii) (sep' t : string) :
  PyStr.split_str (String a sep') (String a sep' +:+ t)
  = EmptyString :: PyStr.split_str (String a sep') t.
Proof.
  unfold PyStr.split_str.
  change (String a sep' +:+ t) with (String a (sep' +:+ t)).
  cbn [PyStr.split_from].
  change (String a (sep' +:+ t)) with (String a sep' +:+ t).
  rewrite prefixb_app.
  replace (String.length (String a sep') - 1) with (String.length sep')
    by (simpl; lia).
  f_equal. apply split_from_skip.
Qed.

Lemma split_str_nonempty (sep s : string) : PyStr.split_str sep s <> [].
Proof.
  unfold PyStr.split_str. generalize 0.
  induction s as [|c s IH]; intros n; simpl; [discriminate|].
  destruct n; [|apply IH].
  destruct (prefixb sep (String c s)); [discriminate|].
  destruct (PyStr.split_from sep 0 s); discriminate.
Qed.

Lemma split_str_head (a : ascii) (sep' x y : string) :
  count_char a x = 0 ->
  PyStr.split_str (String a sep') (x +:+ y)
  = match PyStr.split_str (String a sep') y with
    | h :: t => (x +:+ h) :: t
    | [] => []
    end.
Proof.
  unfold PyStr.split_str.
  induction x as [|c x IH]; intros H.
  - change (EmptyString +:+ y) with y.
    destruct (PyStr.split_from (String a sep') 0 y); reflexivity.
  - apply count_char_cons_0 in H as [Hc H].
    change (String c x +:+ y) with (String c (x +:+ y)).
    cbn [PyStr.split_from]. rewrite prefixb_head by exact Hc.
    rewrite IH by exact H.
    pose proof (split_str_nonempty (String a sep') y) as Hne.
    unfold PyStr.split_str in Hne.
    destruct (PyStr.split_from (String a sep') 0 y); [contradiction | reflexivity].
Qed.

Lemma split_str_none (sep s : string) :
  contains sep s = false -> PyStr.split_str sep s = [s].
Proof.
  unfold PyStr.split_str. induction s as [|c s IH]; intros H; [reflexivity|].
  rewrite contains_eq in H. apply orb_false_iff in H as [Hp H].
  cbn [PyStr.split_from]. rewrite Hp, IH by exact H. reflexivity.
Qed.

(** [before + sep + after] is cut in two at [sep] when [before] holds no
    character that starts [sep] and [after] holds no further [sep]. *)
Lemma split_str_once (a : ascii) (sep' before after : string) :
  count_char a before = 0 ->
  contains (String a sep') after = false ->
  PyStr.split_str (String a sep') (before +:+ String a sep' +:+ after)
  = [before; after].
Proof.
  intros Hb Ha. rewrite split_str_head by exact Hb.
  rewrite split_str_match, split_str_none by exact Ha.
  now rewrite str_app_nil_r.
Qed.

Lemma replace_from_skip (old new x t : string) :
  PyStr.replace_from old new (String.length x) (x +:+ t)
  = PyStr.replace_from old new 0 t.
Proof. induction x; simpl; auto. Qed.

Lemma replace_match (a : ascii) (old' new t : string) :
  PyStr.replace (String a old') new (String a old' +:+ t)
  = new +:+ PyStr.replace (String a old') new t.
Proof.
  unfold PyStr.replace.
  change (String a old' +:+ t) with (String a (old' +:+ t)).
  cbn [PyStr.replace_from].
  change (String a (old' +:+ t)) with (String a old' +:+ t).
  rewrite prefixb_app.
  replace (String.length (String a old') - 1) with (String.length old')
    by (simpl; lia).
  f_equal. apply replace_from_skip.
Qed.

Lemma replace_head (a : ascii) (old' new x y : string) :
  count_char a x = 0 ->
  PyStr.replace (String a old') new (x +:+ y)
  = x +:+ PyStr.replace (String a old') new y.
Proof.
  unfold PyStr.replace.
  induction x as [|c x IH]; intros H; [reflexivity|].
  apply count_char_cons_0 in H as [Hc H].
  change (String c x +:+ y) with (String c (x +:+ y)).
  cbn [PyStr.replace_from]. rewrite prefixb_head by exact Hc.
  rewrite IH by exact H. reflexivity.
Qed.

Lemma replace_none (old new s : string) :
  contains old s = false -> PyStr.replace old new s = s.
Proof.
  unfold PyStr.replace. induction s as [|c s IH]; intros H; [reflexivity|].
  rewrite contains_eq in H. apply orb_false_iff in H as [Hp H].
  cbn [PyStr.replace_from]. rewrite Hp, IH by exact H. reflexivity.
Qed.

Lemma strip_suffix_app (suffix p : string) :
  PyStr.strip_suffix suffix (p +:+ suffix) = Some p.
Proof.
  induction p as [|c p IH].
  - change (EmptyString +:+ suffix) with suffix.
    destruct suffix; cbn [PyStr.strip_suffix]; now rewrite eqb_str_refl.
  - change (String c p +:+ suffix) with (String c (p +:+ suffix)).
    cbn [PyStr.strip_suffix]. unfold eqb_str at 1.
    rewrite bool_decide_eq_false_2.
    + now rewrite IH.
    + intros E. apply (f_equal String.length) in E.
      simpl in E. rewrite str_length_app in E. lia.
Qed.

Lemma strip_suffix_some (suffix s p : string) :
  PyStr.strip_suffix suffix s = Some p -> s = p +:+ suffix.
Proof.
  revert p; induction s as [|c s IH]; intros p; simpl; unfold eqb_str;
    case_bool_decide as E; intros H; simplify_eq; try reflexivity.
  destruct (PyStr.strip_suffix suffix s) eqn:Hs; simplify_eq.
  rewrite str_app_cons. f_equal. apply IH. reflexivity.
Qed.
(** ** [git_utils.py]: the repository named by a remote URL *)

Lemma last_cons_ne {A} (h : A) (t : list A) (d : A) :
  t <> [] -> List.last (h :: t) d = List.last t d.
Proof. destruct t; [contradiction | reflexivity]. Qed.

(** The shape of a split: the first piece opens the text, the last one
    closes it. *)
Lemma split_shape (sep : ascii) (s h : string) (t : list string) :
  split sep s = h :: t ->
  exists r, s = h +:+ r /\
            (t = [] -> r = EmptyString) /\
            (t <> [] -> exists p, r = p +:+ List.last t EmptyString).
Proof.
  revert h t; induction s as [|c s IH]; intros h t; cbn [split].
  - intros [= <- <-]. exists EmptyString.
    split; [reflexivity|]. split; [reflexivity | intros H; contradiction].
  - pose proof (split_nonempty sep s) as Hne.
    destruct (split sep s) as [|h0 t0]; [contradiction|].
    destruct (IH h0 t0 eq_refl) as (r & Hs & Hnil & Hcons).
    destruct (Ascii.eqb c sep); intros [= <- <-].
    + exists (String c s).
      split; [reflexivity|]. split; [discriminate|]. intros _.
      destruct t0 as [|h1 t1].
      * exists (String c EmptyString). rewrite Hs, (Hnil eq_refl).
        cbn [List.last]. now rewrite str_app_nil_r.
      * destruct (Hcons ltac:(discriminate)) as [p Hp].
        exists (String c (h0 +:+ p)).
        rewrite last_cons_ne by discriminate.
        rewrite Hs, Hp, str_app_cons, str_app_assoc. reflexivity.
    + exists r. rewrite str_app_cons, <- Hs. auto.
Qed.

Lemma split_last_tail (sep : ascii) (s : string) :
  exists p, s = p +:+ List.last (split sep s) EmptyString.
Proof.
  pose proof (split_nonempty sep s) as Hne.
  destruct (split sep s) as [|h t] eqn:E; [contradiction|].
  destruct (split_shape _ _ _ _ E) as (r & Hs & Hnil & Hcons).
  destruct t as [|h1 t1].
  - exists EmptyString. rewrite Hs, (Hnil eq_refl). cbn [List.last].
    now rewrite str_app_nil_r.
  - destruct (Hcons ltac:(discriminate)) as [p Hp]. exists (h +:+ p).
    rewrite last_cons_ne by discriminate.
    now rewrite Hs, Hp, str_app_assoc.
Qed.

Lemma split_from_nonempty (sep : string) (k : nat) (s : string) :
  PyStr.split_from sep k s <> [].
Proof.
  revert k; induction s as [|c s IH]; intros k; simpl; [discriminate|].
  destruct k; [|apply IH].
  destruct (prefixb sep (String c s)); [discriminate|].
  destruct (PyStr.split_from sep 0 s); discriminate.
Qed.

Lemma split_from_shape (sep : string) (k : nat) (s h : string) (t : list string) :
  PyStr.split_from sep k s = h :: t ->
  exists pre r, s = pre +:+ h +:+ r /\
                (k = 0 -> pre = EmptyString) /\
                (t = [] -> r = EmptyString) /\
                (t <> [] -> exists p, r = p +:+ List.last t EmptyString).
Proof.
  revert k h t; induction s as [|c s IH]; intros k h t; cbn [PyStr.split_from].
  - intros [= <- <-]. exists EmptyString, EmptyString.
    split; [reflexivity|]. split; [reflexivity|].
    split; [reflexivity | intros H; contradiction].
  - destruct k as [|k].
    + destruct (prefixb sep (String c s)).
      * pose proof (split_from_nonempty sep (String.length sep - 1) s) as Hne.
        destruct (PyStr.split_from sep (String.length sep - 1) s)
          as [|h0 t0] eqn:E; [contradiction|].
        destruct (IH _ _ _ E) as (pre & r & Hs & _ & Hnil & Hcons).
        intros [= <- <-]. exists EmptyString, (String c s).
        split; [reflexivity|]. split; [reflexivity|].
        split; [discriminate|]. intros _.
        destruct t0 as [|h1 t1].
        -- exists (String c pre). rewrite Hs, (Hnil eq_refl).
           cbn [List.last]. now rewrite str_app_nil_r.
        -- destruct (Hcons ltac:(discriminate)) as [p Hp].
           exists (String c (pre +:+ h0 +:+ p)).
           rewrite last_cons_ne by discriminate.
           rewrite Hs, Hp, str_app_cons, !str_app_assoc. reflexivity.
      * pose proof (split_from_nonempty sep 0 s) as Hne.
        destruct (PyStr.split_from sep 0 s) as [|h0 t0] eqn:E; [contradiction|].
        destruct (IH _ _ _ E) as (pre & r & Hs & Hpre & Hnil & Hcons).
        intros [= <- <-]. exists EmptyString, r.
        rewrite (Hpre eq_refl) in Hs. rewrite Hs. auto.
    + intros E. destruct (IH _ _ _ E) as (pre & r & Hs & _ & Hnil & Hcons).
      exists (String c pre), r. rewrite Hs.
      split; [reflexivity|]. split; [discriminate|]. split; assumption.
Qed.

Lemma split_from_last_tail (sep : string) (k : nat) (s : string) :
  exists p, s = p +:+ List.last (PyStr.split_from sep k s) EmptyString.
Proof.
  pose proof (split_from_nonempty sep k s) as Hne.
  destruct (PyStr.split_from sep k s) as [|h t] eqn:E; [contradiction|].
  destruct (split_from_shape _ _ _ _ _ E) as (pre & r & Hs & _ & Hnil & Hcons).
  destruct t as [|h1 t1].
  - exists pre. rewrite Hs, (Hnil eq_refl). cbn [List.last].
    now rewrite str_app_nil_r.
  - destruct (Hcons ltac:(discriminate)) as [p Hp]. exists (pre +:+ h +:+ p).
    rewrite last_cons_ne by discriminate.
    now rewrite Hs, Hp, !str_app_assoc.
Qed.

Lemma extract_ssh_url (path : string) :
  count_char ":" path = 0 ->
  GitUtils.extract_repo_name_from_url ("git@github.com:" +:+ path +:+ ".git")
  = Some path.
Proof.
  intros Hcolon. unfold GitUtils.extract_repo_name_from_url.
  rewrite prefixb_app.
  change ("git@github.com:" +:+ path +:+ ".git")
    with ("git@github.com" +:+ String ":" (path +:+ ".git")).
  rewrite split_app by reflexivity.
  rewrite split_no_sep by (rewrite count_char_app, Hcolon; reflexivity).
  cbn [List.last]. now rewrite strip_suffix_app.
Qed.

Lemma extract_https_url (scheme path : string) :
  count_char "g" scheme = 0 ->
  contains "github.com/" (path +:+ ".git") = false ->
  GitUtils.extract_repo_name_from_url (scheme +:+ "github.com/" +:+ path +:+ ".git")
  = Some path.
Proof.
  intros Hg Hhost. unfold GitUtils.extract_repo_name_from_url.
  assert (prefixb "git@github.com:" (scheme +:+ "github.com/" +:+ path +:+ ".git")
          = false) as ->.
  { destruct scheme as [|c scheme]; [reflexivity|].
    apply count_char_cons_0 in Hg as [Hc _].
    rewrite str_app_cons. now apply prefixb_head. }
  rewrite contains_mid.
  rewrite split_str_once by assumption.
  cbn [List.last]. now rewrite strip_suffix_app.
Qed.

(** X1.  [extract_repo_name_from_url] gives back the [owner/repo] part
    of the two kinds of remote URL GitHub hands out: of
    [git@github.com:<path>.git] when [path] holds no colon, and of
    [<scheme>github.com/<path>.git] when no [g] stands before the host
    ([https://], [http://], [ssh://user@]) and the host name does not
    come again behind it. *)
Theorem extract_repo_name_round_trip (scheme path : string) :
  count_char ":" path = 0 ->
  count_char "g" scheme = 0 ->
  contains "github.com/" (path +:+ ".git") = false ->
  GitUtils.extract_repo_name_from_url ("git@github.com:" +:+ path +:+ ".git")
  = Some path /\
  GitUtils.extract_repo_name_from_url (scheme +:+ "github.com/" +:+ path +:+ ".git")
  = Some path.
Proof.
  intros Hcolon Hg Hhost. split.
  - now apply extract_ssh_url.
  - now apply extract_https_url.
Qed.

Lemma extract_repo_name_round_trip_witness :
  GitUtils.extract_repo_name_from_url "git@github.com:user/repo.git"
  = Some "user/repo" /\
  GitUtils.extract_repo_name_from_url "https://github.com/user/repo.git"
  = Some "user/repo".
Proof.
  apply (extract_repo_name_round_trip "https://" "user/repo"); reflexivity.
Defined.

(** X2.  What [extract_repo_name_from_url] returns is the end of the URL,
    with at most one [.git] taken off: it never invents characters and
    never cuts inside the name. *)
Theorem extract_repo_name_is_tail (url r : string) :
  GitUtils.extract_repo_name_from_url url = Some r ->
  exists p, url = p +:+ r \/ url = p +:+ r +:+ ".git".
Proof.
  unfold GitUtils.extract_repo_name_from_url.
  assert (forall part,
             (exists p, url = p +:+ part) ->
             match PyStr.strip_suffix ".git" part with
             | Some p => Some p
             | None => Some part
             end = Some r ->
             exists p, url = p +:+ r \/ url = p +:+ r +:+ ".git") as Hcut.
  { intros part [p ->] H.
    destruct (PyStr.strip_suffix ".git" part) as [q|] eqn:E; simplify_eq.
    - apply strip_suffix_some in E as ->. exists p. now right.
    - exists p. now left. }
  destruct (prefixb "git@github.com:" url).
  - apply Hcut, split_last_tail.
  - destruct (contains "github.com/" url); [|discriminate].
    apply Hcut, split_from_last_tail.
Qed.

Lemma extract_repo_name_is_tail_witness :
  exists p, "https://github.com/user/repo.git" = p +:+ "user/repo" \/
            "https://github.com/user/repo.git" = p +:+ "user/repo" +:+ ".git".
Proof.
  apply (extract_repo_name_is_tail "https://github.com/user/repo.git" "user/repo").
  reflexivity.
Defined.

(** ** [init.py]: the repository detected from the remote *)

Lemma no_dot_no_host (t : string) :
  contains ".c" t = false -> contains "github.com/" t = false.
Proof.
  intros H. destruct (contains "github.com/" t) eqn:E; [|reflexivity].
  rewrite <- H. symmetry.
  apply contains_trans with "github.com/"; [reflexivity | exact E].
Qed.

(** X3.  On a remote whose [owner/repo] part holds neither a dot nor a colon,
    [_detect_git_repository] of [init.py] and [extract_repo_name_from_url]
    of [git_utils.py] find the same name, for the SSH and for the HTTPS
    form of the URL. *)
Theorem detect_agrees_with_extract (path : string) :
  count_char "." path = 0 ->
  count_char ":" path = 0 ->
  let ssh := "git@github.com:" +:+ path +:+ ".git" in
  let https := "https://github.com/" +:+ path +:+ ".git" in
  Init._detect_git_repository (Some ssh) = Some path /\
  Init._detect_git_repository (Some https) = Some path /\
  Init._detect_git_repository (Some ssh)
  = GitUtils.extract_repo_name_from_url ssh /\
  Init._detect_git_repository (Some https)
  = GitUtils.extract_repo_name_from_url https.
Proof.
  intros Hdot Hcolon ssh https.
  assert (contains "github.com/" (path +:+ ".git") = false) as Hhost.
  { apply no_dot_no_host.
    now rewrite (contains_skip "." "c" path ".git") by exact Hdot. }
  pose proof (extract_ssh_url path Hcolon) as Es.
  pose proof (extract_https_url "https://" path eq_refl Hhost) as Eh.
  change ("https://" +:+ "github.com/" +:+ path +:+ ".git") with https in Eh.
  fold ssh in Es. rewrite Es, Eh.
  assert (PyStr.replace ".git" "" (path +:+ ".git") = path) as Hrep.
  { rewrite (replace_head "." "git" "" path ".git") by exact Hdot.
    change (PyStr.replace ".git" "" ".git") with EmptyString.
    apply str_app_nil_r. }
  assert (Init._detect_git_repository (Some ssh) = Some path) as Ds.
  { unfold Init._detect_git_repository, ssh.
    assert (contains "github.com" ("git@github.com:" +:+ path +:+ ".git") = true)
      as -> by exact (contains_mid "git@" "github.com" (":" +:+ path +:+ ".git")).
    assert (prefixb "git@" ("git@github.com:" +:+ path +:+ ".git") = true)
      as -> by reflexivity.
    change ("git@github.com:" +:+ path +:+ ".git")
      with ("git@github.com" +:+ String ":" (path +:+ ".git")).
    rewrite split_app by reflexivity.
    rewrite split_no_sep by (rewrite count_char_app, Hcolon; reflexivity).
    cbn [PyStr.item nth_error]. now rewrite Hrep. }
  assert (Init._detect_git_repository (Some https) = Some path) as Dh.
  { unfold Init._detect_git_repository, https.
    assert (contains "github.com" ("https://github.com/" +:+ path +:+ ".git") = true)
      as -> by exact (contains_mid "https://" "github.com" ("/" +:+ path +:+ ".git")).
    assert (prefixb "git@" ("https://github.com/" +:+ path +:+ ".git") = false)
      as -> by reflexivity.
    assert (PyStr.split_str "github.com/" ("https://github.com/" +:+ path +:+ ".git")
            = ["https://"; path +:+ ".git"]) as ->
      by exact (split_str_once "g" "ithub.com/" "https://" (path +:+ ".git")
                               eq_refl Hhost).
    cbn [PyStr.item nth_error]. now rewrite Hrep. }
  now rewrite Ds, Dh.
Qed.

Lemma detect_agrees_with_extract_witness :
  Init._detect_git_repository (Some "git@github.com:user/repo.git")
  = Some "user/repo" /\
  Init._detect_git_repository (Some "https://github.com/user/repo.git")
  = Some "user/repo".
Proof.
  pose proof (detect_agrees_with_extract "user/repo" eq_refl eq_refl) as H.
  cbv zeta in H. split; apply H.
Defined.
Lemma get_url_two_parts (owner repo : string) :
  count_char "/" owner = 0 -> count_char "/" repo = 0 ->
  PagesUrl.get_url (Some (owner +:+ "/" +:+ repo))
  = Some (if bool_decide (repo = owner +:+ ".github.io")
          then "https://" +:+ owner +:+ ".github.io"
          else "https://" +:+ owner +:+ ".github.io/" +:+ repo).
Proof.
  intros Ho Hr. unfold PagesUrl.get_url.
  assert (truthy (Some (owner +:+ "/" +:+ repo)) = true) as ->
      by (destruct owner; reflexivity).
  simpl negb. cbv iota. now apply pages_url_of_two_parts.
Qed.

(** X4.  The remote of a user site,
    [https://github.com/<owner>/<owner>.github.io.git]:
    [extract_repo_name_from_url] takes off the [.git] at the end and
    finds [<owner>/<owner>.github.io]; [_detect_git_repository] replaces
    every [.git], the one inside [.github.io] too, and proposes
    [<owner>/<owner>hub.io], for which the platform then computes a
    project address instead of the address of the user site. *)
Theorem detect_mangles_user_site (owner : string) :
  count_char "." owner = 0 ->
  count_char "/" owner = 0 ->
  let url := "https://github.com/" +:+ owner +:+ "/" +:+ owner +:+ ".github.io.git" in
  GitUtils.extract_repo_name_from_url url
  = Some (owner +:+ "/" +:+ owner +:+ ".github.io") /\
  Init._detect_git_repository (Some url)
  = Some (owner +:+ "/" +:+ owner +:+ "hub.io") /\
  PagesUrl.get_url (GitUtils.extract_repo_name_from_url url)
  = Some ("https://" +:+ owner +:+ ".github.io") /\
  PagesUrl.get_url (Init._detect_git_repository (Some url))
  = Some ("https://" +:+ owner +:+ ".github.io/" +:+ owner +:+ "hub.io").
Proof.
  intros Hdot Hslash url.
  set (tail := owner +:+ "/" +:+ owner +:+ ".github.io.git").
  assert (contains "github.com/" tail = false) as Hhost.
  { apply no_dot_no_host. unfold tail.
    rewrite (contains_skip "." "c" owner) by exact Hdot.
    rewrite (contains_skip "." "c" "/") by reflexivity.
    now rewrite (contains_skip "." "c" owner) by exact Hdot. }
  assert (PyStr.split_str "github.com/" url = ["https://"; tail]) as Hsplit
      by exact (split_str_once "g" "ithub.com/" "https://" tail eq_refl Hhost).
  assert (contains "github.com/" url = true) as Hhas
      by exact (contains_mid "https://" "github.com/" tail).
  assert (contains "github.com" url = true) as Hhas'
      by exact (contains_mid "https://" "github.com" ("/" +:+ tail)).
  assert (GitUtils.extract_repo_name_from_url url
          = Some (owner +:+ "/" +:+ owner +:+ ".github.io")) as He.
  { unfold GitUtils.extract_repo_name_from_url.
    assert (prefixb "git@github.com:" url = false) as -> by reflexivity.
    rewrite Hhas, Hsplit. cbn [List.last].
    assert (tail = (owner +:+ "/" +:+ owner +:+ ".github.io") +:+ ".git") as ->
        by (unfold tail; now rewrite !str_app_assoc).
    now rewrite strip_suffix_app. }
  assert (Init._detect_git_repository (Some url)
          = Some (owner +:+ "/" +:+ owner +:+ "hub.io")) as Hd.
  { unfold Init._detect_git_repository. rewrite Hhas'.
    assert (prefixb "git@" url = false) as -> by reflexivity.
    rewrite Hsplit. cbn [PyStr.item nth_error]. unfold tail.
    rewrite (replace_head "." "git" "" owner) by exact Hdot.
    rewrite (replace_head "." "git" "" "/") by reflexivity.
    rewrite (replace_head "." "git" "" owner) by exact Hdot.
    reflexivity. }
  rewrite He, Hd. repeat split.
  - rewrite get_url_two_parts
      by (rewrite ?count_char_app, ?Hslash; reflexivity || assumption).
    now rewrite bool_decide_eq_true_2.
  - rewrite get_url_two_parts
      by (rewrite ?count_char_app, ?Hslash; reflexivity || assumption).
    rewrite bool_decide_eq_false_2; [reflexivity|].
    intros E. apply String.app_inj in E. discriminate.
Qed.

Lemma detect_mangles_user_site_witness :
  Init._detect_git_repository (Some "https://github.com/alice/alice.github.io.git")
  = Some "alice/alicehub.io".
Proof.
  pose proof (detect_mangles_user_site "alice" eq_refl eq_refl) as H.
  cbv zeta in H. apply H.
Defined.

(** ** [deployment.py]: what a deployment does to the tree and to git *)

Section DeploymentEffects.
Import GitHubDeployment.
Context `{utils_errors}.
Variable dw : deploy_world.

Lemma assoc_remove_eq (name : string) (t : tree) :
  assoc name (remove name t) = None.
Proof.
  induction t as [|[k v] t IH]; [reflexivity|]. simpl.
  destruct (eqb_str k name) eqn:E; [exact IH|]. simpl. now rewrite E.
Qed.

Lemma assoc_remove_ne (name k : string) (t : tree) :
  k <> name -> assoc k (remove name t) = assoc k t.
Proof.
  intros Hne. induction t as [|[k' v] t IH]; [reflexivity|]. simpl.
  destruct (eqb_str k' name) eqn:E; simpl.
  - apply eqb_str_true in E as ->.
    destruct (eqb_str name k) eqn:E'; [|exact IH].
    apply eqb_str_true in E'. congruence.
  - now rewrite IH.
Qed.

Lemma remove_absent (name : string) (t : tree) :
  assoc name t = None -> remove name t = t.
Proof.
  induction t as [|[k v] t IH]; [reflexivity|]. simpl.
  destruct (eqb_str k name); [discriminate|]. intros Hn. now rewrite IH.
Qed.

Lemma assoc_upsert_eq (name : string) (n : node) (t : tree) :
  assoc name (upsert name n t) = Some n.
Proof.
  induction t as [|[k v] t IH]; simpl.
  - now rewrite eqb_str_refl.
  - destruct (eqb_str k name) eqn:E; simpl; now rewrite E.
Qed.

Lemma assoc_upsert_ne (name k : string) (n : node) (t : tree) :
  k <> name -> assoc k (upsert name n t) = assoc k t.
Proof.
  intros Hne. induction t as [|[k' v] t IH]; simpl.
  - destruct (eqb_str name k) eqn:E; [|reflexivity].
    apply eqb_str_true in E. congruence.
  - destruct (eqb_str k' name) eqn:E; simpl; [|now rewrite IH].
    apply eqb_str_true in E as ->.
    destruct (eqb_str name k) eqn:E'; [|reflexivity].
    apply eqb_str_true in E'. congruence.
Qed.

Lemma clear_drops_unprotected (output_dir : string) (wt : tree) (p : string) :
  is_protected output_dir p = false ->
  (forall n, remove_result dw p n = None) ->
  assoc p (clear_branch_content dw output_dir wt) = None.
Proof.
  intros Hp Hrm. unfold clear_branch_content.
  induction wt as [|[name n] wt IH]; [reflexivity|].
  cbn [omap list_omap]. unfold clear_entry at 1.
  destruct (eqb_str name p) eqn:E.
  - apply eqb_str_true in E as ->. now rewrite Hp, Hrm.
  - destruct (is_protected output_dir name).
    + simpl. now rewrite E.
    + destruct (remove_result dw name n); [|exact IH]. simpl. now rewrite E.
Qed.

Lemma checkout_branch_effects (self : t) (tr : list effect) :
  checkout_branch dw self = Return tr -> exists args, tr = [ECheckout args].
Proof.
  unfold checkout_branch, bind. intros Hc.
  repeat case_match; simplify_eq; eauto.
Qed.

Lemma opened_effects (tr0 : list effect) :
  (if repo_opens dw then Return []
   else bind (repo_init dw) (fun _ => Return [EInit])) = Return tr0 ->
  tr0 = [] \/ tr0 = [EInit].
Proof.
  unfold bind. intros Ho. repeat case_match; simplify_eq; auto.
Qed.

End DeploymentEffects.
(** X5.  The allow-list of the clearing step holds the text of
    [output_dir], so a build output that is given as a path ([./build],
    [dist/app]) is not protected: when its first component is not
    [.git], [.gitignore] or [CNAME] and can be removed, the clearing step
    removes it, and [deploy_to_branch] fails whatever git answers:
    nothing is committed or pushed, and either the run stopped before the
    clearing step or the build output is gone from the working tree. *)
Theorem output_given_as_path_is_cleared_away `{utils_errors}
        (dw : GitHubDeployment.deploy_world) (self : GitHubDeployment.t)
        (output_dir : string) (wt : GitHubDeployment.tree)
        (p : string) (rest : list string) :
  GitHubDeployment.leaves_project output_dir = false ->
  GitHubDeployment.path_parts output_dir = p :: rest ->
  GitHubDeployment.is_protected output_dir p = false ->
  (forall n, GitHubDeployment.remove_result dw p n = None) ->
  let '(r, wt', effects) :=
    GitHubDeployment.deploy_to_branch dw self output_dir wt in
  success r = false /\ url r = None /\
  List.existsb makes_history effects = false /\
  (wt' = wt \/ GitHubDeployment.assoc p wt' = None).
Proof.
  intros Hin Hparts Hp Hrm.
  unfold GitHubDeployment.deploy_to_branch.
  destruct (GitHubDeployment.output_node dw wt output_dir) eqn:Ho;
    [|repeat split; auto].
  unfold GitHubDeployment.deploy_steps.
  destruct (if GitHubDeployment.repo_opens dw then Return []
            else bind (GitHubDeployment.repo_init dw)
                      (fun _ => Return [GitHubDeployment.EInit]))
    as [tr0|e] eqn:Hopen; [|repeat split; auto].
  destruct (GitHubDeployment.checkout_branch dw self) as [tr1|e] eqn:Hco.
  2:{ repeat split; auto.
      destruct (opened_effects dw tr0 Hopen) as [-> | ->]; reflexivity. }
  cbv zeta.
  assert (GitHubDeployment.output_node dw
            (GitHubDeployment.clear_branch_content dw output_dir
               (GitHubDeployment.after_checkout dw wt)) output_dir = None) as ->.
  { unfold GitHubDeployment.output_node. rewrite Hin, Hparts.
    cbn [GitHubDeployment.lookup_path].
    now rewrite (clear_drops_unprotected dw output_dir _ p Hp Hrm). }
  repeat split.
  - destruct (opened_effects dw tr0 Hopen) as [-> | ->];
      destruct (checkout_branch_effects dw self tr1 Hco) as [args ->];
      reflexivity.
  - right. now apply clear_drops_unprotected.
Qed.

Lemma output_given_as_path_is_cleared_away_witness :
  let '(r, wt', effects) :=
    @GitHubDeployment.deploy_to_branch sample_errors
      (calm_repo (Return tt) (fun _ => false))
      pages_deployment "dist/app" nested_project in
  success r = false /\ url r = None /\
  List.existsb makes_history effects = false /\
  (wt' = nested_project \/ GitHubDeployment.assoc "dist" wt' = None).
Proof.
  apply (@output_given_as_path_is_cleared_away sample_errors
           (calm_repo (Return tt) (fun _ => false))
           pages_deployment "dist/app" nested_project "dist" ["app"]);
    reflexivity.
Defined.

(** X6.  [deploy_to_docs_folder] with the build output in [docs] itself
    ([output_dir] is [docs], [./docs], [docs/]): the folder is removed
    before it is copied, so once the removal has succeeded there is
    nothing left to copy; the call fails, no git command has run, and the
    working tree is left without its [docs]. *)
Theorem docs_as_output_is_lost `{utils_errors}
        (dw : GitHubDeployment.deploy_world) (self : GitHubDeployment.t)
        (output_dir : string) (wt : GitHubDeployment.tree)
        (d : GitHubDeployment.node) :
  GitHubDeployment.leaves_project output_dir = false ->
  GitHubDeployment.path_parts output_dir = ["docs"] ->
  GitHubDeployment.assoc "docs" wt = Some d ->
  GitHubDeployment.remove_result dw "docs" d = None ->
  let '(r, wt', effects) :=
    GitHubDeployment.deploy_to_docs_folder dw self output_dir wt in
  success r = false /\ url r = None /\ effects = [] /\
  wt' = GitHubDeployment.remove "docs" wt /\
  GitHubDeployment.assoc "docs" wt' = None.
Proof.
  intros Hin Hparts Hd Hrm.
  unfold GitHubDeployment.deploy_to_docs_folder, GitHubDeployment.docs_steps,
    GitHubDeployment.output_node.
  rewrite Hin, Hparts. cbn [GitHubDeployment.lookup_path].
  rewrite Hd, Hrm. cbn [GitHubDeployment.lookup_path].
  rewrite assoc_remove_eq.
  repeat split. apply assoc_remove_eq.
Qed.
Lemma docs_as_output_is_lost_witness :
  let '(r, wt', effects) :=
    @GitHubDeployment.deploy_to_docs_folder sample_errors
      (calm_repo (Return tt) (fun _ => false))
      pages_deployment "docs" docs_project in
  success r = false /\ url r = None /\ effects = [] /\
  wt' = GitHubDeployment.remove "docs" docs_project /\
  GitHubDeployment.assoc "docs" wt' = None.
Proof.
  apply (@docs_as_output_is_lost sample_errors
           (calm_repo (Return tt) (fun _ => false))
           pages_deployment "docs" docs_project
           (GitHubDeployment.Dir
              [("index.html", GitHubDeployment.File "<html></html>")]));
    reflexivity.
Defined.

(** X7.  [deploy_to_docs_folder] changes no entry of the working tree
    but [docs].  The git calls that returned are an initial part of
    [git add docs/], the commit and an unforced push without refspec, in
    this order, and success is reported exactly when all three returned
    without raising.  What [origin.push()] returns is not read, so that
    a push which the remote turned down without an exception counts as
    well.  On success [docs] holds the build output as it was found once
    the old [docs] was out of the way; a failure carries no address. *)
Theorem docs_deploy_touches_docs_only `{utils_errors}
        (dw : GitHubDeployment.deploy_world) (self : GitHubDeployment.t)
        (output_dir : string) (wt : GitHubDeployment.tree) :
  let '(r, wt', effects) :=
    GitHubDeployment.deploy_to_docs_folder dw self output_dir wt in
  (forall name, name <> "docs" ->
                GitHubDeployment.assoc name wt' = GitHubDeployment.assoc name wt) /\
  (exists k,
      k <= 3 /\
      effects
      = take k [GitHubDeployment.EAdd "docs/";
                GitHubDeployment.ECommit "Deploy to GitHub Pages (docs folder)";
                GitHubDeployment.EPush None false] /\
      (success r = true <-> k = 3) /\
      (1 <= k -> GitHubDeployment.add dw "docs/" = Return tt) /\
      (2 <= k ->
       GitHubDeployment.commit dw "Deploy to GitHub Pages (docs folder)"
       = Return tt) /\
      (k = 3 -> GitHubDeployment.push dw None false = Return tt)) /\
  (success r = true ->
   url r = Some (GitHubDeployment._generate_pages_url self) /\
   exists items,
     GitHubDeployment.assoc "docs" wt' = Some (GitHubDeployment.Dir items) /\
     GitHubDeployment.output_node dw (GitHubDeployment.remove "docs" wt) output_dir
     = Some (GitHubDeployment.Dir items)) /\
  (success r = false -> url r = None).
Proof.
  unfold GitHubDeployment.deploy_to_docs_folder.
  assert (Hframe1 : forall name rest, name <> "docs" ->
            GitHubDeployment.assoc name (GitHubDeployment.upsert "docs" rest wt)
            = GitHubDeployment.assoc name wt)
    by (intros; now apply assoc_upsert_ne).
  assert (Hframe2 : forall name, name <> "docs" ->
            GitHubDeployment.assoc name (GitHubDeployment.remove "docs" wt)
            = GitHubDeployment.assoc name wt)
    by (intros; now apply assoc_remove_ne).
  assert (Hframe3 : forall name items, name <> "docs" ->
            GitHubDeployment.assoc name
              (GitHubDeployment.upsert "docs" items
                 (GitHubDeployment.remove "docs" wt))
            = GitHubDeployment.assoc name wt)
    by (intros; rewrite assoc_upsert_ne by assumption; now apply Hframe2).
  pose proof (remove_absent "docs" wt) as Habsent.
  assert (Hunit : forall o : outcome unit, (exists u, o = Return u) -> o = Return tt).
  { intros o [[] ->]. reflexivity. }
  destruct (GitHubDeployment.output_node dw wt output_dir) eqn:Ho.
  2:{ split; [auto|]. split; [|split; intros Hx; solve [discriminate Hx | reflexivity]].
      exists 0. repeat split; intros; solve [lia | discriminate | reflexivity]. }
  unfold GitHubDeployment.docs_steps.
  repeat case_match; simplify_eq;
    cbn [success url GitHubDeployment.failure];
    (split; [solve [auto]|]);
    (split;
     [first
        [ exists 0; repeat split; intros;
          solve [lia | discriminate | reflexivity]
        | exists 1; repeat split; intros;
          solve [lia | discriminate | reflexivity | apply Hunit; eauto]
        | exists 2; repeat split; intros;
          solve [lia | discriminate | reflexivity | apply Hunit; eauto]
        | exists 3; repeat split; intros;
          solve [lia | discriminate | reflexivity | apply Hunit; eauto] ]|]);
    (split; [|intros Hx; solve [discriminate Hx | reflexivity]]);
    intros Hs; try discriminate Hs;
    (split; [reflexivity|]);
    eexists; (split; [apply assoc_upsert_eq|]);
    rewrite ?Habsent by reflexivity; eassumption.
Qed.


(** ** [init.py]: the token that [init] stores *)

Lemma token_file_not_gitignore (token_file : string) :
  prefixb ".deployx_" token_file = true -> token_file <> ".gitignore".
Proof. intros Hp ->. discriminate Hp. Qed.

Lemma save_token_writes (env : InitCommand.fs_env) (token_file token : string)
      (fs : gmap string file_obs) :
  prefixb ".deployx_" token_file = true ->
  InitCommand.can_write env token_file = true ->
  (InitCommand.save_token env token_file token fs).2 !! token_file
  = Some (Text token).
Proof.
  intros Hp Hw. apply token_file_not_gitignore in Hp.
  unfold InitCommand.save_token. rewrite Hw. cbn [negb].
  repeat case_match; cbn [snd];
    rewrite ?lookup_insert_ne by congruence; apply lookup_insert_eq.
Qed.

Lemma token_file_prefix (b : backend) :
  prefixb ".deployx_" (Credentials.token_file b) = true.
Proof. destruct b; reflexivity. Qed.

(** The token file that [platform_config] writes for a backend. *)
Lemma platform_config_saves (b : backend) (env : InitCommand.fs_env)
      (origin_url : option string) (a : InitCommand.answers)
      (fs : gmap string file_obs) (token : string) :
  InitCommand.token_value a = Some token ->
  truthy (Some token) = true ->
  (InitCommand.platform_config b env origin_url a fs).2
  = (InitCommand.save_token env (Credentials.token_file b) token fs).2 /\
  ((InitCommand.platform_config b env origin_url a fs).1 <> None ->
   (InitCommand.save_token env (Credentials.token_file b) token fs).1 = true).
Proof.
  intros Ha Ht.
  destruct b; cbn [InitCommand.platform_config];
    unfold InitCommand._configure_github, InitCommand._configure_vercel,
      InitCommand._configure_netlify, InitCommand._configure_railway,
      InitCommand.with_token, InitCommand._save_platform_token;
    rewrite Ha, Ht; cbn [negb Credentials.token_file];
    repeat match goal with
           | |- context [InitCommand.save_token _ (?x +:+ ?y) _ _] =>
               let f := eval vm_compute in (x +:+ y) in
               change (x +:+ y) with f
           end;
    match goal with
    | |- context [InitCommand.save_token ?e ?f ?t ?m] =>
        destruct (InitCommand.save_token e f t m) as [[|] fs']
    end; cbn [negb fst snd]; repeat case_match; cbn [fst snd]; split; congruence.
Qed.

(** X9.  The token that [deployx init] stores is the one the platform
    class reads: when the platform section has been written and the
    command-line tool of the backend gives no token, the file source of
    [_get_token] finds the stripped token, for GitHub as for the three
    other backends; a token of white space only, which [init] accepts,
    is not found. *)
Theorem init_token_is_resolved (b : backend) (env : InitCommand.fs_env)
        (origin_url : option string) (a : InitCommand.answers)
        (fs fs' : gmap string file_obs) (s : InitCommand.section)
        (token : string) (w : world) :
  InitCommand.platform_config b env origin_url a fs = (Some s, fs') ->
  InitCommand.token_value a = Some token ->
  Credentials.cli_source b (with_files fs' w) = None ->
  Credentials.file_source b (with_files fs' w)
  = (if truthy (Some (strip token)) then Some (strip token) else None) /\
  (truthy (Some (strip token)) = true ->
   Credentials._get_token b (with_files fs' w) = Some (strip token)).
Proof.
  intros Hcfg Ha Hcli.
  assert (Ht : truthy (Some token) = true).
  { destruct (truthy (Some token)) eqn:E; [reflexivity|].
    revert Hcfg. destruct b; cbn [InitCommand.platform_config];
      unfold InitCommand._configure_github, InitCommand._configure_vercel,
        InitCommand._configure_netlify, InitCommand._configure_railway,
        InitCommand.with_token;
      rewrite Ha, E; discriminate. }
  destruct (platform_config_saves b env origin_url a fs token Ha Ht) as [Hfs Hok].
  rewrite Hcfg in Hfs, Hok. cbn [fst snd] in Hfs, Hok.
  specialize (Hok ltac:(discriminate)).
  assert (Hfile : fs' !! Credentials.token_file b = Some (Text token)).
  { rewrite Hfs. apply save_token_writes; [apply token_file_prefix|].
    revert Hok. unfold InitCommand.save_token.
    destruct (InitCommand.can_write env (Credentials.token_file b));
      [reflexivity | discriminate]. }
  assert (Hsrc : Credentials.file_source b (with_files fs' w)
                 = (if truthy (Some (strip token)) then Some (strip token) else None)).
  { unfold Credentials.file_source, Credentials.read_token_file.
    cbn [files with_files]. now rewrite Hfile. }
  split; [exact Hsrc|]. intros Hs.
  rewrite get_token_cases, Hcli, Hsrc, Hs. reflexivity.
Qed.

Lemma init_token_is_resolved_witness :
  Credentials.file_source GitHub
    (with_files (<[".gitignore" := Text ("node_modules" +:+ InitCommand.LF
                                         +:+ ".deployx_token" +:+ InitCommand.LF)]>
                   (<[".deployx_token" := Text " ghp_abc "]> fresh_checkout))
                no_sources)
  = Some "ghp_abc".
Proof.
  apply (init_token_is_resolved GitHub willing_fs None (pastes " ghp_abc ")
           fresh_checkout _
           (InitCommand.GitHubSection "user/repo" (Some "branch") (Some "gh-pages"))
           " ghp_abc " no_sources); reflexivity.
Defined.
(** X10.  After a successful [_save_platform_token] (or the same block
    of [_configure_github]) the token file holds the token as given,
    [.gitignore] names the token file and still begins with what it held
    before, no other file has changed, and saving the same token again
    changes nothing. *)
Theorem saved_token_is_ignored (env : InitCommand.fs_env)
        (token_file token : string) (fs fs' : gmap string file_obs) :
  prefixb ".deployx_" token_file = true ->
  InitCommand.save_token env token_file token fs = (true, fs') ->
  fs' !! token_file = Some (Text token) /\
  (exists g, fs' !! ".gitignore" = Some (Text g) /\
             contains token_file g = true /\
             forall old, fs !! ".gitignore" = Some (Text old) ->
                         prefixb old g = true) /\
  (forall name, name <> token_file -> name <> ".gitignore" ->
                fs' !! name = fs !! name) /\
  InitCommand.save_token env token_file token fs' = (true, fs').
Proof.
  intros Hp Hsave.
  pose proof (token_file_not_gitignore token_file Hp) as Hne.
  assert (Hw : InitCommand.can_write env token_file = true).
  { revert Hsave. unfold InitCommand.save_token.
    destruct (InitCommand.can_write env token_file); [reflexivity|discriminate]. }
  assert (Hc : InitCommand.can_chmod env token_file = true).
  { revert Hsave. unfold InitCommand.save_token. rewrite Hw.
    destruct (InitCommand.can_chmod env token_file); [reflexivity|discriminate]. }
  pose proof (save_token_writes env token_file token fs Hp Hw) as Hfile.
  rewrite Hsave in Hfile. cbn [snd] in Hfile.
  split; [exact Hfile|].
  assert (Hig : exists g, fs' !! ".gitignore" = Some (Text g) /\
                          contains token_file g = true /\
                          forall old, fs !! ".gitignore" = Some (Text old) ->
                                      prefixb old g = true).
  { revert Hsave. unfold InitCommand.save_token.
    rewrite Hw, Hc. cbn [negb].
    rewrite lookup_insert_ne by congruence.
    destruct (fs !! ".gitignore") as [[old|]|] eqn:Hg; [|discriminate|].
    - destruct (contains token_file old) eqn:Hin.
      + intros [= <-]. exists old. rewrite lookup_insert_ne by congruence.
        split; [exact Hg|]. split; [exact Hin|].
        intros old' [= <-]. rewrite <- (str_app_nil_r old) at 2.
        apply prefixb_app.
      + destruct (InitCommand.can_write env ".gitignore"); [|discriminate].
        intros [= <-]. eexists. rewrite lookup_insert_eq.
        split; [reflexivity|]. split.
        * rewrite <- str_app_assoc. apply contains_mid.
        * intros old' [= <-]. apply prefixb_app.
    - destruct (InitCommand.can_write env ".gitignore"); [|discriminate].
      intros [= <-]. eexists. rewrite lookup_insert_eq.
      split; [reflexivity|]. split.
      + apply (contains_mid EmptyString).
      + discriminate. }
  split; [exact Hig|]. split.
  - intros name Hn1 Hn2. revert Hsave. unfold InitCommand.save_token.
    rewrite Hw, Hc. cbn [negb].
    repeat case_match; intros [= <-];
      rewrite ?lookup_insert_ne by congruence; reflexivity.
  - destruct Hig as (g & Hg & Hin & _).
    unfold InitCommand.save_token. rewrite Hw, Hc. cbn [negb].
    rewrite (insert_id fs' token_file (Text token) Hfile), Hg, Hin.
    reflexivity.
Qed.

Lemma saved_token_is_ignored_witness :
  exists g,
    (InitCommand.save_token willing_fs ".deployx_token" "ghp_abc" fresh_checkout).2
      !! ".gitignore" = Some (Text g) /\
    contains ".deployx_token" g = true.
Proof.
  destruct (saved_token_is_ignored willing_fs ".deployx_token" "ghp_abc"
              fresh_checkout _ eq_refl eq_refl) as (_ & (g & Hg & Hin & _) & _).
  exists g. split; [exact Hg | exact Hin].
Defined.

(** X11.  [_save_platform_token] does not undo what it has written: once
    the token file could be opened, it holds the token afterwards whatever
    the call returns, and the call returns [False] exactly when the
    permissions could not be set, [.gitignore] could not be read, or
    [.gitignore] had to be written and could not be. *)
Theorem failed_save_keeps_token (env : InitCommand.fs_env)
        (token_file token : string) (fs : gmap string file_obs) :
  prefixb ".deployx_" token_file = true ->
  InitCommand.can_write env token_file = true ->
  let '(ok, fs') := InitCommand.save_token env token_file token fs in
  fs' !! token_file = Some (Text token) /\
  (ok = false <->
   InitCommand.can_chmod env token_file = false \/
   fs !! ".gitignore" = Some Unreadable \/
   (InitCommand.can_write env ".gitignore" = false /\
    forall g, fs !! ".gitignore" = Some (Text g) ->
              contains token_file g = false)).
Proof.
  intros Hp Hw.
  pose proof (save_token_writes env token_file token fs Hp Hw) as Hfile.
  pose proof (token_file_not_gitignore token_file Hp) as Hne.
  destruct (InitCommand.save_token env token_file token fs) as [ok fs'] eqn:Hsave.
  cbn [snd] in Hfile. split; [exact Hfile|].
  revert Hsave. unfold InitCommand.save_token. rewrite Hw. cbn [negb].
  rewrite lookup_insert_ne by congruence.
  destruct (InitCommand.can_chmod env token_file);
    cbn [negb]; [|intros [= <- <-]; split; auto].
  destruct (fs !! ".gitignore") as [[old|]|] eqn:Hg.
  - destruct (contains token_file old) eqn:Hin.
    + intros [= <- <-]. split; [discriminate|].
      intros [?|[?|[_ Hall]]]; try discriminate.
      specialize (Hall old eq_refl). congruence.
    + destruct (InitCommand.can_write env ".gitignore");
        intros [= <- <-]; split; try discriminate; try (intros _; reflexivity).
      * intros [?|[?|[? _]]]; discriminate.
      * intros _. right. right. split; [reflexivity|].
        intros g [= <-]. exact Hin.
  - intros [= <- <-]. split; auto.
  - destruct (InitCommand.can_write env ".gitignore");
      intros [= <- <-]; split; try discriminate; try (intros _; reflexivity).
    + intros [?|[?|[? _]]]; discriminate.
    + intros _. right. right. split; [reflexivity|]. discriminate.
Qed.

Lemma failed_save_keeps_token_witness :
  let '(ok, fs') :=
    InitCommand.save_token willing_fs ".deployx_netlify_token" "nfp_abc"
      {[ ".gitignore" := Unreadable ]} in
  fs' !! ".deployx_netlify_token" = Some (Text "nfp_abc") /\
  (ok = false <->
   InitCommand.can_chmod willing_fs ".deployx_netlify_token" = false \/
   ({[ ".gitignore" := Unreadable ]} : gmap string file_obs) !! ".gitignore"
   = Some Unreadable \/
   (InitCommand.can_write willing_fs ".gitignore" = false /\
    forall g, ({[ ".gitignore" := Unreadable ]} : gmap string file_obs)
                !! ".gitignore" = Some (Text g) ->
              contains ".deployx_netlify_token" g = false)).
Proof.
  apply (failed_save_keeps_token willing_fs ".deployx_netlify_token" "nfp_abc"
           {[ ".gitignore" := Unreadable ]}); reflexivity.
Defined.

(** ** [auth.py]: what the status says and what the setup tests *)

Lemma check_file_and_env_false (b : backend) (w : world) :
  (AuthCommand.check_file_and_env b w).1.1 = false ->
  files w !! Auth.auth_token_file (Auth.platform_name b) = None /\
  truthy (environ w !! Credentials.env_var b) = false.
Proof.
  unfold AuthCommand.check_file_and_env, AuthCommand.path_exists.
  destruct (files w !! Auth.auth_token_file (Auth.platform_name b));
    [discriminate|].
  destruct (truthy (environ w !! Credentials.env_var b)); [discriminate|].
  auto.
Qed.

(** X12.  [deployx auth status] against what the platform classes
    resolve.  For Vercel and Railway, [Not configured] means that
    [_get_token] finds no usable token.  For Netlify and GitHub it does
    not: the Netlify check never asks the command-line tool, whose token
    the platform uses, and the GitHub check looks for
    [.deployx_github_token] while the platform reads [.deployx_token]. *)
Theorem auth_status_and_token :
  (forall b user w,
      b = Vercel \/ b = Railway ->
      (AuthCommand.check_auth b user w).1.1 = false ->
      truthy (Credentials._get_token b w) = false) /\
  (forall user w t,
      Credentials.cli_source Netlify w = Some t ->
      files w !! ".deployx_netlify_token" = None ->
      truthy (environ w !! "NETLIFY_TOKEN") = false ->
      (AuthCommand.check_auth Netlify user w).1.1 = false /\
      Credentials._get_token Netlify w = Some t /\ truthy (Some t) = true) /\
  (forall user w t,
      cli_available w GitHub = false ->
      Credentials.file_source GitHub w = Some t ->
      files w !! ".deployx_github_token" = None ->
      truthy (environ w !! "GITHUB_TOKEN") = false ->
      (AuthCommand.check_auth GitHub user w).1.1 = false /\
      Credentials._get_token GitHub w = Some t /\ truthy (Some t) = true).
Proof.
  split; [|split].
  - intros b user w Hb Hc.
    assert (Hcli : cli_available w b = false /\
                   (AuthCommand.check_file_and_env b w).1.1 = false).
    { destruct Hb as [-> | ->]; cbn [AuthCommand.check_auth] in Hc;
        unfold AuthCommand._check_vercel_auth, AuthCommand._check_railway_auth,
          AuthCommand.check_with_cli in Hc;
        match type of Hc with
        | context [cli_available w ?x] => destruct (cli_available w x)
        end; try discriminate; auto. }
    destruct Hcli as [Hcli Hfe].
    apply check_file_and_env_false in Hfe as [Hfile Henv].
    rewrite <- (same_token_file_except_github b) in Hfile
      by (destruct Hb as [-> | ->]; discriminate).
    unfold Credentials._get_token, Credentials.get_token_from,
      Credentials.read_token_file.
    now rewrite Hcli, Hfile.
  - intros user w t Hcli Hfile Henv.
    split; [|split].
    + cbn [AuthCommand.check_auth].
      unfold AuthCommand._check_netlify_auth, AuthCommand.check_file_and_env,
        AuthCommand.path_exists.
      cbn [Auth.platform_name Credentials.env_var].
      change (Auth.auth_token_file "netlify") with ".deployx_netlify_token".
      now rewrite Hfile, Henv.
    + now rewrite get_token_cases, Hcli.
    + exact (cli_source_truthy _ _ _ Hcli).
  - intros user w t Hcli Hsrc Hfile Henv.
    split; [|split].
    + cbn [AuthCommand.check_auth].
      unfold AuthCommand._check_github_auth, AuthCommand.check_with_cli,
        AuthCommand.check_file_and_env, AuthCommand.path_exists.
      cbn [Auth.platform_name Credentials.env_var].
      change (Auth.auth_token_file "github") with ".deployx_github_token".
      now rewrite Hcli, Hfile, Henv.
    + rewrite get_token_cases, Hsrc. unfold Credentials.cli_source.
      now rewrite Hcli.
    + exact (file_source_truthy _ _ _ Hsrc).
Qed.

Lemma auth_status_and_token_witness :
  truthy (Credentials._get_token Vercel no_sources) = false.
Proof.
  destruct auth_status_and_token as [Hv _].
  apply (Hv Vercel None no_sources); [now left | reflexivity].
Defined.
Lemma vercel_validation_by_token `{utils_errors} env w1 w2 self :
  Credentials._get_token Vercel w1 = Credentials._get_token Vercel w2 ->
  getcwd w1 = getcwd w2 ->
  VercelPlatform.validate_credentials env w1 self
  = VercelPlatform.validate_credentials env w2 self.
Proof.
  intros Htok Hcwd.
  unfold VercelPlatform.validate_credentials, Retry.retry_with_backoff.
  apply attempt_ext. intros x.
  unfold VercelPlatform.validate_credentials_body,
    VercelPlatform.auto_create_block.
  now rewrite Htok, Hcwd.
Qed.

Lemma railway_validation_by_token `{utils_errors} env w1 w2 self :
  Credentials._get_token Railway w1 = Credentials._get_token Railway w2 ->
  getcwd w1 = getcwd w2 ->
  RailwayPlatform.validate_credentials env w1 self
  = RailwayPlatform.validate_credentials env w2 self.
Proof.
  intros Htok Hcwd.
  unfold RailwayPlatform.validate_credentials, Retry.retry_with_backoff.
  apply attempt_ext. intros x.
  unfold RailwayPlatform.validate_credentials_body,
    RailwayPlatform.auto_create_block.
  now rewrite Htok, Hcwd.
Qed.

Lemma written_keeps_cli (b : backend) (w : world) (name content c : string) :
  Credentials.cli_source b w = Some c ->
  Credentials._get_token b (AuthCommand.written w name content) = Some c.
Proof.
  intros Hcli. rewrite get_token_cases.
  change (Credentials.cli_source b (AuthCommand.written w name content))
    with (Credentials.cli_source b w).
  now rewrite Hcli.
Qed.

Lemma test_by_cli_token `{utils_errors} env (b : backend) (w : world)
      (c name1 name2 t1 t2 : string) :
  b <> Netlify ->
  Credentials.cli_source b w = Some c ->
  AuthCommand._test_platform_token env b t1 (AuthCommand.written w name1 t1)
  = AuthCommand._test_platform_token env b t2 (AuthCommand.written w name2 t2).
Proof.
  intros Hb Hcli.
  pose proof (written_keeps_cli b w name1 t1 c Hcli) as H1.
  pose proof (written_keeps_cli b w name2 t2 c Hcli) as H2.
  destruct b; [| congruence | |]; cbn [AuthCommand._test_platform_token].
  - unfold GitHubPlatform.init. rewrite H1, H2.
    now rewrite (github_validation_ignores_sources _
                   (AuthCommand.written w name1 t1)
                   (AuthCommand.written w name2 t2)).
  - unfold VercelPlatform.init. rewrite H1, H2.
    now rewrite (vercel_validation_by_token _
                   (AuthCommand.written w name1 t1)
                   (AuthCommand.written w name2 t2))
      by (rewrite ?H1, ?H2; reflexivity).
  - unfold RailwayPlatform.init. rewrite H1, H2.
    now rewrite (railway_validation_by_token _
                   (AuthCommand.written w name1 t1)
                   (AuthCommand.written w name2 t2))
      by (rewrite ?H1, ?H2; reflexivity).
Qed.

Lemma setup_verdict `{utils_errors} env (b : backend) (pasted : string) (w : world) :
  strip pasted <> "" ->
  AuthCommand.setup env b pasted w
  = let name := Auth.auth_token_file (Auth.platform_name b) in
    let fs' := <[name := Text (strip pasted)]> (files w) in
    if AuthCommand._test_platform_token env b (strip pasted)
         (AuthCommand.written w name (strip pasted))
    then (true, fs') else (false, delete name fs').
Proof.
  intros Hne. unfold AuthCommand.setup, Auth._setup_platform_auth.
  assert (truthy (Some (strip pasted)) = true) as ->
      by (destruct (strip pasted); [congruence | reflexivity]).
  reflexivity.
Qed.

(** X13.  Which token [deployx auth setup] tests.  For GitHub, Vercel
    and Railway the test builds the platform class, which resolves its
    token itself, the command-line tool first: when the tool has a token,
    every pasted token gets the same verdict, an accepted one is stored as
    pasted, and a rejected one leaves no token file, not even one that was
    there before.  For Netlify the pasted token itself is sent. *)
Theorem setup_tests_resolved_token `{utils_errors}
        (env : AuthCommand.test_env) (b : backend) (w : world)
        (c pasted1 pasted2 : string) :
  strip pasted1 <> "" ->
  strip pasted2 <> "" ->
  let name := Auth.auth_token_file (Auth.platform_name b) in
  (b <> Netlify ->
   Credentials.cli_source b w = Some c ->
   (AuthCommand.setup env b pasted1 w).1 = (AuthCommand.setup env b pasted2 w).1) /\
  (b = Netlify ->
   (AuthCommand.setup env b pasted1 w).1
   = match AuthCommand.netlify_user env (strip pasted1) with
     | Return code => (code =? 200)%Z
     | Raise _ => false
     end) /\
  ((AuthCommand.setup env b pasted1 w).1 = true ->
   (AuthCommand.setup env b pasted1 w).2 !! name = Some (Text (strip pasted1))) /\
  ((AuthCommand.setup env b pasted1 w).1 = false ->
   (AuthCommand.setup env b pasted1 w).2 !! name = None).
Proof.
  intros Hne1 Hne2 name.
  rewrite !setup_verdict by assumption. cbv zeta. fold name.
  split; [|split; [|split]].
  - intros Hb Hcli.
    rewrite (test_by_cli_token env b w c name name (strip pasted1) (strip pasted2))
      by assumption.
    now destruct (AuthCommand._test_platform_token env b (strip pasted2) _).
  - intros ->. cbn [AuthCommand._test_platform_token].
    now destruct (AuthCommand.netlify_user env (strip pasted1)) as [code|e];
      [destruct (code =? 200)%Z|].
  - destruct (AuthCommand._test_platform_token env b (strip pasted1) _);
      cbn [fst snd]; [intros _ | discriminate].
    apply lookup_insert_eq.
  - destruct (AuthCommand._test_platform_token env b (strip pasted1) _);
      cbn [fst snd]; [discriminate | intros _].
    apply lookup_delete_eq.
Qed.
Lemma setup_tests_resolved_token_witness :
  (@AuthCommand.setup sample_errors accepts_cli_token Vercel
     "anything at all" all_sources).1
  = (@AuthCommand.setup sample_errors accepts_cli_token Vercel
       "cli-token" all_sources).1.
Proof.
  destruct (@setup_tests_resolved_token sample_errors accepts_cli_token Vercel
              all_sources "cli-token" "anything at all" "cli-token")
    as (Hsame & _); [discriminate | discriminate |].
  apply Hsame; [discriminate | reflexivity].
Defined.

(** ** [auto_creation.py]: the names that are proposed *)

Section Names.
Import SuggestedName PyStr.

Lemma clean_cons (c : ascii) (s : string) :
  clean (String c s)
  = if keep (fold_char c) then String (fold_char c) (clean s) else clean s.
Proof. reflexivity. Qed.

Lemma kept_char_is_name_char (c : ascii) :
  keep (fold_char c) = true -> name_char (fold_char c) = true.
Proof.
  destruct c as [b0 b1 b2 b3 b4 b5 b6 b7].
  destruct b0, b1, b2, b3, b4, b5, b6, b7; vm_compute; auto.
Qed.

Lemma name_char_is_kept (c : ascii) :
  name_char c = true -> fold_char c = c /\ keep c = true.
Proof.
  destruct c as [b0 b1 b2 b3 b4 b5 b6 b7].
  destruct b0, b1, b2, b3, b4, b5, b6, b7; vm_compute; auto; discriminate.
Qed.

Lemma clean_name_chars (name : string) :
  forallb_str name_char (clean name) = true.
Proof.
  induction name as [|c s IH]; [reflexivity|].
  rewrite clean_cons. destruct (keep (fold_char c)) eqn:E; [|exact IH].
  cbn [forallb_str]. now rewrite (kept_char_is_name_char c E), IH.
Qed.

Lemma clean_fixed (r : string) :
  forallb_str name_char r = true -> clean r = r.
Proof.
  induction r as [|c s IH]; [reflexivity|]. cbn [forallb_str].
  intros [Hc Hs]%andb_true_iff. rewrite clean_cons.
  destruct (name_char_is_kept c Hc) as [-> ->]. now rewrite IH.
Qed.

Lemma lstrip_char_all (p : ascii -> bool) (x : ascii) (s : string) :
  forallb_str p s = true -> forallb_str p (lstrip_char x s) = true.
Proof.
  induction s as [|c s IH]; [reflexivity|]. cbn [forallb_str lstrip_char].
  intros [Hc Hs]%andb_true_iff.
  destruct (Ascii.eqb c x); [auto|]. cbn [forallb_str]. now rewrite Hc, Hs.
Qed.

Lemma rstrip_char_all (p : ascii -> bool) (x : ascii) (s : string) :
  forallb_str p s = true -> forallb_str p (rstrip_char x s) = true.
Proof.
  induction s as [|c s IH]; [reflexivity|]. cbn [forallb_str rstrip_char].
  intros [Hc Hs]%andb_true_iff. specialize (IH Hs).
  destruct (rstrip_char x s) as [|d r].
  - destruct (Ascii.eqb c x); [reflexivity|]. cbn [forallb_str].
    now rewrite Hc.
  - cbn [forallb_str] in *. now rewrite Hc, IH.
Qed.

Lemma lstrip_char_head (x : ascii) (s : string) :
  lstrip_char x s = EmptyString \/
  exists c t, lstrip_char x s = String c t /\ Ascii.eqb c x = false.
Proof.
  induction s as [|c s IH]; [now left|]. cbn [lstrip_char].
  destruct (Ascii.eqb c x) eqn:E; [exact IH|]. right. eauto.
Qed.

Lemma rstrip_char_head (x c : ascii) (t : string) :
  Ascii.eqb c x = false -> exists r, rstrip_char x (String c t) = String c r.
Proof.
  intros E. cbn [rstrip_char]. destruct (rstrip_char x t); [rewrite E|]; eauto.
Qed.

Lemma strip_suffix_cons (suffix : string) (c : ascii) (s : string) :
  strip_suffix suffix (String c s)
  = if eqb_str (String c s) suffix then Some EmptyString
    else match strip_suffix suffix s with
         | Some p => Some (String c p)
         | None => None
         end.
Proof. reflexivity. Qed.

Lemma rstrip_char_no_suffix (x : ascii) (s : string) :
  strip_suffix (String x EmptyString) (rstrip_char x s) = None.
Proof.
  induction s as [|c s IH]; [reflexivity|]. cbn [rstrip_char].
  destruct (rstrip_char x s) as [|d r] eqn:Er.
  - destruct (Ascii.eqb c x) eqn:E; [reflexivity|].
    rewrite strip_suffix_cons. unfold eqb_str at 1.
    rewrite bool_decide_eq_false_2.
    + reflexivity.
    + intros [= ->]. now rewrite Ascii.eqb_refl in E.
  - rewrite strip_suffix_cons. unfold eqb_str at 1.
    rewrite bool_decide_eq_false_2 by discriminate.
    now rewrite IH.
Qed.

Lemma lstrip_char_fixed (x : ascii) (s : string) :
  prefixb (String x EmptyString) s = false -> lstrip_char x s = s.
Proof.
  destruct s as [|c s]; [reflexivity|]. cbn [prefixb lstrip_char].
  rewrite andb_true_r, Ascii.eqb_sym. now intros ->.
Qed.

Lemma rstrip_char_fixed (x : ascii) (s : string) :
  strip_suffix (String x EmptyString) s = None -> rstrip_char x s = s.
Proof.
  induction s as [|c s IH]; [reflexivity|].
  rewrite strip_suffix_cons. cbn [rstrip_char].
  unfold eqb_str at 1. case_bool_decide as E; [discriminate|].
  destruct (strip_suffix (String x EmptyString) s) eqn:Es; [discriminate|].
  intros _. rewrite IH by reflexivity.
  destruct s as [|d s]; [|reflexivity].
  destruct (Ascii.eqb c x) eqn:Ec; [|reflexivity].
  apply Ascii.eqb_eq in Ec as ->. congruence.
Qed.

Lemma strip_char_well_formed (s : string) :
  forallb_str name_char s = true ->
  strip_char "-" s <> EmptyString ->
  well_formed_name (strip_char "-" s) = true.
Proof.
  intros Hs Hne. unfold well_formed_name.
  rewrite bool_decide_eq_true_2 by apply rstrip_char_no_suffix.
  unfold strip_char in *.
  rewrite rstrip_char_all by now apply lstrip_char_all.
  unfold eqb_str. rewrite bool_decide_eq_false_2 by exact Hne.
  destruct (lstrip_char_head "-" s) as [E|(c & t & E & Ec)].
  - rewrite E in Hne. now contradiction Hne.
  - rewrite E. destruct (rstrip_char_head "-" c t Ec) as [r ->].
    cbn [prefixb]. rewrite Ascii.eqb_sym, Ec. reflexivity.
Qed.

Lemma trimmed_well_formed (name dflt : string) :
  well_formed_name dflt = true ->
  well_formed_name (trimmed name dflt) = true.
Proof.
  intros Hd. unfold trimmed, or_default.
  destruct (strip_char "-" (clean name)) as [|c r] eqn:E; [exact Hd|].
  cbn [truthy]. rewrite <- E. apply strip_char_well_formed.
  - apply clean_name_chars.
  - now rewrite E.
Qed.

Lemma well_formed_fixed (r dflt : string) :
  well_formed_name r = true -> trimmed r dflt = r.
Proof.
  unfold well_formed_name.
  intros [[[Hne Hall]%andb_true_iff Hpre]%andb_true_iff Hsuf]%andb_true_iff.
  apply bool_decide_eq_true in Hsuf. apply negb_true_iff in Hpre, Hne.
  unfold trimmed, or_default. rewrite (clean_fixed r Hall).
  unfold strip_char. rewrite lstrip_char_fixed, rstrip_char_fixed by assumption.
  destruct r; [discriminate|reflexivity].
Qed.

End Names.
(** X14.  The names proposed by the Netlify and the Railway
    [_generate_suggested_name] are well formed, for every ASCII text
    given: not empty, made of lower-case letters, digits and hyphens, no
    hyphen at either end; and a well-formed name is proposed as it is, so
    that cleaning twice, as the Railway prompt does, changes nothing.
    The Vercel version only filters: its names have the right characters,
    and the Netlify name is the Vercel name trimmed, or [my-site]. *)
Theorem suggested_name_is_well_formed (name : string) :
  PyStr.is_ascii name = true ->
  well_formed_name (NetlifyAutoCreation._generate_suggested_name name) = true /\
  well_formed_name (RailwayAutoCreation._generate_suggested_name name) = true /\
  NetlifyAutoCreation._generate_suggested_name
    (NetlifyAutoCreation._generate_suggested_name name)
  = NetlifyAutoCreation._generate_suggested_name name /\
  RailwayAutoCreation._generate_suggested_name
    (RailwayAutoCreation._generate_suggested_name name)
  = RailwayAutoCreation._generate_suggested_name name /\
  PyStr.forallb_str SuggestedName.name_char
    (VercelAutoCreation._generate_suggested_name name) = true /\
  NetlifyAutoCreation._generate_suggested_name name
  = SuggestedName.or_default
      (PyStr.strip_char "-" (VercelAutoCreation._generate_suggested_name name))
      "my-site".
Proof.
  intros _.
  unfold NetlifyAutoCreation._generate_suggested_name,
    RailwayAutoCreation._generate_suggested_name,
    VercelAutoCreation._generate_suggested_name.
  assert (Hn : well_formed_name (SuggestedName.trimmed name "my-site") = true)
    by now apply trimmed_well_formed.
  assert (Hr : well_formed_name (SuggestedName.trimmed name "my-project") = true)
    by now apply trimmed_well_formed.
  repeat split; try assumption.
  - now apply well_formed_fixed.
  - now apply well_formed_fixed.
  - apply clean_name_chars.
Qed.

Lemma suggested_name_is_well_formed_witness :
  well_formed_name (NetlifyAutoCreation._generate_suggested_name "My_Site (v2) ")
  = true.
Proof.
  apply (suggested_name_is_well_formed "My_Site (v2) "). reflexivity.
Defined.

Lemma prompt_well_formed (suggested : string) (line : option string)
      (final_name : string) :
  well_formed_name suggested = true ->
  NetlifyAutoCreation._prompt_for_site_name suggested line = Some final_name ->
  well_formed_name final_name = true.
Proof.
  intros Hs. unfold NetlifyAutoCreation._prompt_for_site_name.
  destruct line as [text|]; [|discriminate].
  destruct (negb (truthy (Some (strip text)))); intros [= <-]; [exact Hs|].
  now apply trimmed_well_formed.
Qed.

(** X15.  [NetlifyAutoCreation.auto_create_site], for ASCII texts:
    a site is asked for at most once per call, and under a well-formed
    name; nothing is asked for when [.netlify] or [netlify.toml] exists
    (the call then reports success without a site id) or when the prompt
    is left with Ctrl-C; and a site id is returned only if a site was
    asked for. *)
Theorem netlify_site_is_created_once (env : NetlifyAutoCreation.site_env)
        (site_name : string) (custom_domain : option string) :
  PyStr.is_ascii site_name = true ->
  (forall text, NetlifyAutoCreation.typed env = Return (Some text) ->
                PyStr.is_ascii text = true) ->
  let '(r, requests) :=
    NetlifyAutoCreation.auto_create_site env site_name custom_domain in
  (forall name, Some name ∈ List.map created_name requests ->
                well_formed_name name = true) /\
  List.length (omap created_name requests) <= 1 /\
  (forall reason,
      NetlifyAutoCreation.should_create_site env = Return (false, reason) ->
      r = (true, reason, None) /\ requests = []) /\
  (NetlifyAutoCreation.typed env = Return None ->
   requests = [] /\
   forall reason, NetlifyAutoCreation.should_create_site env = Return (true, reason) ->
                  r.1.1 = false) /\
  (r.2 <> None -> omap created_name requests <> []).
Proof.
  intros _ _.
  assert (Hwf : forall line final_name,
             NetlifyAutoCreation._prompt_for_site_name
               (NetlifyAutoCreation._generate_suggested_name site_name) line
             = Some final_name -> well_formed_name final_name = true).
  { intros line final_name. apply prompt_well_formed.
    now apply trimmed_well_formed. }
  unfold NetlifyAutoCreation.auto_create_site,
    NetlifyAutoCreation._create_via_cli, NetlifyAutoCreation._create_via_api.
  repeat case_match; simplify_eq; cbn [fst snd List.map omap list_omap created_name length];
    (split; [intros name Hin|split; [lia|split; [|split]]]);
    try (intros; split; congruence);
    try congruence;
    try (intros; repeat split; solve [reflexivity | congruence]).
  all: try (rewrite ?elem_of_cons, ?elem_of_nil in Hin;
            intuition (simplify_eq; eauto)).
  all: try (intros [= ->]; discriminate).
Qed.

Lemma netlify_site_is_created_once_witness :
  let '(r, requests) :=
    NetlifyAutoCreation.auto_create_site first_site "My Site" None in
  forall name, Some name ∈ List.map created_name requests ->
               well_formed_name name = true.
Proof.
  pose proof (netlify_site_is_created_once first_site "My Site" None) as Hw.
  destruct (NetlifyAutoCreation.auto_create_site first_site "My Site" None)
    as [r requests].
  apply Hw; [reflexivity|]. intros text [= <-]. reflexivity.
Defined.

(** ** [cli_integration.py]: what is read from the output *)

Lemma split_str_second (a : ascii) (sep' s : string) :
  contains (String a sep') s = true ->
  exists text, PyStr.item (PyStr.split_str (String a sep') s) 1 = Some text.
Proof.
  unfold PyStr.split_str, PyStr.item.
  induction s as [|c s IH]; rewrite contains_eq; [discriminate|].
  cbn [PyStr.split_from].
  destruct (prefixb (String a sep') (String c s)).
  - intros _.
    pose proof (split_from_nonempty (String a sep')
                  (String.length (String a sep') - 1) s) as Hne.
    destruct (PyStr.split_from (String a sep')
                (String.length (String a sep') - 1) s) as [|h t];
      [contradiction | now exists h].
  - cbn [orb]. intros Hc. destruct (IH Hc) as [text Ht].
    destruct (PyStr.split_from (String a sep') 0 s) as [|h t];
      [discriminate | now exists text].
Qed.

Lemma netlify_find_url_returns (lines : list string) :
  exists url, NetlifyCLIIntegration.find_url lines = Return url /\
              forall u, url = Some u -> strip u = u.
Proof.
  induction lines as [|line rest IH]; cbn [NetlifyCLIIntegration.find_url].
  - exists None. split; [reflexivity | discriminate].
  - destruct (contains "Website URL:" line) eqn:E.
    + destruct (split_str_second _ _ _ E) as [text ->].
      eexists. split; [reflexivity|]. intros u [= <-]. apply strip_idem.
    + destruct (contains "https://" line && contains "netlify.app" line);
        [|exact IH].
      eexists. split; [reflexivity|]. intros u [= <-]. apply strip_idem.
Qed.

Lemma netlify_find_site_id_returns (lines : list string) :
  exists site_id, NetlifyCLIIntegration.find_site_id lines = Return site_id /\
                  forall i, site_id = Some i -> strip i = i.
Proof.
  induction lines as [|line rest IH]; cbn [NetlifyCLIIntegration.find_site_id].
  - exists None. split; [reflexivity | discriminate].
  - destruct (contains "Site ID:" line) eqn:E; [|exact IH].
    destruct (split_str_second _ _ _ E) as [text ->].
    eexists. split; [reflexivity|]. intros u [= <-]. apply strip_idem.
Qed.

(** X16.  [NetlifyCLIIntegration.deploy_site] and [create_site] never
    raise and report success exactly when the program ran and ended with
    code 0: reading the address, or the site id, out of the output cannot
    fail.  A failure carries no address and no id; an address or an id,
    when there is one, has no white space around it. *)
Theorem netlify_cli_results (site_name : string) (run : outcome completed) :
  let '(ok, _, url) := NetlifyCLIIntegration.deploy_site run in
  let '(created, _, site_id) := NetlifyCLIIntegration.create_site site_name run in
  (ok = true <-> exists result, run = Return result /\ returncode result = 0%Z) /\
  (created = ok) /\
  (ok = false -> url = None /\ site_id = None) /\
  (forall u, url = Some u -> strip u = u) /\
  (forall i, site_id = Some i -> strip i = i).
Proof.
  unfold NetlifyCLIIntegration.deploy_site, NetlifyCLIIntegration.create_site.
  destruct run as [result|e].
  - destruct (returncode result =? 0)%Z eqn:Hrc.
    + destruct (netlify_find_url_returns (split "010" (stdout result)))
        as (url & -> & Hstrip).
      destruct (netlify_find_site_id_returns (split "010" (stdout result)))
        as (site_id & -> & Hstrip').
      apply Z.eqb_eq in Hrc.
      repeat split; eauto; discriminate.
    + apply Z.eqb_neq in Hrc.
      repeat split; try discriminate; auto.
      intros (result' & [= <-] & Hz). contradiction.
  - repeat split; try discriminate; auto.
    intros (result' & Hr & _). discriminate.
Qed.

(** X17.  Which text [deploy_site] takes for the address: the first
    line of the output that holds [Website URL:], or [https://] together
    with [netlify.app], decides.  If it holds [Website URL:], the address
    is what follows it, stripped; if not, the address is the whole line,
    stripped, with whatever label the line begins with. *)
Theorem netlify_cli_url_first_match (before after : list string) (line : string) :
  (forall l, l ∈ before ->
             contains "Website URL:" l = false /\
             contains "https://" l && contains "netlify.app" l = false) ->
  (forall label text,
      line = label +:+ "Website URL:" +:+ text ->
      count_char "W" label = 0 ->
      contains "Website URL:" text = false ->
      NetlifyCLIIntegration.find_url (before ++ line :: after)
      = Return (Some (strip text))) /\
  (contains "Website URL:" line = false ->
   contains "https://" line && contains "netlify.app" line = true ->
   NetlifyCLIIntegration.find_url (before ++ line :: after)
   = Return (Some (strip line))).
Proof.
  intros Hbefore.
  assert (Hskip : NetlifyCLIIntegration.find_url (before ++ line :: after)
                  = NetlifyCLIIntegration.find_url (line :: after)).
  { induction before as [|l before IH]; [reflexivity|].
    cbn [app NetlifyCLIIntegration.find_url].
    destruct (Hbefore l ltac:(left)) as [-> ->].
    apply IH. intros l' Hl'. apply Hbefore. now right. }
  rewrite Hskip. cbn [NetlifyCLIIntegration.find_url]. split.
  - intros label text -> Hlabel Htext.
    rewrite contains_mid.
    rewrite (split_str_once "W" "ebsite URL:" label text Hlabel Htext).
    reflexivity.
  - intros -> ->. reflexivity.
Qed.

Lemma netlify_cli_url_first_match_witness :
  NetlifyCLIIntegration.find_url
    ["Deploy is live!";
     "Unique deploy URL: https://65f--my-site.netlify.app";
     "Website URL:       https://my-site.netlify.app"]
  = Return (Some "Unique deploy URL: https://65f--my-site.netlify.app").
Proof.
  destruct (netlify_cli_url_first_match
              ["Deploy is live!"]
              ["Website URL:       https://my-site.netlify.app"]
              "Unique deploy URL: https://65f--my-site.netlify.app")
    as [_ Hline].
  - intros l Hl. apply list_elem_of_singleton in Hl as ->. now split.
  - now apply Hline.
Defined.

Lemma contains_lstrip (a : ascii) (sub' s : string) :
  isspace a = false ->
  contains (String a sub') (lstrip s) = contains (String a sub') s.
Proof.
  intros Ha. induction s as [|c s IH]; [reflexivity|]. cbn [lstrip].
  destruct (isspace c) eqn:Ec; [|reflexivity].
  rewrite (contains_eq _ (String c s)), prefixb_head, IH; [reflexivity|].
  intros ->. congruence.
Qed.

Lemma prefixb_rstrip (sub s : string) :
  (forall p z, sub = p +:+ String z EmptyString -> isspace z = false) ->
  sub <> EmptyString ->
  prefixb sub (rstrip s) = prefixb sub s.
Proof.
  revert sub; induction s as [|c s IH]; intros sub Hlast Hne; [reflexivity|].
  destruct sub as [|a sub']; [contradiction|].
  cbn [rstrip]. destruct sub' as [|b sub''].
  - assert (Ha : isspace a = false) by (apply (Hlast EmptyString a); reflexivity).
    destruct (rstrip s) as [|d r].
    + destruct (isspace c) eqn:Ec; cbn [prefixb]; [|now rewrite !andb_true_r].
      rewrite andb_true_r. destruct (Ascii.eqb_spec a c); [congruence|reflexivity].
    + cbn [prefixb]. now rewrite !andb_true_r.
  - assert (IH' : prefixb (String b sub'') (rstrip s) = prefixb (String b sub'') s).
    { apply IH; [|discriminate]. intros p z Hp. apply (Hlast (String a p) z).
      now rewrite Hp. }
    destruct (rstrip s) as [|d r] eqn:Er.
    + cbn [prefixb] in IH'. 
      destruct (isspace c); cbn [prefixb]; rewrite <- IH';
        now rewrite ?andb_false_r.
    + change (prefixb (String a (String b sub'')) (String c (String d r)))
        with (Ascii.eqb a c && prefixb (String b sub'') (String d r)).
      rewrite IH'. reflexivity.
Qed.

Lemma contains_rstrip (sub s : string) :
  (forall p z, sub = p +:+ String z EmptyString -> isspace z = false) ->
  sub <> EmptyString ->
  contains sub (rstrip s) = contains sub s.
Proof.
  intros Hlast Hne. induction s as [|c s IH]; [reflexivity|].
  rewrite (contains_eq sub (String c s)), <- IH,
    <- (prefixb_rstrip sub (String c s) Hlast Hne).
  cbn [rstrip]. destruct (rstrip s) as [|d r].
  - destruct (isspace c).
    + rewrite contains_eq. now destruct (prefixb sub EmptyString).
    + rewrite (contains_eq sub (String c EmptyString)). reflexivity.
  - rewrite (contains_eq sub (String c (String d r))). reflexivity.
Qed.

Lemma contains_strip (a : ascii) (sub' s : string) :
  isspace a = false ->
  (forall p z, String a sub' = p +:+ String z EmptyString -> isspace z = false) ->
  contains (String a sub') (strip s) = contains (String a sub') s.
Proof.
  intros Ha Hlast. unfold strip.
  rewrite contains_rstrip by (assumption || discriminate).
  now apply contains_lstrip.
Qed.

Lemma last_char_of (lit : string) (z0 : ascii) (p0 : string) :
  lit = p0 +:+ String z0 EmptyString ->
  forall p z, lit = p +:+ String z EmptyString -> z = z0.
Proof.
  intros -> p z E.
  assert (Hlen : String.length p = String.length p0).
  { apply (f_equal String.length) in E. rewrite !str_length_app in E.
    simpl in E. lia. }
  revert p E Hlen. induction p0 as [|c p0 IH]; intros [|d p] E Hlen;
    try discriminate.
  - now injection E.
  - rewrite !str_app_cons in E. injection E as _ E.
    apply (IH p E). now injection Hlen.
Qed.

Lemma find_hosted_url_spec (a z : ascii) (middle : string)
      (lines : list string) (u : string) :
  isspace a = false ->
  isspace z = false ->
  let host := String a middle +:+ String z EmptyString in
  find_hosted_url host lines = Some u ->
  strip u = u /\ contains "https://" u = true /\ contains host u = true /\
  exists line, line ∈ lines /\ u = strip line.
Proof.
  intros Ha Hz host.
  induction lines as [|line rest IH]; cbn [find_hosted_url]; [discriminate|].
  destruct (contains "https://" line && contains host line) eqn:E.
  - intros [= <-]. apply andb_true_iff in E as [E1 E2].
    split; [apply strip_idem|]. unfold host in *.
    rewrite str_app_cons in *.
    rewrite !contains_strip; try reflexivity; try assumption.
    + repeat split; try assumption. exists line. split; [now left | reflexivity].
    + intros p z' Hp. rewrite <- str_app_cons in Hp.
      now rewrite (last_char_of _ z (String a middle) eq_refl p z' Hp).
    + intros p z' Hp.
      now rewrite (last_char_of "https://" "/" "https:/" eq_refl p z' Hp).
  - intros Hu. destruct (IH Hu) as (H1 & H2 & H3 & line' & Hin & ->).
    repeat split; try assumption. exists line'. split; [now right | reflexivity].
Qed.

(** X18.  [deploy_project] of [VercelCLIIntegration] and of
    [RailwayCLIIntegration] reports success exactly when the program
    ran and ended with code 0; a failure carries no address; an address,
    when there is one, is a line of the stripped output, stripped itself,
    and holds [https://] and the host name of the service. *)
Theorem cli_deploy_project_result (run : outcome completed) :
  let shape (host : string) (r : bool * string * option string) :=
    let '(ok, _, url) := r in
    (ok = true <-> exists result, run = Return result /\ returncode result = 0%Z) /\
    (ok = false -> url = None) /\
    (forall u, url = Some u ->
               strip u = u /\
               contains "https://" u = true /\ contains host u = true /\
               exists result line,
                 run = Return result /\
                 line ∈ split "010" (strip (stdout result)) /\ u = strip line) in
  shape "vercel.app" (VercelCLIIntegration.deploy_project run) /\
  shape "railway.app" (RailwayCLIIntegration.deploy_project run).
Proof.
  assert (Hshape : forall (a z : ascii) (middle : string),
             isspace a = false -> isspace z = false ->
             let host := String a middle +:+ String z EmptyString in
             let '(ok, _, url) := deploy_with_host host run in
             (ok = true <->
              exists result, run = Return result /\ returncode result = 0%Z) /\
             (ok = false -> url = None) /\
             (forall u, url = Some u ->
                        strip u = u /\
                        contains "https://" u = true /\ contains host u = true /\
                        exists result line,
                          run = Return result /\
                          line ∈ split "010" (strip (stdout result)) /\
                          u = strip line)).
  { intros a z middle Ha Hz host. unfold deploy_with_host.
    destruct run as [result|e].
    - destruct (returncode result =? 0)%Z eqn:Hrc.
      + apply Z.eqb_eq in Hrc.
        split; [split; eauto|]. split; [discriminate|].
        intros u Hu.
        destruct (find_hosted_url_spec a z middle _ _ Ha Hz Hu)
          as (H1 & H2 & H3 & line & Hin & ->).
        repeat split; try assumption. eauto.
      + apply Z.eqb_neq in Hrc.
        repeat split; try discriminate; auto.
        intros (result' & [= <-] & Hz'). contradiction.
    - repeat split; try discriminate; auto.
      intros (result' & Hr & _). discriminate. }
  cbv zeta. split.
  - exact (Hshape "v"%char "p"%char "ercel.ap" eq_refl eq_refl).
  - exact (Hshape "r"%char "p"%char "ailway.ap" eq_refl eq_refl).
Qed.

(** ** [env_management.py]: setting secrets *)

Lemma set_each_spec `{utils_errors} (api : GitHubEnvManagement.secrets_api)
      (public_key : string) (items : list (string * string))
      (n : nat) (written : list string) :
  let ok := fun kv : string * string =>
              GitHubEnvManagement.put_secret api kv.1 kv.2 public_key in
  GitHubEnvManagement.set_each api public_key items n written
  = (n + List.length (List.filter ok items),
     (written ++ List.map fst (List.filter ok items))%list).
Proof.
  cbv zeta. revert n written.
  induction items as [|[key value] rest IH]; intros n written;
    cbn [GitHubEnvManagement.set_each List.filter].
  - now rewrite Nat.add_0_r, app_nil_r.
  - cbn [fst snd].
    destruct (GitHubEnvManagement.put_secret api key value public_key).
    + rewrite IH. cbn [length List.map fst]. rewrite <- app_assoc.
      f_equal. lia.
    + apply IH.
Qed.

Lemma filter_all_length {A} (p : A -> bool) (l : list A) :
  List.length (List.filter p l) = List.length l <-> forall x, x ∈ l -> p x = true.
Proof.
  induction l as [|a l IH]; cbn [List.filter length].
  - split; [intros _ x Hx; inversion Hx | reflexivity].
  - pose proof (List.filter_length_le p l) as Hle.
    destruct (p a) eqn:E; cbn [length].
    + split.
      * intros [= Hl]. intros x [->|Hx]%elem_of_cons; [exact E|].
        now apply IH.
      * intros Hall. f_equal. apply IH. intros x Hx. apply Hall. now right.
    + split; [lia|]. intros Hall. specialize (Hall a ltac:(left)). congruence.
Qed.

(** X19.  [GitHubEnvManagement.set_environment_variables]: once the
    public key has been fetched, the secrets written are exactly the
    variables whose turn went through, in their order, whatever the
    result; the result is [True] exactly when there was nothing to set or
    the key was fetched and every turn went through.  A [False] result
    undoes nothing: the secrets written before a failure stay. *)
Theorem secrets_set_one_by_one `{utils_errors}
        (api : GitHubEnvManagement.secrets_api) (self : GitHubEnvManagement.t)
        (env_vars : list (string * string)) :
  let '((ok, _), written, _) :=
    GitHubEnvManagement.set_environment_variables api self env_vars in
  (forall public_key,
      env_vars <> [] ->
      (GitHubEnvManagement.repo_obj api self).1 = Return tt ->
      GitHubEnvManagement.get_public_key api = Return public_key ->
      written = List.map fst
                  (List.filter
                     (fun kv => GitHubEnvManagement.put_secret api kv.1 kv.2 public_key)
                     env_vars)) /\
  (ok = true <->
   env_vars = [] \/
   exists public_key,
     (GitHubEnvManagement.repo_obj api self).1 = Return tt /\
     GitHubEnvManagement.get_public_key api = Return public_key /\
     forall kv, kv ∈ env_vars ->
                GitHubEnvManagement.put_secret api kv.1 kv.2 public_key = true) /\
  (ok = true -> written = List.map fst env_vars) /\
  (forall key, key ∈ written -> key ∈ List.map fst env_vars).
Proof.
  unfold GitHubEnvManagement.set_environment_variables.
  destruct env_vars as [|kv0 rest] eqn:Hv.
  { repeat split; auto; try contradiction. }
  rewrite <- Hv. assert (Hne : env_vars <> []) by (rewrite Hv; discriminate).
  clear Hv.
  destruct (GitHubEnvManagement.repo_obj api self) as [[[]|e] self'] eqn:Hrepo.
  2:{ assert (Hf : (GitHubEnvManagement.set_failed e).1 = false)
        by (destruct e; reflexivity).
      destruct (GitHubEnvManagement.set_failed e) as [ok msg]. cbn [fst] in Hf.
      subst ok. cbn [fst]. repeat split; try discriminate.
      - intros [?|(pk & ? & _)]; [contradiction|discriminate].
      - intros key Hk. inversion Hk. }
  destruct (GitHubEnvManagement.get_public_key api) as [pk|e] eqn:Hkey.
  2:{ assert (Hf : (GitHubEnvManagement.set_failed e).1 = false)
        by (destruct e; reflexivity).
      destruct (GitHubEnvManagement.set_failed e) as [ok msg]. cbn [fst] in Hf.
      subst ok. cbn [fst]. repeat split; try discriminate.
      - intros [?|(pk & _ & ? & _)]; [contradiction|discriminate].
      - intros key Hk. inversion Hk. }
  rewrite set_each_spec. cbn [fst app Nat.add].
  set (good := fun kv : string * string =>
                 GitHubEnvManagement.put_secret api kv.1 kv.2 pk).
  assert (Hsub : forall key, key ∈ List.map fst (List.filter good env_vars) ->
                             key ∈ List.map fst env_vars).
  { intros key (kv & -> & Hin)%list_elem_of_fmap.
    apply list_elem_of_In, List.filter_In in Hin as [Hin _].
    apply list_elem_of_In in Hin.
    apply list_elem_of_fmap. eauto. }
  destruct (Nat.eqb (length (List.filter good env_vars)) (length env_vars)) eqn:Hall.
  - apply Nat.eqb_eq in Hall.
    pose proof (proj1 (filter_all_length good env_vars) Hall) as Hgood.
    assert (Hid : List.filter good env_vars = env_vars).
    { clear -Hgood. induction env_vars as [|a l IH]; [reflexivity|].
      cbn [List.filter]. rewrite (Hgood a ltac:(left)). f_equal.
      apply IH. intros x Hx. apply Hgood. now right. }
    repeat split; auto.
    + intros pk' _ _ [= <-]. reflexivity.
    + intros _. right. exists pk. repeat split. exact Hgood.
    + now rewrite Hid.
  - apply Nat.eqb_neq in Hall.
    repeat split; auto; try discriminate.
    + intros pk' _ _ [= <-]. reflexivity.
    + intros [?|(pk' & _ & [= <-] & Hgood)]; [contradiction|].
      exfalso. apply Hall. now apply filter_all_length.
Qed.

Lemma secrets_set_one_by_one_witness :
  (@GitHubEnvManagement.set_environment_variables sample_errors picky_secrets
     {| GitHubEnvManagement.cached := false |}
     [("API_URL", "https://api"); ("BAD", "x"); ("MODE", "production")]).1.2
  = ["API_URL"; "MODE"].
Proof.
  pose proof (@secrets_set_one_by_one sample_errors picky_secrets
                {| GitHubEnvManagement.cached := false |}
                [("API_URL", "https://api"); ("BAD", "x"); ("MODE", "production")])
    as Hw.
  destruct (@GitHubEnvManagement.set_environment_variables sample_errors
              picky_secrets {| GitHubEnvManagement.cached := false |}
              [("API_URL", "https://api"); ("BAD", "x"); ("MODE", "production")])
    as [[[ok msg] written] self'].
  destruct Hw as [Hwritten _]. cbn [fst snd].
  apply (Hwritten "key"); [discriminate | reflexivity | reflexivity].
Defined.
(** X20.  Secrets through [GitHubPlatform.set_environment_variables]:
    on an object that has not been validated, no secret is written unless
    [validate_credentials] returns [True]; without a token the call
    returns [(False, "Invalid credentials")] and writes nothing. *)
Theorem secrets_need_valid_credentials `{utils_errors}
        (api : GitHubPlatform.github_api) (w : world)
        (secrets : GitHubEnvManagement.secrets_api)
        (self : GitHubPlatform.t) (em : GitHubEnvManagement.t)
        (env_vars : list (string * string)) :
  GitHubPlatform.env_management self = false ->
  let '(r, written, _) :=
    GitHubPlatformEnv.set_environment_variables api w secrets self em env_vars in
  (written <> [] ->
   exists message,
     (GitHubPlatform.validate_credentials api w self).1 = Return (true, message)) /\
  (truthy (GitHubPlatform.token self) = false ->
   r = Return (false, "Invalid credentials") /\ written = []).
Proof.
  intros Hem. unfold GitHubPlatformEnv.set_environment_variables. rewrite Hem.
  pose proof (github_no_token api w self) as Hno.
  destruct (GitHubPlatform.validate_credentials api w self)
    as [[[valid message]|e] self'] eqn:Hv; cbn [fst] in *.
  - destruct valid; cbn [negb].
    + destruct (GitHubPlatform.env_management self').
      * destruct (GitHubEnvManagement.set_environment_variables secrets _ env_vars)
          as [[r written] em'].
        split; [eauto|]. intros Ht. specialize (Hno Ht). discriminate.
      * split; [intros Hw; now contradiction Hw|].
        intros Ht. specialize (Hno Ht). discriminate.
    + split; [intros Hw; now contradiction Hw | auto].
  - split; [intros Hw; now contradiction Hw|].
    intros Ht. specialize (Hno Ht). discriminate.
Qed.

Lemma secrets_need_valid_credentials_witness :
  (@GitHubPlatformEnv.set_environment_variables sample_errors
     (AuthCommand.github_api accepts_cli_token) no_sources picky_secrets
     project_site {| GitHubEnvManagement.cached := false |}
     [("API_URL", "https://api")]).1.2 = [].
Proof.
  pose proof (@secrets_need_valid_credentials sample_errors
                (AuthCommand.github_api accepts_cli_token) no_sources
                picky_secrets project_site
                {| GitHubEnvManagement.cached := false |}
                [("API_URL", "https://api")] eq_refl) as Hw.
  destruct (@GitHubPlatformEnv.set_environment_variables sample_errors
              (AuthCommand.github_api accepts_cli_token) no_sources picky_secrets
              project_site {| GitHubEnvManagement.cached := false |}
              [("API_URL", "https://api")]) as [[r written] self'].
  destruct Hw as [_ Hw]. now apply Hw.
Defined.

(** ** [netlify/platform.py]: the result of a deployment *)

Lemma netlify_upload_url (net : NetlifyAPIIntegration.netlify_http)
      (token site_id : string) (ok : bool) (msg : string) (u : option string) :
  NetlifyAPIIntegration.upload net token site_id = Return (ok, msg, u) ->
  ok = false -> u = None.
Proof.
  unfold NetlifyAPIIntegration.upload, bind.
  repeat case_match; intros; simplify_eq; try reflexivity.
Qed.

Lemma netlify_api_deploy_url (net : NetlifyAPIIntegration.netlify_http)
      (token site_id build_path : string) (fs : NetlifyAPIIntegration.local_fs)
      (disk : gset string) :
  let '(ok, _, u) :=
    (NetlifyAPIIntegration.deploy_site net token site_id build_path fs disk).1 in
  ok = false -> u = None.
Proof.
  unfold NetlifyAPIIntegration.deploy_site.
  destruct (negb (NetlifyAPIIntegration.build_exists fs)); [now intros|].
  destruct (NetlifyAPIIntegration._create_deployment_zip fs disk)
    as [[zip_path|e] disk1]; [|now intros].
  destruct (NetlifyAPIIntegration.unlink_raises fs); [now intros|].
  destruct (NetlifyAPIIntegration.upload net token site_id)
    as [[[ok msg] u]|e] eqn:Hu; cbn [fst]; [|now intros].
  now apply (netlify_upload_url _ _ _ _ _ _ Hu).
Qed.

(** X21.  [NetlifyPlatform.execute_deployment], with the command-line
    deployment read by [NetlifyCLIIntegration.deploy_site]: whichever way
    is taken, a failed deployment carries no address, and no result
    carries a deployment id. *)
Theorem netlify_failure_has_no_url
        (env : NetlifyPlatform.netlify_env) (w : world)
        (self : NetlifyPlatform.t) (project_path output_dir : string)
        (disk : gset string) :
  cli_is_modelled env ->
  let r := (NetlifyPlatform.execute_deployment env w self project_path
              output_dir disk).1 in
  (success r = false -> url r = None) /\ deployment_id r = None.
Proof.
  intros Hcli. cbv zeta.
  unfold NetlifyPlatform.execute_deployment.
  destruct (NetlifyPlatform.use_cli self && cli_available w Netlify).
  - cbn [fst]. unfold NetlifyPlatform._deploy_via_cli.
    destruct (Hcli project_path output_dir) as [run ->].
    pose proof (netlify_cli_results "" run) as Hr.
    destruct (NetlifyCLIIntegration.deploy_site run) as [[ok msg] u].
    destruct (NetlifyCLIIntegration.create_site "" run) as [[created msg'] sid].
    destruct Hr as (_ & _ & Hfail & _).
    assert (Hd : (success (NetlifyPlatform.result_of (ok, msg, u)) = false ->
                  url (NetlifyPlatform.result_of (ok, msg, u)) = None) /\
                 deployment_id (NetlifyPlatform.result_of (ok, msg, u)) = None).
    { cbn. split; [intros Hok; now apply Hfail | reflexivity]. }
    repeat case_match; try exact Hd; split; reflexivity.
  - repeat case_match; cbn [fst]; try (split; reflexivity).
    unfold NetlifyPlatform._deploy_via_api.
    match goal with
    | |- context [NetlifyAPIIntegration.deploy_site ?n ?t ?s ?b ?f ?d] =>
        pose proof (netlify_api_deploy_url n t s b f d) as Ha;
        destruct (NetlifyAPIIntegration.deploy_site n t s b f d)
          as [[[ok msg] u] disk']
    end.
    cbn in *. split; [exact Ha | reflexivity].
Qed.

Lemma netlify_failure_has_no_url_witness :
  let r := (NetlifyPlatform.execute_deployment
              (netlify_cli_ends refused_deploy)
              all_sources netlify_cli_site "." "build" ∅).1 in
  cli_is_modelled (netlify_cli_ends refused_deploy) /\
  NetlifyPlatform.use_cli netlify_cli_site && cli_available all_sources Netlify
  = true /\
  success r = false /\ message r = "Deployment failed: Error: Unauthorized" /\
  url r = None /\ deployment_id r = None.
Proof.
  assert (Hcli : cli_is_modelled (netlify_cli_ends refused_deploy)).
  { intros project_path output_dir. exists (Return refused_deploy). reflexivity. }
  destruct (netlify_failure_has_no_url (netlify_cli_ends refused_deploy)
              all_sources netlify_cli_site "." "build" ∅ Hcli) as [Hurl Hid].
  split; [exact Hcli|]. split; [reflexivity|]. split; [reflexivity|].
  split; [reflexivity|]. split; [apply Hurl; reflexivity | exact Hid].
Defined.

(** ** [github/auto_creation.py]: whether and what to create *)

(** X22.  [should_create_repository] declines, with the reason
    [Git repository with GitHub remote already exists], exactly when
    [git status] succeeds, the output of [git remote -v] holds the letters
    [origin] somewhere, and [git remote get-url origin] fails, prints
    nothing, or prints a text that holds [github.com];
    [auto_create_repository] then asks for nothing and returns
    [(True, reason, None)], so that the caller is left without a
    repository name. *)
Theorem creation_declined `{utils_errors} (env : GitHubRepoCreation.repo_env)
        (fuel : nat) (token project_name : string) :
  truthy (Some token) = true ->
  let declined :=
    GitQueries.is_git_repository (GitHubRepoCreation.git env) = Return true /\
    GitQueries.has_remote_origin (GitHubRepoCreation.git env) = true /\
    (truthy (GitQueries.get_remote_origin_url (GitHubRepoCreation.git env)) = false \/
     exists url,
       GitQueries.get_remote_origin_url (GitHubRepoCreation.git env) = Some url /\
       contains "github.com" url = true) in
  ((exists reason,
       GitHubRepoCreation.should_create_repository env = Return (false, reason))
   <-> declined) /\
  (declined ->
   GitHubRepoCreation.auto_create_repository env fuel (Some token) project_name
   = Some ((true, "Git repository with GitHub remote already exists", None), [])).
Proof.
  intros Ht declined.
  assert (Hiff : (exists reason,
                     GitHubRepoCreation.should_create_repository env
                     = Return (false, reason)) <-> declined).
  { unfold declined, GitHubRepoCreation.should_create_repository, bind.
    destruct (GitQueries.is_git_repository (GitHubRepoCreation.git env))
      as [[|]|e]; cbn [negb].
    - destruct (GitQueries.has_remote_origin (GitHubRepoCreation.git env));
        cbn [negb].
      + destruct (GitQueries.get_remote_origin_url (GitHubRepoCreation.git env))
          as [url|].
        * change (default "" (Some url)) with url.
          destruct (truthy (Some url)) eqn:Hu; cbn [andb].
          -- destruct (contains "github.com" url) eqn:Hc; cbn [negb].
             ++ split; [intros _|eauto].
                repeat split. right. eauto.
             ++ split; [intros [reason Hr]; discriminate|].
                intros (_ & _ & [?|(url' & [= <-] & ?)]); congruence.
          -- split; [intros _|eauto]. repeat split. now left.
        * split; [intros _|eauto]. repeat split. now left.
      + split; [intros [reason Hr]; discriminate|].
        intros (_ & ? & _); discriminate.
    - split; [intros [reason Hr]; discriminate|].
      intros (? & _); discriminate.
    - split; [intros [reason Hr]; discriminate|].
      intros (? & _); discriminate. }
  split; [exact Hiff|]. intros Hd.
  unfold GitHubRepoCreation.auto_create_repository. rewrite Ht. cbn [negb].
  destruct Hd as (Hrepo & Horigin & Hurl).
  unfold GitHubRepoCreation.should_create_repository, bind.
  rewrite Hrepo, Horigin. cbn [negb].
  destruct Hurl as [Hu|(url & Hu & Hc)].
  - now rewrite Hu.
  - rewrite Hu. change (default "" (Some url)) with url.
    rewrite Hc. cbn [negb]. now rewrite andb_false_r.
Qed.

Lemma creation_declined_witness :
  @GitHubRepoCreation.auto_create_repository sample_errors in_upstream_clone
    3 (Some "ghp_abc") "my_site"
  = Some ((true, "Git repository with GitHub remote already exists", None), []).
Proof.
  destruct (@creation_declined sample_errors in_upstream_clone 3 "ghp_abc"
              "my_site" eq_refl) as [_ Hd].
  apply Hd. repeat split. now left.
Defined.

(** X23.  A platform object without a repository name, in a project
    where [should_create_repository] declines: the creation that
    [validate_credentials] calls returns no name, and the validation fails
    with [Repository name not configured] before any request is made
    with the token. *)
Theorem declined_creation_fails_validation `{utils_errors}
        (api : GitHubPlatform.github_api) (w : world)
        (env : GitHubRepoCreation.repo_env) (self : GitHubPlatform.t)
        (token cwd reason : string) :
  creation_is_modelled api env ->
  GitHubRepoCreation.should_create_repository env = Return (false, reason) ->
  GitHubPlatform.token self = Some token ->
  truthy (Some token) = true ->
  GitHubPlatform.auto_creation self = Some token ->
  truthy (GitHubPlatform.repo_name self) = false ->
  getcwd w = Return cwd ->
  GitHubPlatform.validate_credentials api w self
  = (Return (false, "Repository name not configured"), self).
Proof.
  intros Hmodel Hdecl Htok Ht Hac Hrepo Hcwd.
  apply retry_return.
  unfold GitHubPlatform.validate_credentials_body,
    GitHubPlatform.auto_create_block.
  rewrite Htok, Ht, Hac, Hrepo, Hcwd. cbn [negb].
  destruct (Hmodel token (basename cwd) Ht) as (fuel & requests & Hcall).
  unfold GitHubRepoCreation.auto_create_repository in Hcall.
  rewrite Ht, Hdecl in Hcall. cbn [negb] in Hcall.
  injection Hcall as Hcall _. rewrite <- Hcall. cbn [andb truthy].
  destruct (GitHubPlatform.repo_name self) as [name|] eqn:Hn;
    [|reflexivity].
  now rewrite Hrepo.
Qed.

Lemma declined_creation_fails_validation_witness :
  @GitHubPlatform.validate_credentials sample_errors upstream_clone_api
    no_sources unnamed_site
  = (Return (false, "Repository name not configured"), unnamed_site).
Proof.
  apply (@declined_creation_fails_validation sample_errors upstream_clone_api
           no_sources in_upstream_clone unnamed_site "ghp_abc"
           "/home/dev/my_site"
           "Git repository with GitHub remote already exists");
    try reflexivity.
  intros token project_name Ht. exists 0, [].
  unfold GitHubRepoCreation.auto_create_repository. rewrite Ht. reflexivity.
Defined.
Lemma configure_git_remote_requests (env : GitHubRepoCreation.repo_env)
      (clone_url : string) (q : GitHubRepoCreation.request) :
  q ∈ GitHubRepoCreation._configure_git_remote env clone_url ->
  (q = GitHubRepoCreation.GitInit /\
   GitQueries.is_git_repository (GitHubRepoCreation.git env) = Return false) \/
  (q = GitHubRepoCreation.GitRemoteAdd clone_url /\
   GitQueries.has_remote_origin (GitHubRepoCreation.git env) = false).
Proof.
  unfold GitHubRepoCreation._configure_git_remote.
  destruct (GitQueries.is_git_repository (GitHubRepoCreation.git env))
    as [[|]|e];
    destruct (GitQueries.has_remote_origin (GitHubRepoCreation.git env));
    cbn [negb]; try destruct (GitHubRepoCreation.git_init_ok env);
    rewrite ?elem_of_cons, ?elem_of_nil; intuition auto.
Qed.

Lemma configure_git_remote_creates_nothing (env : GitHubRepoCreation.repo_env)
      (clone_url : string) :
  List.filter creates_repo (GitHubRepoCreation._configure_git_remote env clone_url)
  = [].
Proof.
  unfold GitHubRepoCreation._configure_git_remote.
  repeat case_match; reflexivity.
Qed.

Lemma creation_failed_result `{utils_errors} (e : exn) :
  exists message,
    GitHubRepoCreation.creation_failed e = (false, message, None).
Proof. destruct e; eexists; reflexivity. Qed.

(** The five facts below, for a call that fails before it has asked
    for anything. *)
Lemma nothing_asked_holds (env : GitHubRepoCreation.repo_env)
      (message : string) :
  let requests : list GitHubRepoCreation.request := [] in
  List.length (List.filter creates_repo requests) <= 1 /\
  (false = false -> @None string = None) /\
  (forall full, @None string = Some full ->
                false = true /\
                exists name clone_url,
                  GitHubRepoCreation.create_repo env name
                  = Return (full, clone_url) /\
                  GitHubRepoCreation.CreateRepo name ∈ requests /\
                  GitHubRepoCreation.EnablePages full ∈ requests /\
                  forall url, GitHubRepoCreation.GitRemoteAdd url ∈ requests ->
                              url = clone_url) /\
  (forall url, GitHubRepoCreation.GitRemoteAdd url ∈ requests ->
               GitQueries.has_remote_origin (GitHubRepoCreation.git env)
               = false) /\
  (GitHubRepoCreation.GitInit ∈ requests ->
   GitQueries.is_git_repository (GitHubRepoCreation.git env) = Return false).
Proof.
  cbv zeta. cbn [List.filter length].
  repeat split; try lia; try discriminate;
    intros; match goal with Hx : _ ∈ [] |- _ => inversion Hx end.
Qed.

(** X24.  [auto_create_repository]: the call does not return only when
    the name probing does not; when it returns, at most one repository
    has been asked for, a repository name is returned only together with
    success and is the full name of the repository that was created, a
    failure returns no name, [git init] has run only outside a repository,
    and a remote was added only where [has_remote_origin] saw none, with
    the clone address of the new repository. *)
Theorem repository_is_created_once `{utils_errors}
        (env : GitHubRepoCreation.repo_env) (fuel : nat)
        (token : option string) (project_name : string) :
  match GitHubRepoCreation.auto_create_repository env fuel token project_name with
  | Some ((ok, _, full_name), requests) =>
      List.length (List.filter creates_repo requests) <= 1 /\
      (ok = false -> full_name = None) /\
      (forall full, full_name = Some full ->
                    ok = true /\
                    exists name clone_url,
                      GitHubRepoCreation.create_repo env name
                      = Return (full, clone_url) /\
                      GitHubRepoCreation.CreateRepo name ∈ requests /\
                      GitHubRepoCreation.EnablePages full ∈ requests /\
                      forall url, GitHubRepoCreation.GitRemoteAdd url ∈ requests ->
                                  url = clone_url) /\
      (forall url, GitHubRepoCreation.GitRemoteAdd url ∈ requests ->
                   GitQueries.has_remote_origin (GitHubRepoCreation.git env)
                   = false) /\
      (GitHubRepoCreation.GitInit ∈ requests ->
       GitQueries.is_git_repository (GitHubRepoCreation.git env) = Return false)
  | None =>
      truthy token = true /\
      exists login,
        GitHubRepoCreation.user_login env = Return login /\
        GitHubAutoCreation._generate_suggested_name
          fuel (GitHubRepoCreation.taken env) project_name login = None
  end.
Proof.
  unfold GitHubRepoCreation.auto_create_repository.
  pose proof (nothing_asked_holds env) as Hquiet. cbv zeta in Hquiet.
  destruct (negb (truthy token)) eqn:Htok; [now apply Hquiet|].
  apply negb_false_iff in Htok.
  destruct (GitHubRepoCreation.should_create_repository env)
    as [[[|] reason]|e].
  2:{ repeat split; try discriminate; try (cbn; lia);
      intros; match goal with Hx : _ ∈ [] |- _ => inversion Hx end. }
  2:{ destruct (creation_failed_result e) as [message ->]. now apply Hquiet. }
  destruct (GitHubRepoCreation.user_login env) as [login|e] eqn:Hlogin.
  2:{ destruct (creation_failed_result e) as [message ->]. now apply Hquiet. }
  destruct (GitHubAutoCreation._generate_suggested_name fuel
              (GitHubRepoCreation.taken env) project_name login)
    as [suggested_name|] eqn:Hname; [|eauto].
  destruct (GitHubRepoCreation.typed env) as [line|e].
  2:{ destruct (creation_failed_result e) as [message ->]. now apply Hquiet. }
  destruct (GitHubRepoCreation._prompt_for_repo_name suggested_name line)
    as [repo_name|]; [|now apply Hquiet].
  destruct (negb (truthy (Some repo_name))); [now apply Hquiet|].
  destruct (GitHubRepoCreation.create_repo env repo_name)
    as [[full_name clone_url]|e] eqn:Hcreate.
  - cbn [List.filter creates_repo].
    rewrite configure_git_remote_creates_nothing.
    assert (Hin : forall q,
               q ∈ GitHubRepoCreation.CreateRepo repo_name
                   :: GitHubRepoCreation.EnablePages full_name
                   :: GitHubRepoCreation._configure_git_remote env clone_url ->
               q = GitHubRepoCreation.CreateRepo repo_name \/
               q = GitHubRepoCreation.EnablePages full_name \/
               (q = GitHubRepoCreation.GitInit /\
                GitQueries.is_git_repository (GitHubRepoCreation.git env)
                = Return false) \/
               (q = GitHubRepoCreation.GitRemoteAdd clone_url /\
                GitQueries.has_remote_origin (GitHubRepoCreation.git env) = false)).
    { intros q [->|[->|Hq]%elem_of_cons]%elem_of_cons; auto.
      apply configure_git_remote_requests in Hq. tauto. }
    split; [cbn; lia|]. split; [discriminate|]. split; [|split].
    + intros full [= <-]. split; [reflexivity|].
      exists repo_name, clone_url. split; [exact Hcreate|].
      split; [now left|]. split; [right; now left|].
      intros url [?|[?|[[? _]|[[= ->] _]]]]%Hin; try discriminate. reflexivity.
    + intros url [?|[?|[[? _]|[_ Hr]]]]%Hin; try discriminate. exact Hr.
    + intros [?|[?|[[_ Hg]|[? _]]]]%Hin; try discriminate. exact Hg.
  - destruct (creation_failed_result e) as [message ->].
    cbn [List.filter creates_repo length].
    repeat split; try lia; try discriminate;
      intros; match goal with
              | Hx : _ ∈ [_] |- _ =>
                  apply list_elem_of_singleton in Hx; discriminate Hx
              end.
Qed.

(** ** [github/platform.py]: what a successful validation leaves *)

(** A success that comes out of the retry wrapper was returned by the
    body, on an object that earlier attempts may have changed. *)
Lemma attempt_success `{utils_errors} {St : Type} (inv : St -> Prop)
      (body : St -> outcome (bool * string) * St) (n : nat) (s s' : St)
      (message : string) :
  wrapper_reports_failures ->
  (forall x, inv x -> inv (body x).2) ->
  inv s ->
  Retry.attempt n body s = (Return (true, message), s') ->
  exists s0, inv s0 /\ body s0 = (Return (true, message), s').
Proof.
  intros Hw Hinv. revert s. induction n as [|n IH]; intros s Hs;
    cbn [Retry.attempt]; pose proof (Hinv s Hs) as Hs1;
    destruct (body s) as [[r|e] s1] eqn:Hb; cbn [snd] in Hs1;
    try (intros [= -> ->]; eauto; fail);
    destruct (Retry.is_transient e); try (apply IH; assumption);
    intros [= Hr _]; destruct (Hw e message) as [H1 H2]; congruence.
Qed.

Lemma remote_check_success `{utils_errors} (api : GitHubPlatform.github_api)
      (self self' : GitHubPlatform.t) (tok name message : string) :
  GitHubPlatform.remote_check api self tok name = (Return (true, message), self') ->
  self' = GitHubPlatform.set_repo_obj (GitHubPlatform.set_client self tok) tok name.
Proof.
  unfold GitHubPlatform.remote_check, GitHubPlatform.permission_check.
  repeat case_match; intros; simplify_eq; reflexivity.
Qed.

Lemma auto_create_block_keeps `{utils_errors} (api : GitHubPlatform.github_api)
      (w : world) (self : GitHubPlatform.t) :
  GitHubPlatform.repo_name self = GitHubPlatform.deployment_repo_name self ->
  let self1 := (GitHubPlatform.auto_create_block api w self).2 in
  GitHubPlatform.token self1 = GitHubPlatform.token self /\
  GitHubPlatform.repo_name self1 = GitHubPlatform.deployment_repo_name self1.
Proof.
  intros Hsame. unfold GitHubPlatform.auto_create_block.
  repeat case_match; simplify_eq; cbn; auto.
Qed.

Lemma body_keeps_names `{utils_errors} (api : GitHubPlatform.github_api)
      (w : world) (self : GitHubPlatform.t) :
  GitHubPlatform.repo_name self = GitHubPlatform.deployment_repo_name self ->
  let self' := (GitHubPlatform.validate_credentials_body api w self).2 in
  GitHubPlatform.repo_name self' = GitHubPlatform.deployment_repo_name self'.
Proof.
  intros Hsame. unfold GitHubPlatform.validate_credentials_body.
  pose proof (auto_create_block_keeps api w self Hsame) as [_ Hk].
  destruct (GitHubPlatform.token self) as [tok|]; [|exact Hsame].
  destruct (negb (truthy (Some tok))); [exact Hsame|].
  destruct (GitHubPlatform.auto_create_block api w self) as [[[]|e] self1];
    cbn [snd] in *; [|exact Hk].
  destruct (GitHubPlatform.repo_name self1) as [name|] eqn:Hname;
    cbn [snd]; [|congruence].
  destruct (negb (truthy (Some name))); cbn [snd]; [congruence|].
  unfold GitHubPlatform.remote_check, GitHubPlatform.permission_check.
  repeat case_match; cbn; congruence.
Qed.

Lemma body_success_ready `{utils_errors} (api : GitHubPlatform.github_api)
      (w : world) (self self' : GitHubPlatform.t) (message : string) :
  GitHubPlatform.repo_name self = GitHubPlatform.deployment_repo_name self ->
  GitHubPlatform.validate_credentials_body api w self
  = (Return (true, message), self') ->
  ready_for_deployment self'.
Proof.
  intros Hsame. unfold GitHubPlatform.validate_credentials_body.
  pose proof (auto_create_block_keeps api w self Hsame) as [Htok1 Hsame1].
  destruct (GitHubPlatform.token self) as [tok|] eqn:Htok; [|discriminate].
  destruct (negb (truthy (Some tok))); [discriminate|].
  destruct (GitHubPlatform.auto_create_block api w self) as [[[]|e] self1];
    cbn [snd] in *; [|discriminate].
  destruct (GitHubPlatform.repo_name self1) as [name|] eqn:Hname; [|discriminate].
  destruct (negb (truthy (Some name))); [discriminate|].
  intros Hr. apply remote_check_success in Hr as ->.
  exists tok, name. cbn. repeat split; auto.
Qed.

(** X25.  A validation of [GitHubPlatform] that succeeds leaves the
    object with its client, its repository object and its secrets
    management set, for the token it holds and the repository name that
    it and its deployment helper have by then.  So, with a retry wrapper
    that does not turn failures into successes, [prepare_deployment]
    answers as [validate_credentials] does, and its own refusal,
    [Repository not accessible], is never given. *)
Theorem prepare_follows_validation `{utils_errors}
        (api : GitHubPlatform.github_api) (w : world)
        (self : GitHubPlatform.t) :
  wrapper_reports_failures ->
  GitHubPlatform.repo_name self = GitHubPlatform.deployment_repo_name self ->
  let '(v, self') := GitHubPlatform.validate_credentials api w self in
  let '(p, self'') := GitHubPlatformPrepare.prepare_deployment api w self in
  self'' = self' /\
  ((exists message, v = Return (true, message)) ->
   ready_for_deployment self' /\ p = Return (true, "Ready for deployment")) /\
  (forall message, v = Return (false, message) -> p = Return (false, message)) /\
  (forall e, v = Raise e -> p = Raise e).
Proof.
  intros Hw Hsame.
  unfold GitHubPlatformPrepare.prepare_deployment.
  destruct (GitHubPlatform.validate_credentials api w self)
    as [[[[|] message]|e] self'] eqn:Hv; cbn [negb].
  - assert (Hready : ready_for_deployment self').
    { unfold GitHubPlatform.validate_credentials, Retry.retry_with_backoff in Hv.
      destruct (attempt_success
                  (fun x => GitHubPlatform.repo_name x
                            = GitHubPlatform.deployment_repo_name x)
                  _ _ _ _ _ Hw (body_keeps_names api w) Hsame Hv)
        as (s0 & Hs0 & Hb).
      exact (body_success_ready api w s0 self' message Hs0 Hb). }
    pose proof Hready as (tok & name & _ & _ & _ & _ & Hobj & _).
    rewrite Hobj.
    split; [reflexivity|]. split; [auto|]. split; [discriminate|discriminate].
  - split; [reflexivity|]. split; [intros [m [= ]]|].
    split; [now intros m [= <-] | discriminate].
  - split; [reflexivity|]. split; [intros [m [= ]]|].
    split; [discriminate | now intros e' [= <-]].
Qed.

Lemma prepare_follows_validation_witness :
  let '(v, self') :=
    @GitHubPlatform.validate_credentials sample_errors
      (AuthCommand.github_api accepts_cli_token) all_sources
      (GitHubPlatform.init
         {| GitHubPlatform.cfg_repo := Some "user/repo";
            GitHubPlatform.cfg_method := None;
            GitHubPlatform.cfg_branch := None |} all_sources) in
  ready_for_deployment self'.
Proof.
  pose proof (@prepare_follows_validation sample_errors
                (AuthCommand.github_api accepts_cli_token) all_sources
                (GitHubPlatform.init
                   {| GitHubPlatform.cfg_repo := Some "user/repo";
                      GitHubPlatform.cfg_method := None;
                      GitHubPlatform.cfg_branch := None |} all_sources)) as Hw.
  destruct (@GitHubPlatform.validate_credentials sample_errors
              (AuthCommand.github_api accepts_cli_token) all_sources
              (GitHubPlatform.init
                 {| GitHubPlatform.cfg_repo := Some "user/repo";
                    GitHubPlatform.cfg_method := None;
                    GitHubPlatform.cfg_branch := None |} all_sources))
    as [v self'] eqn:Hv.
  destruct (@GitHubPlatformPrepare.prepare_deployment sample_errors
              (AuthCommand.github_api accepts_cli_token) all_sources
              (GitHubPlatform.init
                 {| GitHubPlatform.cfg_repo := Some "user/repo";
                    GitHubPlatform.cfg_method := None;
                    GitHubPlatform.cfg_branch := None |} all_sources))
    as [p self''].
  destruct Hw as (_ & Hready & _).
  - intros e message. split; discriminate.
  - reflexivity.
  - apply Hready. vm_compute in Hv. injection Hv as <- _. eauto.
Defined.

(** ** [utils/config.py]: the cache *)

(** X26.  [Config] answers from its cache as soon as the cache is not
    empty.  After [save(data)] with a non-empty [data], [get] returns the
    entries of [data] whatever [deployx.yml] holds by then, also when the
    save itself failed and the file was never written, and [load] on a
    file that has been removed returns the empty dictionary while [get]
    goes on returning the entries of [data].  A fresh object reads the
    file: for a document that is a non-empty dictionary, [get] returns its
    entry, or the default, and keeps the document as its cache. *)
Theorem config_answers_from_cache (can_write : bool) (dumped : json)
        (self : Config.t) (file later : Config.config_file)
        (data : list (string * json)) (key : string) (dflt : json) :
  data <> [] ->
  let '(r, self', file') := Config.save can_write dumped self file data in
  Config.get self' later key dflt
  = (Return (default dflt (Json.assoc key data)), self') /\
  Config.load self' Config.Absent = (Return (JObj []), self') /\
  (can_write = false -> file' = file /\ exists e, r = Raise e) /\
  (can_write = true -> file' = Config.Document dumped /\ r = Return tt) /\
  Config.get Config.init (Config.Document (JObj data)) key dflt
  = (Return (default dflt (Json.assoc key data)),
     {| Config._data := JObj data |}).
Proof.
  intros Hne. unfold Config.save.
  assert (Ht : Json.truthy (JObj data) = true)
    by (destruct data; [contradiction | reflexivity]).
  assert (Hget : forall f, Config.get {| Config._data := JObj data |} f key dflt
                           = (Return (default dflt (Json.assoc key data)),
                              {| Config._data := JObj data |})).
  { intros f. unfold Config.get. cbn [Config._data]. rewrite Ht. reflexivity. }
  assert (Hfresh : Config.get Config.init (Config.Document (JObj data)) key dflt
                   = (Return (default dflt (Json.assoc key data)),
                      {| Config._data := JObj data |})).
  { unfold Config.get, Config.init, Config.load. cbn [Config._data].
    change (Json.truthy (JObj [])) with false. cbn [negb].
    rewrite Ht. reflexivity. }
  destruct can_write.
  - split; [apply Hget|]. split; [reflexivity|].
    split; [discriminate|]. split; [auto | exact Hfresh].
  - split; [apply Hget|]. split; [reflexivity|].
    split; [eauto|]. split; [discriminate | exact Hfresh].
Qed.

Lemma config_answers_from_cache_witness :
  Config.get {| Config._data := JObj [("platform", JStr "github")] |}
    Config.Absent "platform" JNull
  = (Return (JStr "github"),
     {| Config._data := JObj [("platform", JStr "github")] |}).
Proof.
  pose proof (config_answers_from_cache false JNull Config.init Config.Absent
                Config.Absent [("platform", JStr "github")] "platform" JNull)
    as Hw.
  cbv beta iota zeta delta [Config.save] in Hw.
  apply Hw. discriminate.
Defined.
